(** * Fan actuation, tachometer monitoring and temperature control

  A shallow embedding of [fan.py] and [temperature_fan.py].

  Numbers.  The Python code computes with floats; here every float is an
  exact rational ([Q]).  Comparisons ([<], [<=], [==]) are the decidable
  tests on [Q]; Python truthiness of a number ([if x:], [not x]) is
  "[x] is not zero".  The arithmetic of the definitions is exact; where a
  property depends on the rounding of the floats, the definitions of
  [FloatFan] and [FloatSlope] take the operations from a record
  ([Float.ops]) of which only the order is assumed.

  Effects.  Calls on the hardware sinks ([set_pwm], [set_digital]) and on
  the host ([respond_raw], [invoke_shutdown]) are recorded, in emission
  order, in the list every operation returns next to the new state. *)

From Stdlib Require Import QArith Qround Qminmax Lqa ZArith Lia List Bool.
From stdpp Require gmap.
Import ListNotations.

Local Open Scope Q_scope.

(** ** Python numerics on rationals *)

Module Py.

Definition lt (a b : Q) : bool := negb (Qle_bool b a).
Definition le (a b : Q) : bool := Qle_bool a b.
Definition gt (a b : Q) : bool := lt b a.
Definition ge (a b : Q) : bool := le b a.
Definition eq (a b : Q) : bool := Qeq_bool a b.

(** [if x:] on a number. *)
Definition truthy (x : Q) : bool := negb (Qeq_bool x 0).

(** [if x:] on a value that is [None] or a number. *)
Definition truthy_opt (x : option Q) : bool :=
  match x with
  | None => false
  | Some t => truthy t
  end.

(** Built-in [max(a, b)] and [min(a, b)]: the first argument is kept
    unless the second is strictly better. *)
Definition max (a b : Q) : Q := if lt a b then b else a.
Definition min (a b : Q) : Q := if lt b a then b else a.

Definition abs (a : Q) : Q := if lt a 0 then - a else a.

(** [math.trunc]: rounding toward zero. *)
Definition trunc (a : Q) : Z := Z.quot (Qnum a) (Zpos (Qden a)).

(** [round(x, 2)] of the float whose exact value is [a]: the multiple of
    1/100 nearest to that exact value, ties to the even one.  (A decimal
    literal such as 2.675 is not the float Python reads from it, which lies
    below the tie.) *)
Definition round2 (a : Q) : Q :=
  let s := a * 100 in
  let f := Qfloor s in
  let r := s - inject_Z f in
  if lt r (1 # 2) then inject_Z f / 100
  else if lt (1 # 2) r then inject_Z (f + 1) / 100
  else if Z.even f then inject_Z f / 100
  else inject_Z (f + 1) / 100.

(** The exceptions the arithmetic of the controllers can raise. *)
Inductive exn := ZeroDivisionError | ValueError.

Inductive res := Val (v : Q) | Exc (e : exn).

(** [a / b] on floats. *)
Definition div (a b : Q) : res :=
  if eq b 0 then Exc ZeroDivisionError else Val (a / b).

End Py.

(** ** fan.py: class FanTachometer *)

Module FanTachometer.

(** [tach_loss_action]: the configured choice among [self.shutdown],
    [self.warning] and [lambda _: None]. *)
Inductive action := Shutdown | Warning | NoAction.

(** The fields fixed by [initialize_frequency_counter] and
    [initialize_tach_fail_options].  [tachometer_ppr] is an integer read
    with [minval=1]. *)
Record config := {
  ppr : positive;
  tach_loss_interval : Q;
  warning_repeat_interval : Q;
  tach_loss_action : action
}.

Record state := {
  tach_loss_time : option Q;
  last_warning_time : Q;
  warning_issued : bool
}.

(** What a sample does to the host.  [ActionCall] marks the call
    [self.tach_loss_action(eventtime)] itself; [RespondRaw] and
    [InvokeShutdown] are the calls the action makes. *)
Inductive event :=
| ActionCall (eventtime : Q)
| RespondRaw (eventtime : Q)
| InvokeShutdown (eventtime : Q).

Definition init : state :=
  {| tach_loss_time := None; last_warning_time := 0; warning_issued := false |}.

Definition set_tach_loss_time (v : option Q) (s : state) : state :=
  {| tach_loss_time := v;
     last_warning_time := last_warning_time s;
     warning_issued := warning_issued s |}.

Definition set_last_warning_time (v : Q) (s : state) : state :=
  {| tach_loss_time := tach_loss_time s;
     last_warning_time := v;
     warning_issued := warning_issued s |}.

Definition shutdown (s : state) (eventtime : Q) : state * list event :=
  (s, [InvokeShutdown eventtime]).

Definition warning (c : config) (s : state) (eventtime : Q)
  : state * list event :=
  if Py.eq (warning_repeat_interval c) 0 && warning_issued s then (s, [])
  else
    let interval := eventtime - last_warning_time s in
    if negb (Py.truthy (last_warning_time s))
       || Py.ge interval (warning_repeat_interval c)
    then (set_last_warning_time eventtime s, [RespondRaw eventtime])
    else (s, []).

Definition call_action (c : config) (s : state) (eventtime : Q)
  : state * list event :=
  match tach_loss_action c with
  | Shutdown => shutdown s eventtime
  | Warning => warning c s eventtime
  | NoAction => (s, [])
  end.

(** [get_status].  [c = None] is [self._freq_counter is None];
    [frequency] is what [self._freq_counter.get_frequency()] returns and
    [last_fan_value] is [self.fan.last_fan_value]. *)
Definition get_status (c : option config) (s : state)
  (frequency last_fan_value eventtime : Q)
  : state * list event * option Q :=
  match c with
  | Some c =>
      let rpm := frequency * 30 / inject_Z (Zpos (ppr c)) in
      let s :=
        if Py.gt rpm 0 && Py.truthy_opt (tach_loss_time s)
        then set_tach_loss_time None s else s in
      if Py.eq rpm 0 && Py.gt last_fan_value 0 then
        match tach_loss_time s with
        | Some t0 =>
            if negb (Py.truthy t0) then
              (set_tach_loss_time (Some eventtime) s, [], Some rpm)
            else if Py.gt (eventtime - t0) (tach_loss_interval c) then
              let '(s', evs) := call_action c s eventtime in
              (s', ActionCall eventtime :: evs, Some rpm)
            else (s, [], Some rpm)
        | None => (set_tach_loss_time (Some eventtime) s, [], Some rpm)
        end
      else (s, [], Some rpm)
  | None => (s, [], None)
  end.

(** A tachometer polled over time: one [(frequency, last_fan_value,
    eventtime)] per call of [get_status]. *)
Fixpoint run (c : option config) (s : state) (samples : list (Q * Q * Q))
  : state * list event :=
  match samples with
  | [] => (s, [])
  | (frequency, last_fan_value, eventtime) :: rest =>
      let '(s1, evs1, _) := get_status c s frequency last_fan_value eventtime in
      let '(s2, evs2) := run c s1 rest in
      (s2, evs1 ++ evs2)
  end.

Definition is_action_call (e : event) : bool :=
  match e with ActionCall _ => true | _ => false end.

Definition is_respond_raw (e : event) : bool :=
  match e with RespondRaw _ => true | _ => false end.

End FanTachometer.

(** ** fan.py: class Fan *)

Module Fan.

Definition FAN_MIN_TIME : Q := 0.100.

(** The fields fixed by [__init__].  [enable_pin] is "[self.enable_pin] is
    not [None]"; [tachometer_config] is [None] without a tachometer pin. *)
Record config := {
  max_power : Q;
  kick_start_time : Q;
  off_below : Q;
  pwm_fan : bool;
  enable_pin : bool;
  tachometer_config : option FanTachometer.config
}.

(** [__init__]: the 4-wire curve is selected exactly when an enable pin is
    configured. *)
Definition configure (max_power kick_start_time off_below : Q)
  (enable_pin : bool) (tach : option FanTachometer.config) : config :=
  {| max_power := max_power;
     kick_start_time := kick_start_time;
     off_below := off_below;
     pwm_fan := enable_pin;
     enable_pin := enable_pin;
     tachometer_config := tach |}.

Record state := {
  last_fan_value : Q;
  last_fan_time : Q;
  tachometer : FanTachometer.state
}.

Definition init : state :=
  {| last_fan_value := 0; last_fan_time := 0;
     tachometer := FanTachometer.init |}.

(** Scheduled hardware commands: [enable_pin.set_digital] and
    [mcu_fan.set_pwm]. *)
Inductive command :=
| SetDigital (print_time : Q) (level : bool)
| SetPwm (print_time : Q) (value : Q).

Definition command_time (k : command) : Q :=
  match k with
  | SetDigital t _ => t
  | SetPwm t _ => t
  end.

(** The local [fan_speed] of [set_speed], as it stands when the
    [value == self.last_fan_value] test is reached. *)
Definition fan_speed (c : config) (value : Q) : Q :=
  let fan_speed :=
    if negb (pwm_fan c) then
      let fan_speed := 0.2 + 0.8 * value in
      if Py.le fan_speed 0.2 then 0 else fan_speed
    else value in
  let fan_speed := if Py.lt value (off_below c) then 0 else fan_speed in
  Py.max 0 (Py.min (max_power c) (fan_speed * max_power c)).

(** The condition guarding the full-power pulse. *)
Definition kick_start (c : config) (s : state) (fan_speed : Q) : bool :=
  Py.truthy fan_speed && Py.lt fan_speed (max_power c)
  && Py.truthy (kick_start_time c)
  && (negb (Py.truthy (last_fan_value s))
      || Py.gt (fan_speed - last_fan_value s) 0.5).

Definition enable_commands (c : config) (s : state) (print_time value : Q)
  : list command :=
  if enable_pin c then
    if Py.gt value 0 && Py.eq (last_fan_value s) 0
    then [SetDigital print_time true]
    else if Py.eq value 0 && Py.gt (last_fan_value s) 0
    then [SetDigital print_time false]
    else []
  else [].

Definition set_speed (c : config) (s : state) (print_time value : Q)
  : state * list command :=
  let fan_speed := fan_speed c value in
  if Py.eq value (last_fan_value s) then (s, [])
  else
    let print_time := Py.max (last_fan_time s + FAN_MIN_TIME) print_time in
    let enable := enable_commands c s print_time value in
    let kick := kick_start c s fan_speed in
    let pulse := if kick then [SetPwm print_time (max_power c)] else [] in
    let print_time :=
      if kick then print_time + kick_start_time c else print_time in
    ({| last_fan_value := value;
        last_fan_time := print_time;
        tachometer := tachometer s |},
     enable ++ pulse ++ [SetPwm print_time fan_speed]).

Definition _handle_request_restart (c : config) (s : state) (print_time : Q)
  : state * list command :=
  set_speed c s print_time 0.

(** A sequence of [set_speed] calls, each [(print_time, value)]. *)
Fixpoint run (c : config) (s : state) (calls : list (Q * Q))
  : state * list command :=
  match calls with
  | [] => (s, [])
  | (print_time, value) :: rest =>
      let '(s1, ks1) := set_speed c s print_time value in
      let '(s2, ks2) := run c s1 rest in
      (s2, ks1 ++ ks2)
  end.

(** Every two neighbours of a command stream are at least [FAN_MIN_TIME]
    apart. *)
Fixpoint spaced (ks : list command) : bool :=
  match ks with
  | k1 :: ((k2 :: _) as rest) =>
      Py.ge (command_time k2 - command_time k1) FAN_MIN_TIME && spaced rest
  | _ => true
  end.

(** The [mcu_fan.set_pwm] calls of a command stream. *)
Definition is_pwm (k : command) : bool :=
  match k with SetPwm _ _ => true | SetDigital _ _ => false end.

Definition pwm_commands (ks : list command) : list command :=
  filter is_pwm ks.

Record status := { speed : Q; rpm : option Q }.

Definition get_status (c : config) (s : state) (frequency eventtime : Q)
  : state * list FanTachometer.event * status :=
  let '(t, evs, rpm) :=
    FanTachometer.get_status (tachometer_config c) (tachometer s)
      frequency (last_fan_value s) eventtime in
  ({| last_fan_value := last_fan_value s;
      last_fan_time := last_fan_time s;
      tachometer := t |},
   evs,
   {| speed := last_fan_value s; rpm := rpm |}).

End Fan.

(** ** temperature_fan.py: class TemperatureFan *)

Module TemperatureFan.

Definition KELVIN_TO_CELSIUS : Q := - 273.15.
Definition MAX_FAN_TIME : Q := 5.0.
Definition AMBIENT_TEMP : Q := 25.
Definition PID_PARAM_BASE : Q := 255.
Definition MAX_TEMP_BUFFER : Q := 0.8.

(** The fields fixed by [__init__]; [speed_delay] is
    [self.sensor.get_report_time_delta()]. *)
Record config := {
  min_temp : Q;
  max_temp : Q;
  min_temp_cutoff : Q;
  target_temp_conf : Q;
  speed_delay : Q;
  max_speed_conf : Q;
  min_speed_conf : Q;
  fan_config : Fan.config
}.

Record state := {
  fan : Fan.state;
  target_temp : Q;
  last_temp : Q;
  last_temp_time : Q;
  next_speed_time : Q;
  last_speed_value : Q;
  max_speed : Q;
  min_speed : Q
}.

Definition init (c : config) : state :=
  {| fan := Fan.init;
     target_temp := target_temp_conf c;
     last_temp := 0;
     last_temp_time := 0;
     next_speed_time := 0;
     last_speed_value := 0;
     max_speed := max_speed_conf c;
     min_speed := min_speed_conf c |}.

Definition set_target_temp (v : Q) (s : state) : state :=
  {| fan := fan s; target_temp := v; last_temp := last_temp s;
     last_temp_time := last_temp_time s;
     next_speed_time := next_speed_time s;
     last_speed_value := last_speed_value s;
     max_speed := max_speed s; min_speed := min_speed s |}.

Definition set_last_temp (v : Q) (s : state) : state :=
  {| fan := fan s; target_temp := target_temp s; last_temp := v;
     last_temp_time := last_temp_time s;
     next_speed_time := next_speed_time s;
     last_speed_value := last_speed_value s;
     max_speed := max_speed s; min_speed := min_speed s |}.

Definition set_field_min_speed (v : Q) (s : state) : state :=
  {| fan := fan s; target_temp := target_temp s; last_temp := last_temp s;
     last_temp_time := last_temp_time s;
     next_speed_time := next_speed_time s;
     last_speed_value := last_speed_value s;
     max_speed := max_speed s; min_speed := v |}.

Definition set_field_max_speed (v : Q) (s : state) : state :=
  {| fan := fan s; target_temp := target_temp s; last_temp := last_temp s;
     last_temp_time := last_temp_time s;
     next_speed_time := next_speed_time s;
     last_speed_value := last_speed_value s;
     max_speed := v; min_speed := min_speed s |}.

Definition set_speed (c : config) (s : state) (read_time value : Q)
  : state * list Fan.command :=
  let value :=
    if Py.le value 0 then 0
    else if Py.lt value (min_speed s) then min_speed s
    else value in
  let value := if Py.le (target_temp s) 0 then 0 else value in
  if (Py.lt read_time (next_speed_time s)
      || negb (Py.truthy (last_speed_value s)))
     && Py.lt (Py.abs (value - last_speed_value s)) 0.05
  then (s, [])
  else
    let speed_time := read_time + speed_delay c in
    let '(f, ks) := Fan.set_speed (fan_config c) (fan s) speed_time value in
    ({| fan := f; target_temp := target_temp s; last_temp := last_temp s;
        last_temp_time := last_temp_time s;
        next_speed_time := speed_time + 0.75 * MAX_FAN_TIME;
        last_speed_value := value;
        max_speed := max_speed s; min_speed := min_speed s |},
     ks).

Definition get_temp (s : state) : Q * Q := (last_temp s, target_temp s).
Definition get_min_speed (s : state) : Q := min_speed s.
Definition get_max_speed (s : state) : Q := max_speed s.

Record status := {
  speed : Q;
  rpm : option Q;
  temperature : Q;
  target : Q
}.

Definition get_status (c : config) (s : state) (frequency eventtime : Q)
  : state * list FanTachometer.event * status :=
  let '(f, evs, st) :=
    Fan.get_status (fan_config c) (fan s) frequency eventtime in
  ({| fan := f; target_temp := target_temp s; last_temp := last_temp s;
      last_temp_time := last_temp_time s;
      next_speed_time := next_speed_time s;
      last_speed_value := last_speed_value s;
      max_speed := max_speed s; min_speed := min_speed s |},
   evs,
   {| speed := Fan.speed st; rpm := Fan.rpm st;
      temperature := Py.round2 (last_temp s);
      target := target_temp s |}).

(** [self.printer.command_error], one constructor per message. *)
Inductive command_error :=
| TemperatureOutOfRange (degrees lo hi : Q)
| MinSpeedGreaterThanMax (min_speed max_speed : Q)
| MinSpeedOutOfRange (speed : Q)
| MaxSpeedOutOfRange (speed : Q).

(** A method that may raise returns the state as the raise leaves it and
    the error, if any. *)
Definition outcome : Type := state * option command_error.

Definition and_then (r : outcome) (k : state -> outcome) : outcome :=
  match r with
  | (s, None) => k s
  | (s, Some e) => (s, Some e)
  end.

Definition set_temp (c : config) (s : state) (degrees : Q) : outcome :=
  if Py.truthy degrees
     && (Py.lt degrees (min_temp c) || Py.gt degrees (max_temp c))
  then (s, Some (TemperatureOutOfRange degrees (min_temp c) (max_temp c)))
  else (set_target_temp degrees s, None).

Definition set_min_speed (s : state) (speed : Q) : outcome :=
  if Py.truthy speed && (Py.lt speed 0 || Py.gt speed 1)
  then (s, Some (MinSpeedOutOfRange speed))
  else (set_field_min_speed speed s, None).

Definition set_max_speed (s : state) (speed : Q) : outcome :=
  if Py.truthy speed && (Py.lt speed 0 || Py.gt speed 1)
  then (s, Some (MaxSpeedOutOfRange speed))
  else (set_field_max_speed speed s, None).

(** The parameters of one [SET_TEMPERATURE_FAN_TARGET] command; [None]
    is a parameter left out. *)
Record gcmd := {
  TARGET : option Q;
  MIN_SPEED : option Q;
  MAX_SPEED : option Q
}.

Definition get_float (p : option Q) (default : Q) : Q :=
  match p with
  | Some v => v
  | None => default
  end.

Definition cmd_SET_TEMPERATURE_FAN_TARGET (c : config) (s : state)
  (g : gcmd) : outcome :=
  let temp := get_float (TARGET g) (target_temp_conf c) in
  and_then (set_temp c s temp) (fun s =>
  let min_speed := get_float (MIN_SPEED g) (min_speed s) in
  let max_speed := get_float (MAX_SPEED g) (max_speed s) in
  if Py.gt min_speed max_speed
  then (s, Some (MinSpeedGreaterThanMax min_speed max_speed))
  else
    and_then (set_min_speed s min_speed) (fun s =>
    set_max_speed s max_speed)).

End TemperatureFan.

(** ** temperature_fan.py: class ControlBangBang *)

Module ControlBangBang.

Record config := { max_delta : Q }.
Record state := { heating : bool }.

Definition init : state := {| heating := false |}.

Definition temperature_callback (tc : TemperatureFan.config) (c : config)
  (tf : TemperatureFan.state) (s : state) (read_time temp : Q)
  : TemperatureFan.state * state * list Fan.command :=
  if Py.lt temp (TemperatureFan.min_temp_cutoff tc) then
    let '(tf, ks) := TemperatureFan.set_speed tc tf read_time 0 in
    (tf, s, ks)
  else
    let '(_, target_temp) := TemperatureFan.get_temp tf in
    let s :=
      if heating s && Py.ge temp (target_temp + max_delta c)
      then {| heating := false |}
      else if negb (heating s) && Py.le temp (target_temp - max_delta c)
      then {| heating := true |}
      else s in
    let '(tf, ks) :=
      if heating s then TemperatureFan.set_speed tc tf read_time 0
      else TemperatureFan.set_speed tc tf read_time
             (TemperatureFan.get_max_speed tf) in
    (tf, s, ks).

End ControlBangBang.

(** ** temperature_fan.py: class ControlPID *)

Module ControlPID.

Record config := {
  Kp : Q;
  Ki : Q;
  Kd : Q;
  min_deriv_time : Q;
  temp_integ_max : Q
}.

Record state := {
  prev_temp : Q;
  prev_temp_time : Q;
  prev_temp_deriv : Q;
  prev_temp_integ : Q
}.

Definition init : state :=
  {| prev_temp := TemperatureFan.AMBIENT_TEMP;
     prev_temp_time := 0;
     prev_temp_deriv := 0;
     prev_temp_integ := 0 |}.

(** [__init__], given the [max_speed] that [get_max_speed()] returns; it is
    read only when [Ki] is not zero.  ([TemperatureFan.__init__] builds the
    controller before it assigns [max_speed]; that order of construction is
    not modelled.) *)
Definition configure (pid_Kp pid_Ki pid_Kd pid_deriv_time max_speed : Q)
  : config :=
  let Ki := pid_Ki / TemperatureFan.PID_PARAM_BASE in
  {| Kp := pid_Kp / TemperatureFan.PID_PARAM_BASE;
     Ki := Ki;
     Kd := pid_Kd / TemperatureFan.PID_PARAM_BASE;
     min_deriv_time := pid_deriv_time;
     temp_integ_max := if Py.truthy Ki then max_speed / Ki else 0 |}.

(** The locals of [temperature_callback], in the order it computes them. *)
Definition temp_deriv (c : config) (s : state) (read_time temp : Q)
  : Py.res :=
  let time_diff := read_time - prev_temp_time s in
  let temp_diff := temp - prev_temp s in
  if Py.ge time_diff (min_deriv_time c) then Py.div temp_diff time_diff
  else
    Py.div (prev_temp_deriv s * (min_deriv_time c - time_diff) + temp_diff)
           (min_deriv_time c).

Definition temp_integ (c : config) (tf : TemperatureFan.state) (s : state)
  (read_time temp : Q) : Q :=
  let time_diff := read_time - prev_temp_time s in
  let temp_err := TemperatureFan.target_temp tf - temp in
  let temp_integ := prev_temp_integ s + temp_err * time_diff in
  Py.max 0 (Py.min (temp_integ_max c) temp_integ).

Definition co (c : config) (tf : TemperatureFan.state) (s : state)
  (read_time temp temp_deriv : Q) : Q :=
  let temp_err := TemperatureFan.target_temp tf - temp in
  Kp c * temp_err + Ki c * temp_integ c tf s read_time temp
  - Kd c * temp_deriv.

Definition bounded_co (tf : TemperatureFan.state) (co : Q) : Q :=
  Py.max 0 (Py.min (TemperatureFan.get_max_speed tf) co).

Definition temperature_callback (tc : TemperatureFan.config) (c : config)
  (tf : TemperatureFan.state) (s : state) (read_time temp : Q)
  : TemperatureFan.state * state * list Fan.command * option Py.exn :=
  if Py.lt temp (TemperatureFan.min_temp_cutoff tc) then
    let '(tf, ks) := TemperatureFan.set_speed tc tf read_time 0 in
    (tf, s, ks, None)
  else
    match temp_deriv c s read_time temp with
    | Py.Exc e => (tf, s, [], Some e)
    | Py.Val temp_deriv =>
        let temp_integ := temp_integ c tf s read_time temp in
        let co := co c tf s read_time temp temp_deriv in
        let bounded_co := bounded_co tf co in
        let '(tf', ks) :=
          TemperatureFan.set_speed tc tf read_time
            (Py.max (TemperatureFan.get_min_speed tf)
                    (TemperatureFan.get_max_speed tf - bounded_co)) in
        (tf',
         {| prev_temp := temp;
            prev_temp_time := read_time;
            prev_temp_deriv := temp_deriv;
            prev_temp_integ :=
              if Py.eq co bounded_co then temp_integ
              else prev_temp_integ s |},
         ks, None)
    end.

End ControlPID.

(** ** temperature_fan.py: class ControlSlope *)

Module ControlSlope.

(** The [slope] choice: [self.linear], [self.log] or [self.exponential]. *)
Inductive slope := Linear | Log | Exponential.

(** The fields fixed by [__init__]; none is written afterwards. *)
Record config := {
  hysteresis_margin : Q;
  min_speed : Q;
  min_temp_cutoff : Q;
  min_temp : Q;
  max_temp : Q;
  algo : slope
}.

(** [__init__]; [tf] is the [TemperatureFan] the controller is handed, from
    which [min_speed] is read.  ([TemperatureFan.__init__] builds the
    controller before it assigns [min_speed]; that order of construction is
    not modelled.) *)
Definition configure (tc : TemperatureFan.config)
  (tf : TemperatureFan.state) (algo : slope) : config :=
  let min_temp_cutoff := TemperatureFan.min_temp_cutoff tc in
  let min_temp := TemperatureFan.min_temp tc in
  {| hysteresis_margin := 0.5;
     min_speed := TemperatureFan.min_speed tf;
     min_temp_cutoff := min_temp_cutoff;
     min_temp :=
       if Py.lt min_temp TemperatureFan.AMBIENT_TEMP
          || Py.lt min_temp min_temp_cutoff
       then
         if Py.gt min_temp_cutoff TemperatureFan.AMBIENT_TEMP
         then min_temp_cutoff
         else TemperatureFan.AMBIENT_TEMP
       else min_temp;
     max_temp := TemperatureFan.max_temp tc * TemperatureFan.MAX_TEMP_BUFFER;
     algo := algo |}.

Definition result : Type :=
  (TemperatureFan.state * list Fan.command * option Py.exn)%type.

Definition returned (r : TemperatureFan.state * list Fan.command) : result :=
  (fst r, snd r, None).

Definition raised (tf : TemperatureFan.state) (e : Py.exn) : result :=
  (tf, [], Some e).

(** The clamped temperature and the target the callback stores. *)
Definition clamped (c : config) (temp : Q) : Q :=
  Py.max (min_temp c) (Py.min temp (max_temp c)).

(** The product and the quotient are exact here;
    [FloatSlope.tracked_target] takes them from a record of rounding
    operations. *)
Definition tracked_target (temp : Q) : Q :=
  inject_Z (Py.trunc (temp * 10)) / 10.

Section Algorithms.

(** [math.log] on a positive argument. *)
Variable math_log : Q -> Q.

Definition log_of (x : Q) : Py.res :=
  if Py.le x 0 then Py.Exc Py.ValueError else Py.Val (math_log x).

Definition floor_at_min_speed (tc : TemperatureFan.config) (c : config)
  (tf : TemperatureFan.state) (read_time speed : Q) : result :=
  if Py.gt speed (min_speed c)
  then returned (TemperatureFan.set_speed tc tf read_time speed)
  else returned (TemperatureFan.set_speed tc tf read_time (min_speed c)).

Definition linear (tc : TemperatureFan.config) (c : config)
  (tf : TemperatureFan.state) (read_time temp : Q) : result :=
  match Py.div (temp - min_temp c) (max_temp c - min_temp c) with
  | Py.Exc e => raised tf e
  | Py.Val proportion =>
      let speed :=
        (TemperatureFan.max_speed tf - TemperatureFan.min_speed tf)
        * proportion in
      floor_at_min_speed tc c tf read_time speed
  end.

Definition log (tc : TemperatureFan.config) (c : config)
  (tf : TemperatureFan.state) (read_time temp : Q) : result :=
  let offset_min_temp := 1 in
  let offset_max_temp := max_temp c - min_temp c + offset_min_temp in
  let offset_temp := temp - min_temp c + offset_min_temp in
  match log_of offset_temp with
  | Py.Exc e => raised tf e
  | Py.Val num =>
      match log_of offset_max_temp with
      | Py.Exc e => raised tf e
      | Py.Val den =>
          match Py.div num den with
          | Py.Exc e => raised tf e
          | Py.Val normalized_temp =>
              let speed :=
                (TemperatureFan.max_speed tf - TemperatureFan.min_speed tf)
                * normalized_temp in
              floor_at_min_speed tc c tf read_time speed
          end
      end
  end.

Definition exponential (tc : TemperatureFan.config) (c : config)
  (tf : TemperatureFan.state) (read_time temp : Q) : result :=
  match Py.div (temp - min_temp c) (max_temp c - min_temp c) with
  | Py.Exc e => raised tf e
  | Py.Val normalized_temp =>
      let speed :=
        (TemperatureFan.max_speed tf - TemperatureFan.min_speed tf)
        * normalized_temp ^ 2 in
      floor_at_min_speed tc c tf read_time speed
  end.

Definition run_algo (tc : TemperatureFan.config) (c : config)
  (tf : TemperatureFan.state) (read_time temp : Q) : result :=
  match algo c with
  | Linear => linear tc c tf read_time temp
  | Log => log tc c tf read_time temp
  | Exponential => exponential tc c tf read_time temp
  end.

Definition temperature_callback (tc : TemperatureFan.config) (c : config)
  (tf : TemperatureFan.state) (read_time temp : Q) : result :=
  if Py.lt temp (TemperatureFan.min_temp_cutoff tc - hysteresis_margin c)
  then returned (TemperatureFan.set_speed tc tf read_time 0)
  else if Py.gt temp
            (TemperatureFan.min_temp_cutoff tc + hysteresis_margin c)
  then
    let temp := clamped c temp in
    let tf := TemperatureFan.set_target_temp (tracked_target temp) tf in
    run_algo tc c tf read_time temp
  else (tf, [], None).

End Algorithms.

End ControlSlope.

(** ** temperature_fan.py: the sensor callback of TemperatureFan *)

Module Sensor.

(** [self.control] with the controller's own memory. *)
Inductive control :=
| BangBang (c : ControlBangBang.config) (s : ControlBangBang.state)
| PID (c : ControlPID.config) (s : ControlPID.state)
| Slope (c : ControlSlope.config).

Definition temperature_callback (math_log : Q -> Q)
  (tc : TemperatureFan.config) (tf : TemperatureFan.state) (k : control)
  (read_time temp : Q)
  : TemperatureFan.state * control * list Fan.command * option Py.exn :=
  let tf := TemperatureFan.set_last_temp temp tf in
  match k with
  | BangBang c s =>
      let '(tf, s, ks) :=
        ControlBangBang.temperature_callback tc c tf s read_time temp in
      (tf, BangBang c s, ks, None)
  | PID c s =>
      let '(tf, s, ks, e) :=
        ControlPID.temperature_callback tc c tf s read_time temp in
      (tf, PID c s, ks, e)
  | Slope c =>
      let '(tf, ks, e) :=
        ControlSlope.temperature_callback math_log tc c tf read_time temp in
      (tf, Slope c, ks, e)
  end.

End Sensor.

(** ** fan.py: class PrinterFan *)

Module PrinterFan.

Import stdpp.gmap.
Local Open Scope Q_scope.

(** Fan objects are shared: [self.fan_list] holds references to the [Fan]
    objects that other parts of the configuration own.  A reference is a
    key of the store of fan objects. *)
Definition ref : Type := nat.

Record fan_object := {
  fan_config : Fan.config;
  fan_state : Fan.state
}.

Definition store : Type := gmap ref fan_object.

Record state := {
  fan : ref;
  fan_list : gmap Z ref
}.

(** [__init__]: [self.fan_list = {0: self.fan}]. *)
Definition init (fan : ref) : state :=
  {| fan := fan; fan_list := {[ 0%Z := fan ]} |}.

Inductive config_error :=
| SlicerFanNumberZero
| SlicerFanNumberDefined (fan_number : Z).

Definition add_fan (p : state) (fan_number : Z) (f : ref)
  : state + config_error :=
  match fan_list p !! fan_number with
  | Some _ =>
      if Z.eqb fan_number 0 then inr SlicerFanNumberZero
      else inr (SlicerFanNumberDefined fan_number)
  | None =>
      inl {| fan := fan p; fan_list := <[ fan_number := f ]> (fan_list p) |}
  end.

(** [add_fan] calls in sequence; one that raises changes nothing. *)
Fixpoint add_fans (p : state) (adds : list (Z * ref)) : state :=
  match adds with
  | [] => p
  | (fan_number, f) :: rest =>
      match add_fan p fan_number f with
      | inl p' => add_fans p' rest
      | inr _ => add_fans p rest
      end
  end.

(** [Fan.set_speed_from_command] hands [lambda pt: self.set_speed(pt,
    value)] to the toolhead; the pair is that callback. *)
Definition callback : Type := (ref * Q)%type.

Inductive response := InvalidFanNumber (fan_number : Z).

(** [cmd_M106], given [param_S] and [param_T] as [gcmd.get_float('S', 255.,
    minval=0.)] and [gcmd.get_int('T', default=0)] return them. *)
Definition cmd_M106 (p : state) (param_S : Q) (param_T : Z)
  : list response * list callback :=
  let value := param_S in
  let fan_number := param_T in
  match fan_list p !! fan_number with
  | None => ([InvalidFanNumber fan_number], [])
  | Some f =>
      if Py.lt 0 value && Py.lt value 1
      then ([], [(f, value); (f, value)])
      else ([], [(f, param_S / 255)])
  end.

Definition cmd_M107 (p : state) (param_T : Z)
  : list response * list callback :=
  let fan_number := param_T in
  match fan_list p !! fan_number with
  | None => ([InvalidFanNumber fan_number], [])
  | Some f => ([], [(f, 0)])
  end.

(** The toolhead runs a callback with the print time [pt] of its choice. *)
Definition run_callback (h : store) (cb : callback) (pt : Q)
  : store * list Fan.command :=
  let '(f, value) := cb in
  match h !! f with
  | Some o =>
      let '(s, ks) := Fan.set_speed (fan_config o) (fan_state o) pt value in
      (<[ f := {| fan_config := fan_config o; fan_state := s |} ]> h, ks)
  | None => (h, [])
  end.

(** Callbacks run in the order they were registered. *)
Fixpoint run_callbacks (h : store) (cbs : list (callback * Q))
  : store * list Fan.command :=
  match cbs with
  | [] => (h, [])
  | (cb, pt) :: rest =>
      let '(h1, ks1) := run_callback h cb pt in
      let '(h2, ks2) := run_callbacks h1 rest in
      (h2, ks1 ++ ks2)
  end.

End PrinterFan.

(** ** Float arithmetic that rounds *)

(** A float is the rational it denotes, and comparisons of floats are
    exact, but a sum, difference, product or quotient of floats is rounded
    to a float.  Where a property depends on that rounding, the operations
    of the code are taken from a record [ops]; [exact] is the record of the
    exact operations, with which the definitions below are the ones
    above. *)
Module Float.

Record ops := {
  add : Q -> Q -> Q;
  sub : Q -> Q -> Q;
  mul : Q -> Q -> Q;
  div : Q -> Q -> Q
}.

Definition exact : ops :=
  {| add := Qplus; sub := Qminus; mul := Qmult; div := Qdiv |}.

(** What rounding keeps of the order: a sum is monotone in its first term,
    adding a term that is not negative does not go below the first term,
    and subtracting one does not go above it.  Rounding to the nearest
    float is monotone and leaves a float as it is, so the addition and
    subtraction of floats have these properties; so have the exact ones. *)
Definition ordered (o : ops) : Prop :=
  (forall a a' b, a <= a' -> add o a b <= add o a' b)
  /\ (forall a b, 0 <= b -> a <= add o a b)
  /\ (forall a b, 0 <= b -> sub o a b <= a).

End Float.

(** [Fan.set_speed] with the two additions on print times,
    [self.last_fan_time + FAN_MIN_TIME] and
    [print_time += self.kick_start_time], taken from [o]. *)
Module FloatFan.

Definition set_speed (o : Float.ops) (c : Fan.config) (s : Fan.state)
  (print_time value : Q) : Fan.state * list Fan.command :=
  let fan_speed := Fan.fan_speed c value in
  if Py.eq value (Fan.last_fan_value s) then (s, [])
  else
    let print_time :=
      Py.max (Float.add o (Fan.last_fan_time s) Fan.FAN_MIN_TIME)
        print_time in
    let enable := Fan.enable_commands c s print_time value in
    let kick := Fan.kick_start c s fan_speed in
    let pulse :=
      if kick then [Fan.SetPwm print_time (Fan.max_power c)] else [] in
    let print_time :=
      if kick then Float.add o print_time (Fan.kick_start_time c)
      else print_time in
    ({| Fan.last_fan_value := value;
        Fan.last_fan_time := print_time;
        Fan.tachometer := Fan.tachometer s |},
     enable ++ pulse ++ [Fan.SetPwm print_time fan_speed]).

Fixpoint run (o : Float.ops) (c : Fan.config) (s : Fan.state)
  (calls : list (Q * Q)) : Fan.state * list Fan.command :=
  match calls with
  | [] => (s, [])
  | (print_time, value) :: rest =>
      let '(s1, ks1) := set_speed o c s print_time value in
      let '(s2, ks2) := run o c s1 rest in
      (s2, ks1 ++ ks2)
  end.

End FloatFan.

(** [ControlSlope.temperature_callback] with the sum and the difference of
    its two tests and the product and the quotient of
    [math.trunc(temp * 10) / 10] taken from [o]. *)
Module FloatSlope.

Definition tracked_target (o : Float.ops) (temp : Q) : Q :=
  Float.div o (inject_Z (Py.trunc (Float.mul o temp 10))) 10.

Definition temperature_callback (o : Float.ops) (math_log : Q -> Q)
  (tc : TemperatureFan.config) (c : ControlSlope.config)
  (tf : TemperatureFan.state) (read_time temp : Q) : ControlSlope.result :=
  if Py.lt temp
       (Float.sub o (TemperatureFan.min_temp_cutoff tc)
          (ControlSlope.hysteresis_margin c))
  then ControlSlope.returned (TemperatureFan.set_speed tc tf read_time 0)
  else if Py.gt temp
            (Float.add o (TemperatureFan.min_temp_cutoff tc)
               (ControlSlope.hysteresis_margin c))
  then
    let temp := ControlSlope.clamped c temp in
    let tf := TemperatureFan.set_target_temp (tracked_target o temp) tf in
    ControlSlope.run_algo math_log tc c tf read_time temp
  else (tf, [], None).

End FloatSlope.

(** ** Vocabulary of the specification *)

(** [clamp(x, lo, hi)], as the specification uses it. *)
Definition clamp (x lo hi : Q) : Q := Qmax lo (Qmin hi x).

(** The request after the 3-wire rescaling and the [off_below] cut, before
    the [max_power] step ([Fan_fan_speed_clamp] relates it to
    [Fan.fan_speed]). *)
Definition raw_speed (c : Fan.config) (v : Q) : Q :=
  if Py.lt v (Fan.off_below c) then 0
  else if Fan.pwm_fan c then v
  else if Py.le (0.2 + 0.8 * v) 0.2 then 0 else 0.2 + 0.8 * v.

(** A tachometer sample [(frequency, last_fan_value, eventtime)] taken
    while the fan is commanded on and does not turn. *)
Definition stalled (sample : Q * Q * Q) : Prop :=
  fst (fst sample) == 0 /\ 0 < snd (fst sample).

Definition sample_time (sample : Q * Q * Q) : Q := snd sample.

(** A stored loss time that the truthiness tests of [get_status] tell apart
    from [None]. *)
Definition loss_time_set_or_none (l : option Q) : Prop :=
  match l with
  | Some t0 => ~ t0 == 0
  | None => True
  end.

(** The level of the enable pin after a command stream, starting from
    [level]. *)
Fixpoint pin_level (level : bool) (ks : list Fan.command) : bool :=
  match ks with
  | [] => level
  | Fan.SetDigital _ b :: rest => pin_level b rest
  | Fan.SetPwm _ _ :: rest => pin_level level rest
  end.

(** A PWM command whose duty lies in [0, max_power]. *)
Definition duty_in_range (c : Fan.config) (k : Fan.command) : Prop :=
  match k with
  | Fan.SetPwm _ d => 0 <= d <= Fan.max_power c
  | Fan.SetDigital _ _ => True
  end.

(** The times of the warnings among the events of a tachometer. *)
Fixpoint respond_times (evs : list FanTachometer.event) : list Q :=
  match evs with
  | [] => []
  | FanTachometer.RespondRaw t :: rest => t :: respond_times rest
  | _ :: rest => respond_times rest
  end.

(** Each time of [ts] is at least [w] after the one before it. *)
Fixpoint spaced_by (w : Q) (ts : list Q) : Prop :=
  match ts with
  | t1 :: ((t2 :: _) as rest) => t2 - t1 >= w /\ spaced_by w rest
  | _ => True
  end.

(** The sensor delivering samples [(read_time, temp)] one after the other;
    a callback that raises ends the run. *)
Fixpoint sensor_run (math_log : Q -> Q) (tc : TemperatureFan.config)
  (tf : TemperatureFan.state) (k : Sensor.control) (samples : list (Q * Q))
  : TemperatureFan.state * Sensor.control * list Fan.command
    * option Py.exn :=
  match samples with
  | [] => (tf, k, [], None)
  | (read_time, temp) :: rest =>
      match Sensor.temperature_callback math_log tc tf k read_time temp with
      | (tf1, k1, ks1, Some e) => (tf1, k1, ks1, Some e)
      | (tf1, k1, ks1, None) =>
          let '(tf2, k2, ks2, e) := sensor_run math_log tc tf1 k1 rest in
          (tf2, k2, ks1 ++ ks2, e)
      end
  end.

(** What one sample may do to the host under the policy [a]. *)
Definition host_effects_of (a : FanTachometer.action)
  (e : FanTachometer.event) : Prop :=
  match e with
  | FanTachometer.ActionCall _ => True
  | FanTachometer.RespondRaw _ => a = FanTachometer.Warning
  | FanTachometer.InvokeShutdown _ => a = FanTachometer.Shutdown
  end.

(** The temperature fan's record of the last speed agrees with the record
    of its fan. *)
Definition speed_records_agree (tf : TemperatureFan.state) : Prop :=
  Fan.last_fan_value (TemperatureFan.fan tf)
  == TemperatureFan.last_speed_value tf.

(** The requested values of a [SET_TEMPERATURE_FAN_TARGET] command are
    acceptable. *)
Definition acceptable (c : TemperatureFan.config) (temp lo hi : Q) : Prop :=
  (temp == 0
   \/ TemperatureFan.min_temp c <= temp <= TemperatureFan.max_temp c)
  /\ 0 <= lo /\ lo <= hi /\ hi <= 1.

(** A controller whose arithmetic cannot raise: a positive derivative time
    for PID; for the slope, a lower bound below the upper one and, for the
    logarithmic mapping, a logarithm of the range that is not 0. *)
Definition cannot_raise (math_log : Q -> Q) (k : Sensor.control) : Prop :=
  match k with
  | Sensor.BangBang _ _ => True
  | Sensor.PID c _ => 0 < ControlPID.min_deriv_time c
  | Sensor.Slope c =>
      ControlSlope.min_temp c < ControlSlope.max_temp c
      /\ (ControlSlope.algo c = ControlSlope.Log ->
          ~ math_log (ControlSlope.max_temp c - ControlSlope.min_temp c + 1)
            == 0)
  end.

(** A PID controller whose stored integral lies within its clamp. *)
Definition integral_bounded (k : Sensor.control) : Prop :=
  match k with
  | Sensor.PID c s =>
      0 <= ControlPID.prev_temp_integ s <= ControlPID.temp_integ_max c
  | _ => True
  end.

(** * Properties *)

(** ** The comparisons reflect the order of the rationals *)

Lemma Py_lt_iff a b : Py.lt a b = true <-> a < b.
Proof.
  unfold Py.lt. rewrite negb_true_iff.
  destruct (Qle_bool b a) eqn:E.
  - apply Qle_bool_iff in E. split; [discriminate | intro; lra].
  - split; [intros _ | reflexivity].
    destruct (Qlt_le_dec a b) as [H | H]; [exact H |].
    apply Qle_bool_iff in H. congruence.
Qed.

Lemma Py_lt_false_iff a b : Py.lt a b = false <-> b <= a.
Proof.
  destruct (Py.lt a b) eqn:E.
  - apply Py_lt_iff in E. split; [discriminate | intro; lra].
  - split; [intros _ | reflexivity].
    destruct (Qlt_le_dec a b) as [H | H]; [| exact H].
    apply Py_lt_iff in H. congruence.
Qed.

Lemma Py_le_iff a b : Py.le a b = true <-> a <= b.
Proof. apply Qle_bool_iff. Qed.

Lemma Py_le_false_iff a b : Py.le a b = false <-> b < a.
Proof.
  unfold Py.le. destruct (Qle_bool a b) eqn:E.
  - apply Qle_bool_iff in E. split; [discriminate | intro; lra].
  - split; [intros _ | reflexivity].
    destruct (Qlt_le_dec b a) as [H | H]; [exact H |].
    apply Qle_bool_iff in H. congruence.
Qed.

Lemma Py_gt_iff a b : Py.gt a b = true <-> b < a.
Proof. apply Py_lt_iff. Qed.

Lemma Py_gt_false_iff a b : Py.gt a b = false <-> a <= b.
Proof. apply Py_lt_false_iff. Qed.

Lemma Py_ge_iff a b : Py.ge a b = true <-> b <= a.
Proof. apply Py_le_iff. Qed.

Lemma Py_ge_false_iff a b : Py.ge a b = false <-> a < b.
Proof. apply Py_le_false_iff. Qed.

Lemma Py_eq_iff a b : Py.eq a b = true <-> a == b.
Proof. apply Qeq_bool_iff. Qed.

Lemma Py_eq_false_iff a b : Py.eq a b = false <-> ~ a == b.
Proof.
  unfold Py.eq. destruct (Qeq_bool a b) eqn:E.
  - apply Qeq_bool_iff in E. split; [discriminate | intro; contradiction].
  - split; [| reflexivity]. intros _ H. apply Qeq_bool_iff in H. congruence.
Qed.

Lemma Py_eq_refl a : Py.eq a a = true.
Proof. apply Py_eq_iff. reflexivity. Qed.

Lemma Py_truthy_iff a : Py.truthy a = true <-> ~ a == 0.
Proof. unfold Py.truthy. rewrite negb_true_iff. apply Py_eq_false_iff. Qed.

Lemma Py_truthy_false_iff a : Py.truthy a = false <-> a == 0.
Proof. unfold Py.truthy. rewrite negb_false_iff. apply Py_eq_iff. Qed.

(** Case analysis on the first comparison met in the goal; the outcome is
    left in the context as an order fact. *)
Ltac py_case :=
  match goal with
  | |- context [Py.gt ?a ?b] =>
      let E := fresh "E" in
      destruct (Py.gt a b) eqn:E;
      [apply Py_gt_iff in E | apply Py_gt_false_iff in E]
  | |- context [Py.ge ?a ?b] =>
      let E := fresh "E" in
      destruct (Py.ge a b) eqn:E;
      [apply Py_ge_iff in E | apply Py_ge_false_iff in E]
  | |- context [Py.lt ?a ?b] =>
      let E := fresh "E" in
      destruct (Py.lt a b) eqn:E;
      [apply Py_lt_iff in E | apply Py_lt_false_iff in E]
  | |- context [Py.le ?a ?b] =>
      let E := fresh "E" in
      destruct (Py.le a b) eqn:E;
      [apply Py_le_iff in E | apply Py_le_false_iff in E]
  | |- context [Py.eq ?a ?b] =>
      let E := fresh "E" in
      destruct (Py.eq a b) eqn:E;
      [apply Py_eq_iff in E | apply Py_eq_false_iff in E]
  | |- context [Py.truthy ?a] =>
      let E := fresh "E" in
      destruct (Py.truthy a) eqn:E;
      [apply Py_truthy_iff in E | apply Py_truthy_false_iff in E]
  end.

Ltac py_cases := repeat (py_case; cbn [andb orb negb]).

Lemma Py_max_spec a b : Py.max a b == Qmax a b.
Proof.
  unfold Py.max. py_case.
  - rewrite Q.max_r; [reflexivity | lra].
  - rewrite Q.max_l; [reflexivity | lra].
Qed.

Lemma Py_min_spec a b : Py.min a b == Qmin a b.
Proof.
  unfold Py.min. py_case.
  - rewrite Q.min_r; [reflexivity | lra].
  - rewrite Q.min_l; [reflexivity | lra].
Qed.

Lemma Py_max_lb_l a b : a <= Py.max a b.
Proof. unfold Py.max. py_case; lra. Qed.

Lemma Py_max_lb_r a b : b <= Py.max a b.
Proof. unfold Py.max. py_case; lra. Qed.

(** ** Sanity checks of the embedding on the spec's examples *)

Example tach_rpm_example :
  let c := {| FanTachometer.ppr := 2;
              FanTachometer.tach_loss_interval := 3;
              FanTachometer.warning_repeat_interval := 3;
              FanTachometer.tach_loss_action := FanTachometer.Shutdown |} in
  exists r,
    snd (FanTachometer.get_status (Some c) FanTachometer.init 10 0 1) = Some r
    /\ r == 150.
Proof. eexists. split; [reflexivity | reflexivity]. Qed.
Example bang_bang_example :
  let tc := {| TemperatureFan.min_temp := 0;
               TemperatureFan.max_temp := 100;
               TemperatureFan.min_temp_cutoff := 0;
               TemperatureFan.target_temp_conf := 60;
               TemperatureFan.speed_delay := 0.3;
               TemperatureFan.max_speed_conf := 1;
               TemperatureFan.min_speed_conf := 0.3;
               TemperatureFan.fan_config :=
                 Fan.configure 1 0.1 0 false None |} in
  let c := {| ControlBangBang.max_delta := 5 |} in
  let tf := TemperatureFan.init tc in
  let after h temp :=
    ControlBangBang.heating
      (snd (fst (ControlBangBang.temperature_callback tc c tf
                   {| ControlBangBang.heating := h |} 1 temp))) in
  after true 64 = true /\ after true 65 = false
  /\ after false 56 = false /\ after false 55 = true.
Proof. repeat split. Qed.

Example slope_hysteresis_example :
  let tc := {| TemperatureFan.min_temp := 0;
               TemperatureFan.max_temp := 100;
               TemperatureFan.min_temp_cutoff := 50;
               TemperatureFan.target_temp_conf := 40;
               TemperatureFan.speed_delay := 0.3;
               TemperatureFan.max_speed_conf := 1;
               TemperatureFan.min_speed_conf := 0.3;
               TemperatureFan.fan_config :=
                 Fan.configure 1 0.1 0 false None |} in
  let tf := TemperatureFan.init tc in
  let c := ControlSlope.configure tc tf ControlSlope.Linear in
  let run := ControlSlope.temperature_callback (fun x => x) tc c tf 1 in
  run 49.4 = ControlSlope.returned (TemperatureFan.set_speed tc tf 1 0)
  /\ run 50.0 = (tf, [], None)
  /\ TemperatureFan.target_temp (fst (fst (run 50.6))) == 50.6.
Proof. repeat split. Qed.

(** What [ControlSlope.__init__] fixes: the margin, the upper bound and the
    resolved lower bound. *)
Lemma Slope_configure_bounds tc tf algo :
  let c := ControlSlope.configure tc tf algo in
  ControlSlope.hysteresis_margin c == 0.5
  /\ ControlSlope.max_temp c == 0.8 * TemperatureFan.max_temp tc
  /\ (TemperatureFan.AMBIENT_TEMP <= TemperatureFan.min_temp tc ->
      TemperatureFan.min_temp_cutoff tc <= TemperatureFan.min_temp tc ->
      ControlSlope.min_temp c = TemperatureFan.min_temp tc)
  /\ (TemperatureFan.min_temp tc < TemperatureFan.AMBIENT_TEMP
      \/ TemperatureFan.min_temp tc < TemperatureFan.min_temp_cutoff tc ->
      ControlSlope.min_temp c
      == Qmax TemperatureFan.AMBIENT_TEMP (TemperatureFan.min_temp_cutoff tc)).
Proof.
  intros c. split; [reflexivity |]. split.
  - cbn. unfold TemperatureFan.MAX_TEMP_BUFFER. ring.
  - subst c. cbn [ControlSlope.configure ControlSlope.min_temp].
    set (a := TemperatureFan.AMBIENT_TEMP).
    set (m := TemperatureFan.min_temp tc).
    set (k := TemperatureFan.min_temp_cutoff tc).
    pose proof (Q.max_spec a k) as HM.
    generalize dependent (Qmax a k). intros M HM.
    split.
    + intros H1 H2.
      assert (Py.lt m a = false) as -> by (apply Py_lt_false_iff; lra).
      assert (Py.lt m k = false) as -> by (apply Py_lt_false_iff; lra).
      reflexivity.
    + intros H.
      assert (Py.lt m a || Py.lt m k = true) as ->.
      { apply orb_true_iff. rewrite !Py_lt_iff. exact H. }
      py_case; lra.
Qed.

(** ** Fan.set_speed: scheduling *)

Lemma Fan_enable_commands_time c s tp v k :
  In k (Fan.enable_commands c s tp v) -> Fan.command_time k = tp.
Proof.
  unfold Fan.enable_commands.
  destruct (Fan.enable_pin c); [| intros []].
  destruct (Py.gt v 0 && Py.eq (Fan.last_fan_value s) 0).
  - intros [<- | []]. reflexivity.
  - destruct (Py.eq v 0 && Py.gt (Fan.last_fan_value s) 0).
    + intros [<- | []]. reflexivity.
    + intros [].
Qed.

Lemma Fan_run_cons c s t v rest :
  Fan.run c s ((t, v) :: rest) =
  (fst (Fan.run c (fst (Fan.set_speed c s t v)) rest),
   snd (Fan.set_speed c s t v)
   ++ snd (Fan.run c (fst (Fan.set_speed c s t v)) rest)).
Proof.
  cbn [Fan.run]. destruct (Fan.set_speed c s t v) as [s1 ks1].
  cbn [fst snd]. destruct (Fan.run c s1 rest). reflexivity.
Qed.

Lemma Fan_run_app c s calls1 calls2 :
  Fan.run c s (calls1 ++ calls2) =
  (fst (Fan.run c (fst (Fan.run c s calls1)) calls2),
   snd (Fan.run c s calls1)
   ++ snd (Fan.run c (fst (Fan.run c s calls1)) calls2)).
Proof.
  revert s. induction calls1 as [| [t v] rest IH]; intros s.
  - cbn [app Fan.run fst snd]. destruct (Fan.run c s calls2). reflexivity.
  - rewrite <- app_comm_cons, !Fan_run_cons, IH. cbn [fst snd].
    rewrite app_assoc. reflexivity.
Qed.

(** With the exact operations the rounding definitions are the exact
    ones. *)
Lemma FloatFan_set_speed_exact c s t v :
  FloatFan.set_speed Float.exact c s t v = Fan.set_speed c s t v.
Proof. reflexivity. Qed.

Lemma FloatFan_run_exact c s calls :
  FloatFan.run Float.exact c s calls = Fan.run c s calls.
Proof.
  revert s. induction calls as [| [t v] rest IH]; intros s; [reflexivity |].
  cbn [FloatFan.run Fan.run]. rewrite FloatFan_set_speed_exact.
  destruct (Fan.set_speed c s t v) as [s1 ks1]. rewrite IH. reflexivity.
Qed.

Lemma Float_exact_ordered : Float.ordered Float.exact.
Proof.
  repeat split; cbn [Float.add Float.sub Float.exact]; intros; lra.
Qed.

Section RoundedTimes.

Variable o : Float.ops.
Hypothesis Ho : Float.ordered o.
Variable c : Fan.config.
Hypothesis Hk : 0 <= Fan.kick_start_time c.

(** The commands of one call lie between the sum the call computes and the
    time it records. *)
Lemma FloatFan_set_speed_times s t v k :
  In k (snd (FloatFan.set_speed o c s t v)) ->
  Float.add o (Fan.last_fan_time s) Fan.FAN_MIN_TIME <= Fan.command_time k
  /\ Fan.command_time k
     <= Fan.last_fan_time (fst (FloatFan.set_speed o c s t v)).
Proof.
  destruct Ho as (_ & Hnn & _). unfold FloatFan.set_speed.
  destruct (Py.eq v (Fan.last_fan_value s)); [intros [] |].
  cbn [fst snd Fan.last_fan_time].
  pose proof (Py_max_lb_l
                (Float.add o (Fan.last_fan_time s) Fan.FAN_MIN_TIME) t)
    as Hlb.
  set (tp := Py.max (Float.add o (Fan.last_fan_time s) Fan.FAN_MIN_TIME) t)
    in *.
  pose proof (Hnn tp (Fan.kick_start_time c) Hk) as Hkick.
  intros Hin. apply in_app_or in Hin as [Hin | Hin].
  - apply Fan_enable_commands_time in Hin. rewrite Hin.
    destruct (Fan.kick_start c s (Fan.fan_speed c v)); lra.
  - apply in_app_or in Hin as [Hin | Hin].
    + destruct (Fan.kick_start c s (Fan.fan_speed c v)); [| destruct Hin].
      destruct Hin as [<- | []]. cbn. lra.
    + destruct Hin as [<- | []]. cbn.
      destruct (Fan.kick_start c s (Fan.fan_speed c v)); lra.
Qed.

Lemma FloatFan_set_speed_time_mono s t v :
  Fan.last_fan_time s
  <= Fan.last_fan_time (fst (FloatFan.set_speed o c s t v)).
Proof.
  destruct Ho as (_ & Hnn & _). unfold FloatFan.set_speed.
  destruct (Py.eq v (Fan.last_fan_value s)); cbn [fst Fan.last_fan_time].
  - lra.
  - pose proof (Py_max_lb_l
                  (Float.add o (Fan.last_fan_time s) Fan.FAN_MIN_TIME) t)
      as Hlb.
    set (tp := Py.max (Float.add o (Fan.last_fan_time s) Fan.FAN_MIN_TIME) t)
      in *.
    assert (Hmin : 0 <= Fan.FAN_MIN_TIME) by (vm_compute; discriminate).
    pose proof (Hnn (Fan.last_fan_time s) Fan.FAN_MIN_TIME Hmin).
    pose proof (Hnn tp (Fan.kick_start_time c) Hk).
    destruct (Fan.kick_start c s (Fan.fan_speed c v)); lra.
Qed.

Lemma FloatFan_run_cons s t v rest :
  FloatFan.run o c s ((t, v) :: rest) =
  (fst (FloatFan.run o c (fst (FloatFan.set_speed o c s t v)) rest),
   snd (FloatFan.set_speed o c s t v)
   ++ snd (FloatFan.run o c (fst (FloatFan.set_speed o c s t v)) rest)).
Proof.
  cbn [FloatFan.run]. destruct (FloatFan.set_speed o c s t v) as [s1 ks1].
  cbn [fst snd]. destruct (FloatFan.run o c s1 rest). reflexivity.
Qed.

Lemma FloatFan_run_time_mono s calls :
  Fan.last_fan_time s <= Fan.last_fan_time (fst (FloatFan.run o c s calls)).
Proof.
  revert s. induction calls as [| [t v] rest IH]; intros s.
  - cbn. lra.
  - rewrite FloatFan_run_cons. cbn [fst].
    pose proof (FloatFan_set_speed_time_mono s t v).
    pose proof (IH (fst (FloatFan.set_speed o c s t v))). lra.
Qed.

Lemma FloatFan_run_times s calls k :
  In k (snd (FloatFan.run o c s calls)) ->
  Float.add o (Fan.last_fan_time s) Fan.FAN_MIN_TIME <= Fan.command_time k
  /\ Fan.command_time k <= Fan.last_fan_time (fst (FloatFan.run o c s calls)).
Proof.
  destruct Ho as (Hmono & _ & _).
  revert s. induction calls as [| [t v] rest IH]; intros s.
  - intros [].
  - rewrite FloatFan_run_cons. cbn [fst snd]. intros Hin.
    pose proof (FloatFan_set_speed_time_mono s t v) as Hm.
    pose proof (FloatFan_run_time_mono (fst (FloatFan.set_speed o c s t v))
                  rest) as Hr.
    apply in_app_or in Hin as [Hin | Hin].
    + apply (FloatFan_set_speed_times s t v k) in Hin. lra.
    + apply IH in Hin.
      pose proof (Hmono _ _ Fan.FAN_MIN_TIME Hm). lra.
Qed.

End RoundedTimes.

(** C1 (as stated, refuted).  Neighbouring commands can be closer than
    [FAN_MIN_TIME]: with [kick_start_time = 0.05] the final duty follows
    the kick-start pulse after 0.05 s, and with an enable pin (and the
    default [kick_start_time = 0.1]) the enable command and the first PWM
    command carry the same time. *)
Lemma C1_spacing_counterexample :
  Fan.spaced
    (snd (Fan.run (Fan.configure 1 0.05 0 false None) Fan.init [(1, 0.3)]))
  = false
  /\ Fan.spaced
       (snd (Fan.run (Fan.configure 1 0.1 0 true None) Fan.init [(1, 0.3)]))
     = false.
Proof. split; vm_compute; reflexivity. Qed.

(** C1 (amended).  Let the additions on print times round, keeping the
    order as [Float.ordered] says, and let [kick_start_time >= 0].  Then
    every command of a later [set_speed] call is scheduled no earlier than
    the sum, as the code computes it, of [FAN_MIN_TIME] and the time of any
    command of the calls before it; the gap is [FAN_MIN_TIME] up to the
    rounding of that one sum, and exactly at least [FAN_MIN_TIME] only when
    the sum is exact.  Within one call the enable command and the first PWM
    command carry the same, adjusted time, and the final duty command is
    scheduled at the sum of the pulse's time and [kick_start_time]. *)
Theorem C1_spacing_between_calls o c s :
  Float.ordered o ->
  0 <= Fan.kick_start_time c ->
  (forall calls1 calls2 k1 k2,
      In k1 (snd (FloatFan.run o c s calls1)) ->
      In k2 (snd (FloatFan.run o c (fst (FloatFan.run o c s calls1)) calls2)) ->
      Float.add o (Fan.command_time k1) Fan.FAN_MIN_TIME
      <= Fan.command_time k2)
  /\ (forall t v,
         let tp :=
           Py.max (Float.add o (Fan.last_fan_time s) Fan.FAN_MIN_TIME) t in
         let d := Fan.fan_speed c v in
         ~ v == Fan.last_fan_value s ->
         snd (FloatFan.set_speed o c s t v) =
         Fan.enable_commands c s tp v
         ++ (if Fan.kick_start c s d
             then [Fan.SetPwm tp (Fan.max_power c);
                   Fan.SetPwm (Float.add o tp (Fan.kick_start_time c)) d]
             else [Fan.SetPwm tp d])
         /\ forall k, In k (Fan.enable_commands c s tp v) ->
                      Fan.command_time k = tp).
Proof.
  intros Ho Hk. split.
  - intros calls1 calls2 k1 k2 H1 H2.
    apply (FloatFan_run_times o Ho c Hk s calls1 k1) in H1.
    apply (FloatFan_run_times o Ho c Hk _ calls2 k2) in H2.
    destruct Ho as (Hmono & _ & _).
    pose proof (Hmono _ _ Fan.FAN_MIN_TIME (proj2 H1)). lra.
  - intros t v tp d Hne. split.
    + unfold FloatFan.set_speed.
      apply Py_eq_false_iff in Hne. rewrite Hne. cbn [snd].
      fold tp d. destruct (Fan.kick_start c s d); reflexivity.
    + intros k. apply Fan_enable_commands_time.
Qed.

Lemma C1_spacing_between_calls_witness :
  let o := Float.exact in
  let c := Fan.configure 1 0.05 0 true None in
  let ks1 := snd (FloatFan.run o c Fan.init [(1, 0.3)]) in
  let ks2 :=
    snd (FloatFan.run o c (fst (FloatFan.run o c Fan.init [(1, 0.3)]))
           [(1, 0.6)]) in
  (Float.ordered o /\ 0 <= Fan.kick_start_time c)
  /\ Float.add o (Fan.command_time (last ks1 (Fan.SetPwm 0 0)))
       Fan.FAN_MIN_TIME
     <= Fan.command_time (last ks2 (Fan.SetPwm 0 0)).
Proof.
  intros o c ks1 ks2.
  assert (Ho : Float.ordered o) by exact Float_exact_ordered.
  assert (Hk : 0 <= Fan.kick_start_time c) by (vm_compute; discriminate).
  split; [split; assumption |].
  apply (proj1 (C1_spacing_between_calls o c Fan.init Ho Hk)
           [(1, 0.3)] [(1, 0.6)]).
  - vm_compute. right. right. left. reflexivity.
  - vm_compute. left. reflexivity.
Defined.

(** ** Fan.set_speed: the duty sent to the hardware *)

Lemma Py_clamp_spec lo hi x : Py.max lo (Py.min hi x) == clamp x lo hi.
Proof.
  unfold clamp.
  pose proof (Q.min_spec hi x) as Hm. 
  pose proof (Q.max_spec lo (Qmin hi x)) as HM.
  generalize dependent (Qmin hi x). intros m Hm HM.
  generalize dependent (Qmax lo m). intros M HM.
  unfold Py.min. py_case; unfold Py.max; py_case; lra.
Qed.

(** C2.  For a duty in [0,1]: on a 3-wire fan ([pwm_fan] false) with
    [off_below = 0] the effective duty is 0 when [0.2 + 0.8*duty <= 0.2],
    which is [duty <= 0], and [clamp((0.2 + 0.8*duty) * max_power, 0,
    max_power)] otherwise; on a 4-wire fan the requested duty enters the
    [off_below] and [max_power] steps unchanged; and a call that is not
    suppressed ends with a PWM command carrying the effective duty. *)
Theorem C2_hardware_duty c s t v :
  0 <= v <= 1 ->
  (Fan.pwm_fan c = false -> Fan.off_below c == 0 ->
   (0.2 + 0.8 * v <= 0.2 <-> v <= 0)
   /\ (0.2 + 0.8 * v <= 0.2 -> Fan.fan_speed c v == 0)
   /\ (~ 0.2 + 0.8 * v <= 0.2 ->
       Fan.fan_speed c v
       == clamp ((0.2 + 0.8 * v) * Fan.max_power c) 0 (Fan.max_power c)))
  /\ (Fan.pwm_fan c = true ->
      Fan.fan_speed c v
      == clamp ((if Py.lt v (Fan.off_below c) then 0 else v)
                * Fan.max_power c) 0 (Fan.max_power c))
  /\ (~ v == Fan.last_fan_value s ->
      exists tm,
        last (snd (Fan.set_speed c s t v)) (Fan.SetPwm 0 0)
        = Fan.SetPwm tm (Fan.fan_speed c v)).
Proof.
  intros Hv. split; [| split].
  - intros H3 Hoff. split; [split; intro; lra |].
    unfold Fan.fan_speed. rewrite H3. cbn [negb].
    assert (Hlt : Py.lt v (Fan.off_below c) = false)
      by (apply Py_lt_false_iff; lra).
    rewrite Hlt. split; intros Hc.
    + apply Py_le_iff in Hc. rewrite Hc.
      rewrite Py_clamp_spec. unfold clamp.
      pose proof (Q.min_spec (Fan.max_power c) (0 * Fan.max_power c)) as Hm.
      generalize dependent (Qmin (Fan.max_power c) (0 * Fan.max_power c)).
      intros m Hm. pose proof (Q.max_spec 0 m) as HM.
      generalize dependent (Qmax 0 m). intros M HM. lra.
    + assert (Hle : Py.le (0.2 + 0.8 * v) 0.2 = false)
        by (apply Py_le_false_iff; lra).
      rewrite Hle. apply Py_clamp_spec.
  - intros H4. unfold Fan.fan_speed. rewrite H4. cbn [negb].
    rewrite Py_clamp_spec. destruct (Py.lt v (Fan.off_below c)); reflexivity.
  - intros Hne. unfold Fan.set_speed.
    apply Py_eq_false_iff in Hne. rewrite Hne. cbn [snd].
    eexists. rewrite app_assoc. apply last_last.
Qed.

Lemma C2_hardware_duty_witness :
  let c := Fan.configure 1 0.1 0 false None in
  0 <= 0.5 <= 1
  /\ Fan.fan_speed c 0.5
     == clamp ((0.2 + 0.8 * 0.5) * Fan.max_power c) 0 (Fan.max_power c).
Proof.
  intros c.
  assert (Hv : 0 <= 0.5 <= 1) by (split; vm_compute; discriminate).
  split; [exact Hv |].
  apply (proj1 (C2_hardware_duty c Fan.init 1 0.5 Hv)).
  - reflexivity.
  - reflexivity.
  - vm_compute. intros H. apply H. reflexivity.
Defined.

(** ** Fan.set_speed: suppression of a repeated request *)

(** C3 (as stated, refuted).  Two calls with the same duty need not issue
    exactly one command: from rest, duty 0.3 emits a kick-start pulse and
    the final duty (two commands), and duty 0 emits nothing at all. *)
Lemma C3_counterexample :
  let c := Fan.configure 1 0.1 0 false None in
  length (snd (Fan.run c Fan.init [(1, 0.3); (1, 0.3)])) = 2%nat
  /\ length (snd (Fan.run c Fan.init [(1, 0); (1, 0)])) = 0%nat.
Proof. split; vm_compute; reflexivity. Qed.

Lemma Fan_set_speed_last_value c s t v :
  Py.eq v (Fan.last_fan_value (fst (Fan.set_speed c s t v))) = true.
Proof.
  unfold Fan.set_speed.
  destruct (Py.eq v (Fan.last_fan_value s)) eqn:E; cbn [fst Fan.last_fan_value].
  - exact E.
  - apply Py_eq_refl.
Qed.

Lemma Fan_enable_commands_length c s tp v :
  (length (Fan.enable_commands c s tp v) <= 1)%nat.
Proof.
  unfold Fan.enable_commands.
  destruct (Fan.enable_pin c); [| cbn; lia].
  destruct (Py.gt v 0 && Py.eq (Fan.last_fan_value s) 0); [cbn; lia |].
  destruct (Py.eq v 0 && Py.gt (Fan.last_fan_value s) 0); cbn; lia.
Qed.

(** C3 (amended).  The second of two [set_speed] calls with the same duty
    is a no-op: it emits nothing and leaves the state as the first call left
    it, so both calls together emit the commands of the first call: none
    when the duty equals the previous [last_fan_value], otherwise one to
    three. *)
Theorem C3_second_call_noop c s t t' v :
  let s1 := fst (Fan.set_speed c s t v) in
  Fan.set_speed c s1 t' v = (s1, [])
  /\ Fan.run c s [(t, v); (t', v)] = Fan.set_speed c s t v
  /\ (v == Fan.last_fan_value s -> Fan.set_speed c s t v = (s, []))
  /\ (~ v == Fan.last_fan_value s ->
      (1 <= length (snd (Fan.set_speed c s t v)) <= 3)%nat).
Proof.
  intros s1.
  assert (H2 : Fan.set_speed c s1 t' v = (s1, [])).
  { unfold Fan.set_speed at 1. subst s1.
    rewrite Fan_set_speed_last_value. reflexivity. }
  split; [exact H2 |]. split; [| split].
  - cbn [Fan.run]. subst s1.
    destruct (Fan.set_speed c s t v) as [s1 ks1]. cbn [fst] in H2.
    rewrite H2. rewrite app_nil_r. reflexivity.
  - intros He. unfold Fan.set_speed.
    apply Py_eq_iff in He. rewrite He. reflexivity.
  - intros Hne. unfold Fan.set_speed.
    apply Py_eq_false_iff in Hne. rewrite Hne. cbn [snd].
    rewrite !length_app.
    pose proof (Fan_enable_commands_length c s
                  (Py.max (Fan.last_fan_time s + Fan.FAN_MIN_TIME) t) v).
    destruct (Fan.kick_start c s (Fan.fan_speed c v)); cbn [length]; lia.
Qed.

Lemma C3_second_call_noop_witness :
  let c := Fan.configure 1 0.1 0 true None in
  ~ 0.3 == Fan.last_fan_value Fan.init
  /\ (1 <= length (snd (Fan.set_speed c Fan.init 1 0.3)) <= 3)%nat.
Proof.
  intros c.
  assert (Hne : ~ 0.3 == Fan.last_fan_value Fan.init)
    by (vm_compute; discriminate).
  split; [exact Hne |].
  exact (proj2 (proj2 (proj2 (C3_second_call_noop c Fan.init 1 2 0.3))) Hne).
Defined.

(** ** Fan.set_speed: the kick-start pulse *)

(** C4 (as stated, refuted).  On a 3-wire fan at rest, with
    [kick_start_time = 0.2] and [max_power = 1], a request for duty 0.3 is
    followed 0.2 s after the pulse by a PWM command of 0.44, not 0.3. *)
Lemma C4_counterexample :
  let c := Fan.configure 1 0.2 0 false None in
  snd (Fan.set_speed c Fan.init 1 0.3) = [Fan.SetPwm 1 1; Fan.SetPwm 1.2 0.440]
  /\ ~ 0.440 == 0.3.
Proof. split; [vm_compute; reflexivity | vm_compute; discriminate]. Qed.

(** The effective duty is the clamp of the rescaled request. *)
Lemma Fan_fan_speed_clamp c v :
  Fan.fan_speed c v
  == clamp (raw_speed c v * Fan.max_power c) 0 (Fan.max_power c).
Proof.
  unfold Fan.fan_speed, raw_speed. rewrite Py_clamp_spec.
  destruct (Py.lt v (Fan.off_below c)); [reflexivity |].
  destruct (Fan.pwm_fan c); cbn [negb]; reflexivity.
Qed.

Lemma Fan_fan_speed_nonneg c v : 0 <= Fan.fan_speed c v.
Proof. unfold Fan.fan_speed. apply Py_max_lb_l. Qed.

Lemma Fan_kick_start_iff c s d :
  0 <= d -> 0 <= Fan.kick_start_time c ->
  Fan.kick_start c s d = true <->
  0 < d /\ d < Fan.max_power c /\ 0 < Fan.kick_start_time c
  /\ (Fan.last_fan_value s == 0 \/ d - Fan.last_fan_value s > 0.5).
Proof.
  intros Hd Hk. unfold Fan.kick_start.
  rewrite !andb_true_iff, orb_true_iff, negb_true_iff.
  rewrite !Py_truthy_iff, Py_truthy_false_iff, Py_lt_iff, Py_gt_iff.
  split.
  - intros [[[H1 H2] H3] H4]. repeat split; lra.
  - intros (H1 & H2 & H3 & H4). repeat split; lra.
Qed.

(** A suppressed call never meets the kick-start condition. *)
Lemma Fan_suppressed_no_kick c s v :
  0 < Fan.max_power c <= 1 -> 0 <= v <= 1 ->
  v == Fan.last_fan_value s ->
  ~ (0 < Fan.fan_speed c v
     /\ (Fan.last_fan_value s == 0
         \/ Fan.fan_speed c v - Fan.last_fan_value s > 0.5)).
Proof.
  intros Hmp Hv He.
  assert (Hraw : 0 <= raw_speed c v <= 0.2 + 0.8 * v
                 /\ (v == 0 -> raw_speed c v == 0)).
  { unfold raw_speed. py_case; [split; [lra | reflexivity] |].
    destruct (Fan.pwm_fan c); [lra |]. py_case; lra. }
  pose proof (Fan_fan_speed_clamp c v) as Hc. unfold clamp in Hc.
  set (r := raw_speed c v) in *. set (mp := Fan.max_power c) in *.
  assert (Hprod : 0 <= r * mp <= r) by nra.
  set (p := r * mp) in *.
  assert (Hz : v == 0 -> p == 0).
  { intros H0. subst p. destruct Hraw as [_ Hr]. rewrite (Hr H0). lra. }
  clearbody p r mp.
  pose proof (Q.min_spec mp p) as Hm.
  generalize dependent (Qmin mp p). intros m Hc Hm.
  pose proof (Q.max_spec 0 m) as HM.
  generalize dependent (Qmax 0 m). intros M Hc HM.
  set (d := Fan.fan_speed c v) in *. clearbody d.
  intros [Hpos [H0 | Hjump]].
  - assert (v == 0) as Hv0 by lra. specialize (Hz Hv0). lra.
  - lra.
Qed.

Lemma Fan_pwm_commands_enable c s tp v :
  Fan.pwm_commands (Fan.enable_commands c s tp v) = [].
Proof.
  unfold Fan.enable_commands.
  destruct (Fan.enable_pin c); [| reflexivity].
  destruct (Py.gt v 0 && Py.eq (Fan.last_fan_value s) 0); [reflexivity |].
  destruct (Py.eq v 0 && Py.gt (Fan.last_fan_value s) 0); reflexivity.
Qed.

Lemma Fan_pwm_commands_set_speed c s t v :
  let tp := Py.max (Fan.last_fan_time s + Fan.FAN_MIN_TIME) t in
  let d := Fan.fan_speed c v in
  Fan.pwm_commands (snd (Fan.set_speed c s t v)) =
  if Py.eq v (Fan.last_fan_value s) then []
  else if Fan.kick_start c s d
       then [Fan.SetPwm tp (Fan.max_power c);
             Fan.SetPwm (tp + Fan.kick_start_time c) d]
       else [Fan.SetPwm tp d].
Proof.
  intros tp d. unfold Fan.set_speed.
  destruct (Py.eq v (Fan.last_fan_value s)); [reflexivity |].
  cbn [snd]. fold tp d. unfold Fan.pwm_commands. rewrite filter_app.
  fold (Fan.pwm_commands (Fan.enable_commands c s tp v)).
  rewrite Fan_pwm_commands_enable.
  destruct (Fan.kick_start c s d); reflexivity.
Qed.

(** C4 (amended).  With [kick_start_time = 0.2], [max_power = 1],
    [off_below <= 0.3] and a last requested duty of 0, a request for duty
    0.3 emits the enable command (if there is an enable pin), a full-power
    pulse at the adjusted time and, 0.2 s later, the effective duty: 0.3 on
    a 4-wire fan and 0.2 + 0.8*0.3 = 0.44 on a 3-wire fan.  In general, for
    configured ranges, the PWM stream of a call is the pulse followed by the
    final duty exactly when the effective duty is above 0 and below
    [max_power], [kick_start_time > 0], and the last requested duty is 0 or
    the effective duty exceeds it by more than 0.5. *)
Theorem C4_kick_start c s t :
  let tp := Py.max (Fan.last_fan_time s + Fan.FAN_MIN_TIME) t in
  (Fan.kick_start_time c == 0.2 -> Fan.max_power c == 1 ->
   Fan.off_below c <= 0.3 -> Fan.last_fan_value s == 0 ->
   let d := Fan.fan_speed c 0.3 in
   snd (Fan.set_speed c s t 0.3) =
   (if Fan.enable_pin c then [Fan.SetDigital tp true] else [])
   ++ [Fan.SetPwm tp (Fan.max_power c);
       Fan.SetPwm (tp + Fan.kick_start_time c) d]
   /\ tp + Fan.kick_start_time c - tp == 0.2
   /\ (Fan.pwm_fan c = true -> d == 0.3)
   /\ (Fan.pwm_fan c = false -> d == 0.44))
  /\ (forall v,
         0 <= Fan.kick_start_time c -> 0 < Fan.max_power c <= 1 ->
         0 <= v <= 1 ->
         let d := Fan.fan_speed c v in
         let pulsed :=
           0 < d /\ d < Fan.max_power c /\ 0 < Fan.kick_start_time c
           /\ (Fan.last_fan_value s == 0
               \/ d - Fan.last_fan_value s > 0.5) in
         (Fan.pwm_commands (snd (Fan.set_speed c s t v)) =
          [Fan.SetPwm tp (Fan.max_power c);
           Fan.SetPwm (tp + Fan.kick_start_time c) d]
          <-> pulsed)
         /\ (~ pulsed ->
             Fan.pwm_commands (snd (Fan.set_speed c s t v)) =
             if Py.eq v (Fan.last_fan_value s) then []
             else [Fan.SetPwm tp d])).
Proof.
  intros tp. split.
  - intros Hk Hmp Hoff Hlast d.
    assert (Hraw : raw_speed c 0.3 == if Fan.pwm_fan c then 0.3 else 0.44).
    { unfold raw_speed.
      assert (Py.lt 0.3 (Fan.off_below c) = false) as ->
          by (apply Py_lt_false_iff; lra).
      destruct (Fan.pwm_fan c); reflexivity. }
    assert (Hd : d == if Fan.pwm_fan c then 0.3 else 0.44).
    { subst d. pose proof (Fan_fan_speed_clamp c 0.3) as Hc.
      unfold clamp in Hc.
      assert (Hp : raw_speed c 0.3 * Fan.max_power c
                   == if Fan.pwm_fan c then 0.3 else 0.44).
      { rewrite Hraw, Hmp. destruct (Fan.pwm_fan c); reflexivity. }
      set (p := raw_speed c 0.3 * Fan.max_power c) in *. clearbody p.
      pose proof (Q.min_spec (Fan.max_power c) p) as Hm.
      generalize dependent (Qmin (Fan.max_power c) p). intros m Hc Hm.
      pose proof (Q.max_spec 0 m) as HM.
      generalize dependent (Qmax 0 m). intros M Hc HM.
      destruct (Fan.pwm_fan c); lra. }
    assert (Hkick : Fan.kick_start c s d = true).
    { apply Fan_kick_start_iff; [apply Fan_fan_speed_nonneg | lra |].
      destruct (Fan.pwm_fan c); repeat split; lra. }
    split; [| split; [lra | split; intros Hw; rewrite Hw in Hd; exact Hd]].
    unfold Fan.set_speed.
    assert (Py.eq 0.3 (Fan.last_fan_value s) = false) as ->
        by (apply Py_eq_false_iff; lra).
    cbn [snd]. fold tp d. rewrite Hkick. f_equal.
    unfold Fan.enable_commands. destruct (Fan.enable_pin c); [| reflexivity].
    assert (Py.gt 0.3 0 = true) as -> by (apply Py_gt_iff; lra).
    assert (Py.eq (Fan.last_fan_value s) 0 = true) as ->
        by (apply Py_eq_iff; lra).
    reflexivity.
  - intros v Hk Hmp Hv d pulsed.
    pose proof (Fan_pwm_commands_set_speed c s t v) as Hs.
    cbn zeta in Hs. fold tp d in Hs. rewrite Hs.
    pose proof (Fan_kick_start_iff c s d (Fan_fan_speed_nonneg c v) Hk) as Hi.
    fold pulsed in Hi.
    destruct (Py.eq v (Fan.last_fan_value s)) eqn:E.
    + apply Py_eq_iff in E.
      pose proof (Fan_suppressed_no_kick c s v Hmp Hv E) as Hno.
      fold d in Hno. split.
      * split; [discriminate |]. intros Hp. exfalso. apply Hno.
        unfold pulsed in Hp. tauto.
      * reflexivity.
    + destruct (Fan.kick_start c s d) eqn:K.
      * split; [split; [intros _; apply Hi; reflexivity | reflexivity] |].
        intros Hn. exfalso. apply Hn, Hi. reflexivity.
      * split; [| reflexivity].
        split; [discriminate |]. intros Hp. apply Hi in Hp. discriminate.
Qed.

Lemma C4_kick_start_witness :
  let c := Fan.configure 1 0.2 0 true None in
  let tp := Py.max (Fan.last_fan_time Fan.init + Fan.FAN_MIN_TIME) 1 in
  (Fan.kick_start_time c == 0.2 /\ Fan.max_power c == 1
   /\ Fan.off_below c <= 0.3 /\ Fan.last_fan_value Fan.init == 0)
  /\ snd (Fan.set_speed c Fan.init 1 0.3) =
     (if Fan.enable_pin c then [Fan.SetDigital tp true] else [])
     ++ [Fan.SetPwm tp (Fan.max_power c);
         Fan.SetPwm (tp + Fan.kick_start_time c) (Fan.fan_speed c 0.3)].
Proof.
  intros c tp.
  assert (H1 : Fan.kick_start_time c == 0.2) by reflexivity.
  assert (H2 : Fan.max_power c == 1) by reflexivity.
  assert (H3 : Fan.off_below c <= 0.3) by (vm_compute; discriminate).
  assert (H4 : Fan.last_fan_value Fan.init == 0) by reflexivity.
  split; [repeat split; assumption |].
  exact (proj1 (proj1 (C4_kick_start c Fan.init 1) H1 H2 H3 H4)).
Defined.

(** ** FanTachometer: stall detection *)

Lemma Tach_warning_loss_time c s t :
  FanTachometer.tach_loss_time (fst (FanTachometer.warning c s t))
  = FanTachometer.tach_loss_time s.
Proof.
  unfold FanTachometer.warning.
  destruct (Py.eq (FanTachometer.warning_repeat_interval c) 0
            && FanTachometer.warning_issued s); [reflexivity |].
  destruct (negb (Py.truthy (FanTachometer.last_warning_time s))
            || Py.ge (t - FanTachometer.last_warning_time s)
                 (FanTachometer.warning_repeat_interval c)); reflexivity.
Qed.

Lemma Tach_call_action_loss_time c s t :
  FanTachometer.tach_loss_time (fst (FanTachometer.call_action c s t))
  = FanTachometer.tach_loss_time s.
Proof.
  unfold FanTachometer.call_action.
  destruct (FanTachometer.tach_loss_action c);
    [reflexivity | apply Tach_warning_loss_time | reflexivity].
Qed.

Lemma Tach_call_action_events c s t :
  filter FanTachometer.is_action_call
    (snd (FanTachometer.call_action c s t)) = [].
Proof.
  unfold FanTachometer.call_action, FanTachometer.warning,
    FanTachometer.shutdown.
  destruct (FanTachometer.tach_loss_action c); try reflexivity.
  destruct (Py.eq (FanTachometer.warning_repeat_interval c) 0
            && FanTachometer.warning_issued s); [reflexivity |].
  destruct (negb (Py.truthy (FanTachometer.last_warning_time s))
            || Py.ge (t - FanTachometer.last_warning_time s)
                 (FanTachometer.warning_repeat_interval c)); reflexivity.
Qed.

Lemma Tach_rpm_zero (f : Q) (p : positive) :
  f == 0 -> f * 30 / inject_Z (Zpos p) == 0.
Proof. intros ->. unfold Qdiv. ring. Qed.

Lemma Tach_rpm_pos (f : Q) (p : positive) :
  0 < f -> 0 < f * 30 / inject_Z (Zpos p).
Proof.
  intros Hf. apply Qlt_shift_div_l.
  - unfold Qlt. cbn. lia.
  - lra.
Qed.

(** One sample of a stall that has already begun at [t0]. *)
Lemma Tach_get_status_stalled c s f d t t0 :
  f == 0 -> 0 < d ->
  FanTachometer.tach_loss_time s = Some t0 -> ~ t0 == 0 ->
  let r := FanTachometer.get_status (Some c) s f d t in
  FanTachometer.tach_loss_time (fst (fst r)) = Some t0
  /\ filter FanTachometer.is_action_call (snd (fst r)) =
     if Py.gt (t - t0) (FanTachometer.tach_loss_interval c)
     then [FanTachometer.ActionCall t] else [].
Proof.
  intros Hf Hd Hl Ht0. unfold FanTachometer.get_status.
  pose proof (Tach_rpm_zero f (FanTachometer.ppr c) Hf) as Hr.
  set (rpm := f * 30 / inject_Z (Zpos (FanTachometer.ppr c))) in *.
  assert (Py.gt rpm 0 = false) as -> by (apply Py_gt_false_iff; lra).
  assert (Py.eq rpm 0 = true) as -> by (apply Py_eq_iff; lra).
  assert (Py.gt d 0 = true) as -> by (apply Py_gt_iff; lra).
  cbn [andb]. rewrite Hl.
  assert (Py.truthy t0 = true) as -> by (apply Py_truthy_iff; exact Ht0).
  cbn [negb].
  destruct (Py.gt (t - t0) (FanTachometer.tach_loss_interval c)).
  - pose proof (Tach_call_action_loss_time c s t) as Hk.
    pose proof (Tach_call_action_events c s t) as He.
    destruct (FanTachometer.call_action c s t) as [s' evs].
    cbn [fst snd] in *. split; [congruence |].
    cbn [filter FanTachometer.is_action_call]. rewrite He. reflexivity.
  - cbn [fst snd]. split; [exact Hl | reflexivity].
Qed.

(** The first sample of a stall only records its time. *)
Lemma Tach_get_status_stall_begins c s f d t :
  f == 0 -> 0 < d ->
  Py.truthy_opt (FanTachometer.tach_loss_time s) = false ->
  FanTachometer.get_status (Some c) s f d t =
  (FanTachometer.set_tach_loss_time (Some t) s, [],
   Some (f * 30 / inject_Z (Zpos (FanTachometer.ppr c)))).
Proof.
  intros Hf Hd Hl. unfold FanTachometer.get_status.
  pose proof (Tach_rpm_zero f (FanTachometer.ppr c) Hf) as Hr.
  set (rpm := f * 30 / inject_Z (Zpos (FanTachometer.ppr c))) in *.
  assert (Py.gt rpm 0 = false) as -> by (apply Py_gt_false_iff; lra).
  assert (Py.eq rpm 0 = true) as -> by (apply Py_eq_iff; lra).
  assert (Py.gt d 0 = true) as -> by (apply Py_gt_iff; lra).
  cbn [andb].
  destruct (FanTachometer.tach_loss_time s) as [t0 |]; [| reflexivity].
  cbn [Py.truthy_opt] in Hl. rewrite Hl. reflexivity.
Qed.



Lemma Tach_run_stalled c t0 samples :
  ~ t0 == 0 -> Forall stalled samples ->
  forall s, FanTachometer.tach_loss_time s = Some t0 ->
  let r := FanTachometer.run (Some c) s samples in
  FanTachometer.tach_loss_time (fst r) = Some t0
  /\ filter FanTachometer.is_action_call (snd r) =
     map FanTachometer.ActionCall
       (filter (fun t => Py.gt (t - t0) (FanTachometer.tach_loss_interval c))
          (map sample_time samples)).
Proof.
  intros Ht0 Hall. induction Hall as [| [[f d] t] rest [Hf Hd] _ IH];
    intros s Hl.
  - split; [exact Hl | reflexivity].
  - cbn [fst snd] in Hf, Hd. cbn [FanTachometer.run].
    pose proof (Tach_get_status_stalled c s f d t t0 Hf Hd Hl Ht0) as [H1 H2].
    destruct (FanTachometer.get_status (Some c) s f d t) as [[s1 evs1] rpm].
    cbn [fst snd] in H1, H2.
    specialize (IH s1 H1). cbn zeta in IH. destruct IH as [IH1 IH2].
    destruct (FanTachometer.run (Some c) s1 rest) as [s2 evs2].
    cbn [fst snd] in *. split; [exact IH1 |].
    rewrite filter_app, H2, IH2. cbn [map filter sample_time snd].
    destruct (Py.gt (t - t0) (FanTachometer.tach_loss_interval c));
      reflexivity.
Qed.

(** C5 (as stated, refuted).  With [tach_loss_interval = 3] and a stall
    polled at 1, 2, ..., 7 the fault action is not called at 4, where the
    elapsed time reaches the interval, and it is called three times: at 5,
    at 6 and at 7. *)
Lemma C5_counterexample :
  let c := {| FanTachometer.ppr := 2;
              FanTachometer.tach_loss_interval := 3;
              FanTachometer.warning_repeat_interval := 3;
              FanTachometer.tach_loss_action := FanTachometer.Shutdown |} in
  filter FanTachometer.is_action_call
    (snd (FanTachometer.run (Some c) FanTachometer.init
            (map (fun t => (0, 0.5, t)) [1; 2; 3; 4; 5; 6; 7])))
  = [FanTachometer.ActionCall 5; FanTachometer.ActionCall 6;
     FanTachometer.ActionCall 7].
Proof. vm_compute. reflexivity. Qed.

(** C5 (amended).  In a stall (fan commanded on, RPM 0): if no loss time is
    on record when the stall begins, its first sample, at a nonzero time
    [t0], records [t0] and calls nothing, and each later sample, at [t],
    calls the fault action exactly when [t - t0 > tach_loss_interval]; if a
    loss time [t_old] is still on record (only a sample with RPM above 0
    clears it), nothing is recorded and every sample of the stall, the
    first included, calls the action exactly when
    [t - t_old > tach_loss_interval].  Either way the action is called at
    every such sample and not only at the first. *)
Theorem C5_stall_fault_calls c s f d t0 samples :
  f == 0 -> 0 < d -> Forall stalled samples ->
  let r := FanTachometer.run (Some c) s ((f, d, t0) :: samples) in
  (Py.truthy_opt (FanTachometer.tach_loss_time s) = false -> ~ t0 == 0 ->
   FanTachometer.tach_loss_time (fst r) = Some t0
   /\ filter FanTachometer.is_action_call (snd r) =
      map FanTachometer.ActionCall
        (filter (fun t => Py.gt (t - t0) (FanTachometer.tach_loss_interval c))
           (map sample_time samples)))
  /\ (forall t_old,
         FanTachometer.tach_loss_time s = Some t_old -> ~ t_old == 0 ->
         FanTachometer.tach_loss_time (fst r) = Some t_old
         /\ filter FanTachometer.is_action_call (snd r) =
            map FanTachometer.ActionCall
              (filter
                 (fun t =>
                    Py.gt (t - t_old) (FanTachometer.tach_loss_interval c))
                 (t0 :: map sample_time samples))).
Proof.
  intros Hf Hd Hall r. split.
  - intros Hl Ht0. subst r. cbn [FanTachometer.run].
    rewrite (Tach_get_status_stall_begins c s f d t0 Hf Hd Hl).
    pose proof (Tach_run_stalled c t0 samples Ht0 Hall
                  (FanTachometer.set_tach_loss_time (Some t0) s) eq_refl)
      as [H1 H2].
    destruct (FanTachometer.run (Some c)
                (FanTachometer.set_tach_loss_time (Some t0) s) samples)
      as [s2 evs2].
    cbn [fst snd app] in *. split; assumption.
  - intros t_old Hl Hold. subst r.
    assert (Hall' : Forall stalled ((f, d, t0) :: samples)).
    { apply Forall_cons; [split; assumption | exact Hall]. }
    exact (Tach_run_stalled c t_old _ Hold Hall' s Hl).
Qed.

Lemma C5_stall_fault_calls_witness :
  let c := {| FanTachometer.ppr := 2;
              FanTachometer.tach_loss_interval := 3;
              FanTachometer.warning_repeat_interval := 3;
              FanTachometer.tach_loss_action := FanTachometer.Warning |} in
  let samples := [(0, 0.5, 3); (0, 0.5, 4); (0, 0.5, 4.5); (0, 0.5, 6)] in
  let stale := fst (FanTachometer.run (Some c) FanTachometer.init
                      [(0, 0.5, 1); (0, 0, 2)]) in
  (0 == 0 /\ 0 < 0.5 /\ Forall stalled samples
   /\ Py.truthy_opt (FanTachometer.tach_loss_time FanTachometer.init) = false
   /\ ~ 1 == 0
   /\ FanTachometer.tach_loss_time stale = Some 1)
  /\ filter FanTachometer.is_action_call
       (snd (FanTachometer.run (Some c) FanTachometer.init
               ((0, 0.5, 1) :: samples)))
     = map FanTachometer.ActionCall
         (filter (fun t => Py.gt (t - 1) (FanTachometer.tach_loss_interval c))
            (map sample_time samples))
  /\ filter FanTachometer.is_action_call
       (snd (FanTachometer.run (Some c) stale ((0, 0.5, 100) :: samples)))
     = map FanTachometer.ActionCall
         (filter (fun t => Py.gt (t - 1) (FanTachometer.tach_loss_interval c))
            (100 :: map sample_time samples)).
Proof.
  intros c samples stale.
  assert (H1 : 0 == 0) by reflexivity.
  assert (H2 : 0 < 0.5) by reflexivity.
  assert (H3 : ~ 1 == 0) by (vm_compute; discriminate).
  assert (H4 : Forall stalled samples)
    by (repeat constructor; vm_compute; discriminate).
  assert (H5 : Py.truthy_opt (FanTachometer.tach_loss_time FanTachometer.init)
               = false) by reflexivity.
  assert (H6 : FanTachometer.tach_loss_time stale = Some 1) by reflexivity.
  split; [repeat split; assumption |]. split.
  - exact (proj2 (proj1 (C5_stall_fault_calls c FanTachometer.init 0 0.5 1
                           samples H1 H2 H4) H5 H3)).
  - exact (proj2 (proj2 (C5_stall_fault_calls c stale 0 0.5 100
                           samples H1 H2 H4) 1 H6 H3)).
Defined.

(** ** FanTachometer.warning: repetition *)

(** [warning] never writes [warning_issued]. *)
Lemma Tach_warning_issued_kept c s t :
  FanTachometer.warning_issued (fst (FanTachometer.warning c s t))
  = FanTachometer.warning_issued s.
Proof.
  unfold FanTachometer.warning.
  destruct (Py.eq (FanTachometer.warning_repeat_interval c) 0
            && FanTachometer.warning_issued s); [reflexivity |].
  destruct (negb (Py.truthy (FanTachometer.last_warning_time s))
            || Py.ge (t - FanTachometer.last_warning_time s)
                 (FanTachometer.warning_repeat_interval c)); reflexivity.
Qed.

(** With a repeat interval of 0 and the flag unset, every call that does
    not go back in time warns. *)
Lemma Tach_warning_zero_interval c s t :
  FanTachometer.warning_repeat_interval c == 0 ->
  FanTachometer.warning_issued s = false ->
  FanTachometer.last_warning_time s <= t ->
  FanTachometer.warning c s t =
  (FanTachometer.set_last_warning_time t s, [FanTachometer.RespondRaw t]).
Proof.
  intros Hi Hw Ht. unfold FanTachometer.warning.
  rewrite Hw, andb_false_r.
  assert (Py.ge (t - FanTachometer.last_warning_time s)
            (FanTachometer.warning_repeat_interval c) = true) as ->
      by (apply Py_ge_iff; lra).
  rewrite orb_true_r. reflexivity.
Qed.

(** C6 (the code departs from the claim).  With
    [warning_repeat_interval = 0] the "warn once" guard never fires, since
    [warning_issued] is never set: a stall polled at 1, 2, ..., 7 with
    [tach_loss_interval = 3] warns at 5, at 6 and at 7, and the flag is
    still unset afterwards. *)
Theorem C6_zero_interval_warns_repeatedly :
  let c := {| FanTachometer.ppr := 2;
              FanTachometer.tach_loss_interval := 3;
              FanTachometer.warning_repeat_interval := 0;
              FanTachometer.tach_loss_action := FanTachometer.Warning |} in
  let r := FanTachometer.run (Some c) FanTachometer.init
             (map (fun t => (0, 0.5, t)) [1; 2; 3; 4; 5; 6; 7]) in
  filter FanTachometer.is_respond_raw (snd r)
  = [FanTachometer.RespondRaw 5; FanTachometer.RespondRaw 6;
     FanTachometer.RespondRaw 7]
  /\ FanTachometer.warning_issued (fst r) = false
  /\ snd (FanTachometer.warning c
            (fst (FanTachometer.warning c FanTachometer.init 5)) 6)
     = [FanTachometer.RespondRaw 6].
Proof. repeat split; vm_compute; reflexivity. Qed.

(** ** FanTachometer.get_status: when the loss time is cleared *)

(** C7 (as stated, refuted).  A stall noticed at 1 while the fan is on
    leaves [tach_loss_time = Some 1] after the sample at 2, although the
    fan has been turned off by then. *)
Lemma C7_counterexample :
  let c := {| FanTachometer.ppr := 2;
              FanTachometer.tach_loss_interval := 3;
              FanTachometer.warning_repeat_interval := 3;
              FanTachometer.tach_loss_action := FanTachometer.Shutdown |} in
  FanTachometer.tach_loss_time
    (fst (FanTachometer.run (Some c) FanTachometer.init
            [(0, 0.5, 1); (0, 0, 2)]))
  = Some 1.
Proof. vm_compute. reflexivity. Qed.

Lemma Tach_get_status_unset_kept c s f d t :
  ~ t == 0 ->
  loss_time_set_or_none (FanTachometer.tach_loss_time s) ->
  loss_time_set_or_none
    (FanTachometer.tach_loss_time
       (fst (fst (FanTachometer.get_status c s f d t)))).
Proof.
  intros Ht Hs. destruct c as [c |]; [| exact Hs].
  unfold FanTachometer.get_status.
  set (rpm := f * 30 / inject_Z (Zpos (FanTachometer.ppr c))).
  set (s0 := if Py.gt rpm 0
                && Py.truthy_opt (FanTachometer.tach_loss_time s)
             then FanTachometer.set_tach_loss_time None s else s).
  assert (H0 : loss_time_set_or_none (FanTachometer.tach_loss_time s0)).
  { subst s0. destruct (Py.gt rpm 0
                        && Py.truthy_opt (FanTachometer.tach_loss_time s));
      [exact I | exact Hs]. }
  clearbody s0.
  destruct (Py.eq rpm 0 && Py.gt d 0); [| exact H0].
  destruct (FanTachometer.tach_loss_time s0) as [t0 |] eqn:E;
    [| exact Ht].
  destruct (negb (Py.truthy t0)); [exact Ht |].
  destruct (Py.gt (t - t0) (FanTachometer.tach_loss_interval c)).
  - pose proof (Tach_call_action_loss_time c s0 t) as Hk.
    destruct (FanTachometer.call_action c s0 t) as [s' evs].
    cbn [fst snd] in *. rewrite Hk, E. exact H0.
  - cbn [fst]. rewrite E. exact H0.
Qed.

Lemma Tach_run_unset_kept c samples :
  Forall (fun sample => ~ sample_time sample == 0) samples ->
  forall s,
    loss_time_set_or_none (FanTachometer.tach_loss_time s) ->
    loss_time_set_or_none
      (FanTachometer.tach_loss_time (fst (FanTachometer.run c s samples))).
Proof.
  intros Hall. induction Hall as [| [[f d] t] rest Ht _ IH]; intros s Hs.
  - exact Hs.
  - cbn [FanTachometer.run].
    pose proof (Tach_get_status_unset_kept c s f d t Ht Hs) as H1.
    destruct (FanTachometer.get_status c s f d t) as [[s1 evs1] rpm].
    cbn [fst] in H1. specialize (IH s1 H1).
    destruct (FanTachometer.run c s1 rest) as [s2 evs2]. exact IH.
Qed.

(** C7 (amended).  In every state reached from the initial one by samples
    at nonzero times: after a sample whose RPM is above 0 the loss time is
    [None]; a sample with RPM 0 taken while the fan is off leaves the loss
    time as it was. *)
Theorem C7_loss_time_after_sample c samples f d t :
  Forall (fun sample => ~ sample_time sample == 0) samples ->
  let s := fst (FanTachometer.run (Some c) FanTachometer.init samples) in
  let s' := fst (fst (FanTachometer.get_status (Some c) s f d t)) in
  (0 < f * 30 / inject_Z (Zpos (FanTachometer.ppr c)) ->
   FanTachometer.tach_loss_time s' = None)
  /\ (f * 30 / inject_Z (Zpos (FanTachometer.ppr c)) == 0 -> d == 0 ->
      FanTachometer.tach_loss_time s' = FanTachometer.tach_loss_time s).
Proof.
  intros Hall s s'.
  pose proof (Tach_run_unset_kept (Some c) samples Hall FanTachometer.init I)
    as Hs. fold s in Hs.
  subst s'. clearbody s. unfold FanTachometer.get_status.
  set (rpm := f * 30 / inject_Z (Zpos (FanTachometer.ppr c))).
  split.
  - intros Hr.
    assert (Py.gt rpm 0 = true) as -> by (apply Py_gt_iff; exact Hr).
    assert (Py.eq rpm 0 = false) as -> by (apply Py_eq_false_iff; lra).
    cbn [andb].
    destruct (FanTachometer.tach_loss_time s) as [t0 |] eqn:E.
    + cbn [Py.truthy_opt].
      assert (Py.truthy t0 = true) as -> by (apply Py_truthy_iff; exact Hs).
      reflexivity.
    + cbn [Py.truthy_opt fst]. exact E.
  - intros Hr Hd.
    assert (Py.gt rpm 0 = false) as -> by (apply Py_gt_false_iff; lra).
    assert (Py.gt d 0 = false) as -> by (apply Py_gt_false_iff; lra).
    rewrite andb_false_r. reflexivity.
Qed.

Lemma C7_loss_time_after_sample_witness :
  let c := {| FanTachometer.ppr := 2;
              FanTachometer.tach_loss_interval := 3;
              FanTachometer.warning_repeat_interval := 3;
              FanTachometer.tach_loss_action := FanTachometer.Shutdown |} in
  let samples := [(0, 0.5, 1)] in
  let s := fst (FanTachometer.run (Some c) FanTachometer.init samples) in
  (Forall (fun sample => ~ sample_time sample == 0) samples
   /\ 0 < 10 * 30 / inject_Z (Zpos (FanTachometer.ppr c)))
  /\ FanTachometer.tach_loss_time
       (fst (fst (FanTachometer.get_status (Some c) s 10 0.5 2))) = None.
Proof.
  intros c samples s.
  assert (H1 : Forall (fun sample => ~ sample_time sample == 0) samples)
    by (repeat constructor; vm_compute; discriminate).
  assert (H2 : 0 < 10 * 30 / inject_Z (Zpos (FanTachometer.ppr c)))
    by reflexivity.
  split; [split; assumption |].
  exact (proj1 (C7_loss_time_after_sample c samples 10 0.5 2 H1) H2).
Defined.

(** ** TemperatureFan: rejected commands *)

(** C8 (as stated, refuted).  [TARGET=50 MIN_SPEED=0.8 MAX_SPEED=0.5] is
    rejected because the minimum exceeds the maximum, yet the target
    temperature has already moved from 40 to 50. *)
Lemma C8_counterexample :
  let c := {| TemperatureFan.min_temp := 0;
              TemperatureFan.max_temp := 100;
              TemperatureFan.min_temp_cutoff := 0;
              TemperatureFan.target_temp_conf := 40;
              TemperatureFan.speed_delay := 0.3;
              TemperatureFan.max_speed_conf := 1;
              TemperatureFan.min_speed_conf := 0.3;
              TemperatureFan.fan_config := Fan.configure 1 0.1 0 false None |} in
  let g := {| TemperatureFan.TARGET := Some 50;
              TemperatureFan.MIN_SPEED := Some 0.8;
              TemperatureFan.MAX_SPEED := Some 0.5 |} in
  let r := TemperatureFan.cmd_SET_TEMPERATURE_FAN_TARGET
             c (TemperatureFan.init c) g in
  snd r = Some (TemperatureFan.MinSpeedGreaterThanMax 0.8 0.5)
  /\ TemperatureFan.target_temp (TemperatureFan.init c) = 40
  /\ TemperatureFan.target_temp (fst r) = 50.
Proof. repeat split. Qed.

(** C8 (amended).  A rejected command returns its error to the caller and
    leaves the fan and [max_speed] as they were.  A rejected target
    temperature leaves the whole state unchanged.  A rejection of the speed
    bounds comes after [target_temp] has been overwritten with the requested
    target (the configured one when [TARGET] is left out); [min_speed] is
    unchanged unless the rejection is that of [MAX_SPEED], which comes after
    [min_speed] has been overwritten too. *)
Theorem C8_rejected_command c s g s' e :
  TemperatureFan.cmd_SET_TEMPERATURE_FAN_TARGET c s g = (s', Some e) ->
  let temp :=
    TemperatureFan.get_float (TemperatureFan.TARGET g)
      (TemperatureFan.target_temp_conf c) in
  let lo :=
    TemperatureFan.get_float (TemperatureFan.MIN_SPEED g)
      (TemperatureFan.min_speed s) in
  let hi :=
    TemperatureFan.get_float (TemperatureFan.MAX_SPEED g)
      (TemperatureFan.max_speed s) in
  TemperatureFan.fan s' = TemperatureFan.fan s
  /\ TemperatureFan.max_speed s' = TemperatureFan.max_speed s
  /\ match e with
     | TemperatureFan.TemperatureOutOfRange _ _ _ =>
         s' = s
         /\ (temp < TemperatureFan.min_temp c
             \/ TemperatureFan.max_temp c < temp)
     | TemperatureFan.MinSpeedGreaterThanMax _ _ =>
         s' = TemperatureFan.set_target_temp temp s /\ hi < lo
     | TemperatureFan.MinSpeedOutOfRange _ =>
         s' = TemperatureFan.set_target_temp temp s /\ (lo < 0 \/ 1 < lo)
     | TemperatureFan.MaxSpeedOutOfRange _ =>
         s' = TemperatureFan.set_field_min_speed lo
                (TemperatureFan.set_target_temp temp s)
         /\ (hi < 0 \/ 1 < hi)
     end.
Proof.
  intros H temp lo hi.
  unfold TemperatureFan.cmd_SET_TEMPERATURE_FAN_TARGET in H.
  fold temp in H. unfold TemperatureFan.set_temp in H.
  destruct (Py.truthy temp
            && (Py.lt temp (TemperatureFan.min_temp c)
                || Py.gt temp (TemperatureFan.max_temp c))) eqn:Et.
  - cbn [TemperatureFan.and_then] in H. injection H as <- <-.
    repeat split.
    apply andb_true_iff in Et as [_ Et]. apply orb_true_iff in Et.
    rewrite Py_lt_iff, Py_gt_iff in Et. exact Et.
  - cbn [TemperatureFan.and_then TemperatureFan.set_target_temp
           TemperatureFan.min_speed TemperatureFan.max_speed] in H.
    fold lo hi in H.
    destruct (Py.gt lo hi) eqn:Eg.
    + injection H as <- <-. apply Py_gt_iff in Eg. repeat split. exact Eg.
    + unfold TemperatureFan.set_min_speed in H.
      destruct (Py.truthy lo && (Py.lt lo 0 || Py.gt lo 1)) eqn:El.
      * cbn [TemperatureFan.and_then] in H. injection H as <- <-.
        repeat split.
        apply andb_true_iff in El as [_ El]. apply orb_true_iff in El.
        rewrite Py_lt_iff, Py_gt_iff in El. exact El.
      * cbn [TemperatureFan.and_then] in H.
        unfold TemperatureFan.set_max_speed in H.
        destruct (Py.truthy hi && (Py.lt hi 0 || Py.gt hi 1)) eqn:Eh;
          [| discriminate].
        injection H as <- <-. repeat split.
        apply andb_true_iff in Eh as [_ Eh]. apply orb_true_iff in Eh.
        rewrite Py_lt_iff, Py_gt_iff in Eh. exact Eh.
Qed.

Lemma C8_rejected_command_witness :
  let c := {| TemperatureFan.min_temp := 0;
              TemperatureFan.max_temp := 100;
              TemperatureFan.min_temp_cutoff := 0;
              TemperatureFan.target_temp_conf := 40;
              TemperatureFan.speed_delay := 0.3;
              TemperatureFan.max_speed_conf := 1;
              TemperatureFan.min_speed_conf := 0.3;
              TemperatureFan.fan_config := Fan.configure 1 0.1 0 false None |} in
  let g := {| TemperatureFan.TARGET := Some 50;
              TemperatureFan.MIN_SPEED := Some 0.5;
              TemperatureFan.MAX_SPEED := Some 2 |} in
  let s := TemperatureFan.init c in
  let s' := TemperatureFan.set_field_min_speed 0.5
              (TemperatureFan.set_target_temp 50 s) in
  TemperatureFan.cmd_SET_TEMPERATURE_FAN_TARGET c s g
  = (s', Some (TemperatureFan.MaxSpeedOutOfRange 2))
  /\ TemperatureFan.max_speed s' = TemperatureFan.max_speed s.
Proof.
  intros c g s s'.
  assert (H : TemperatureFan.cmd_SET_TEMPERATURE_FAN_TARGET c s g
              = (s', Some (TemperatureFan.MaxSpeedOutOfRange 2)))
    by reflexivity.
  split; [exact H |].
  exact (proj1 (proj2 (C8_rejected_command c s g s' _ H))).
Defined.

(** ** ControlPID: when the integral is committed *)

Lemma PID_saturated_differs tf co :
  0 <= TemperatureFan.max_speed tf ->
  TemperatureFan.max_speed tf < co \/ co < 0 ->
  ~ co == ControlPID.bounded_co tf co.
Proof.
  intros Hms Hsat. unfold ControlPID.bounded_co, TemperatureFan.get_max_speed.
  unfold Py.min. py_case; unfold Py.max; py_case; lra.
Qed.

(** C9.  After a PID sample the stored integral is either the previous one
    or the new clamped value, and it is the new value only when the control
    output equals its bounded value.  A processed sample whose output equals
    the bounded value commits; one whose output differs retains; and with
    [max_speed >= 0] an output above [max_speed] or below 0 retains the
    previous integral. *)
Theorem C9_integral_commit tc c tf s read_time temp :
  let r := ControlPID.temperature_callback tc c tf s read_time temp in
  let s' := snd (fst (fst r)) in
  let integ := ControlPID.temp_integ c tf s read_time temp in
  (ControlPID.prev_temp_integ s' = ControlPID.prev_temp_integ s
   \/ exists d,
       ControlPID.temp_deriv c s read_time temp = Py.Val d
       /\ ControlPID.co c tf s read_time temp d
          == ControlPID.bounded_co tf (ControlPID.co c tf s read_time temp d)
       /\ ControlPID.prev_temp_integ s' = integ)
  /\ (forall d,
         ControlPID.temp_deriv c s read_time temp = Py.Val d ->
         let co := ControlPID.co c tf s read_time temp d in
         (TemperatureFan.min_temp_cutoff tc <= temp ->
          co == ControlPID.bounded_co tf co ->
          ControlPID.prev_temp_integ s' = integ)
         /\ (~ co == ControlPID.bounded_co tf co ->
             ControlPID.prev_temp_integ s' = ControlPID.prev_temp_integ s)
         /\ (0 <= TemperatureFan.max_speed tf ->
             TemperatureFan.max_speed tf < co \/ co < 0 ->
             ControlPID.prev_temp_integ s' = ControlPID.prev_temp_integ s)).
Proof.
  intros r s' integ.
  assert (Hcut : Py.lt temp (TemperatureFan.min_temp_cutoff tc) = true ->
                 s' = s).
  { intros E. subst s' r. unfold ControlPID.temperature_callback.
    rewrite E. destruct (TemperatureFan.set_speed tc tf read_time 0).
    reflexivity. }
  assert (Hrun : forall d,
             Py.lt temp (TemperatureFan.min_temp_cutoff tc) = false ->
             ControlPID.temp_deriv c s read_time temp = Py.Val d ->
             ControlPID.prev_temp_integ s' =
             if Py.eq (ControlPID.co c tf s read_time temp d)
                  (ControlPID.bounded_co tf
                     (ControlPID.co c tf s read_time temp d))
             then integ else ControlPID.prev_temp_integ s).
  { intros d E Hd. subst s' r. unfold ControlPID.temperature_callback.
    rewrite E, Hd.
    destruct (TemperatureFan.set_speed tc tf read_time _). reflexivity. }
  assert (Hexc : forall e,
             Py.lt temp (TemperatureFan.min_temp_cutoff tc) = false ->
             ControlPID.temp_deriv c s read_time temp = Py.Exc e ->
             s' = s).
  { intros e E Hd. subst s' r. unfold ControlPID.temperature_callback.
    rewrite E, Hd. reflexivity. }
  destruct (Py.lt temp (TemperatureFan.min_temp_cutoff tc)) eqn:E.
  - rewrite (Hcut eq_refl). split; [left; reflexivity |].
    intros d Hd co. apply Py_lt_iff in E. repeat split; intros; try lra;
      reflexivity.
  - split.
    + destruct (ControlPID.temp_deriv c s read_time temp) as [d | e] eqn:Hd.
      * rewrite (Hrun d eq_refl eq_refl).
        destruct (Py.eq _ _) eqn:Eq; [| left; reflexivity].
        right. exists d. apply Py_eq_iff in Eq. repeat split. exact Eq.
      * rewrite (Hexc e eq_refl eq_refl). left. reflexivity.
    + intros d Hd co. rewrite (Hrun d eq_refl Hd). fold co.
      repeat split.
      * intros _ Heq. apply Py_eq_iff in Heq. rewrite Heq. reflexivity.
      * intros Hne. apply Py_eq_false_iff in Hne. rewrite Hne. reflexivity.
      * intros Hms Hsat.
        pose proof (PID_saturated_differs tf co Hms Hsat) as Hne.
        apply Py_eq_false_iff in Hne. rewrite Hne. reflexivity.
Qed.

Lemma C9_integral_commit_witness :
  let tc := {| TemperatureFan.min_temp := 0;
               TemperatureFan.max_temp := 100;
               TemperatureFan.min_temp_cutoff := 0;
               TemperatureFan.target_temp_conf := 40;
               TemperatureFan.speed_delay := 0.3;
               TemperatureFan.max_speed_conf := 1;
               TemperatureFan.min_speed_conf := 0.3;
               TemperatureFan.fan_config :=
                 Fan.configure 1 0.1 0 false None |} in
  let c := ControlPID.configure 255 255 0 2 1 in
  let tf := TemperatureFan.init tc in
  let s := ControlPID.init in
  let co := ControlPID.co c tf s 1 30 (5 # 2) in
  (ControlPID.temp_deriv c s 1 30 = Py.Val (5 # 2)
   /\ 0 <= TemperatureFan.max_speed tf
   /\ (TemperatureFan.max_speed tf < co \/ co < 0))
  /\ ControlPID.prev_temp_integ
       (snd (fst (fst (ControlPID.temperature_callback tc c tf s 1 30))))
     = ControlPID.prev_temp_integ s.
Proof.
  intros tc c tf s co.
  assert (H1 : ControlPID.temp_deriv c s 1 30 = Py.Val (5 # 2))
    by reflexivity.
  assert (H2 : 0 <= TemperatureFan.max_speed tf)
    by (vm_compute; discriminate).
  assert (H3 : TemperatureFan.max_speed tf < co \/ co < 0)
    by (left; reflexivity).
  split; [repeat split; assumption |].
  exact (proj2 (proj2 (proj2 (C9_integral_commit tc c tf s 1 30) (5 # 2) H1))
           H2 H3).
Defined.

(** ** ControlSlope: the target follows the measured temperature *)

Example tracked_target_examples :
  ControlSlope.tracked_target 50.67 == 50.6
  /\ ControlSlope.tracked_target (- 12.39) == - 12.3.
Proof. split; reflexivity. Qed.

Lemma TemperatureFan_set_speed_target tc tf read_time value :
  TemperatureFan.target_temp
    (fst (TemperatureFan.set_speed tc tf read_time value))
  = TemperatureFan.target_temp tf.
Proof.
  unfold TemperatureFan.set_speed.
  destruct (_ && _); [reflexivity |].
  destruct (Fan.set_speed _ _ _ _). reflexivity.
Qed.

Lemma Slope_floor_target tc c tf read_time speed :
  TemperatureFan.target_temp
    (fst (fst (ControlSlope.floor_at_min_speed tc c tf read_time speed)))
  = TemperatureFan.target_temp tf.
Proof.
  unfold ControlSlope.floor_at_min_speed.
  destruct (Py.gt speed (ControlSlope.min_speed c));
    apply TemperatureFan_set_speed_target.
Qed.

Lemma Slope_run_algo_target math_log tc c tf read_time temp :
  TemperatureFan.target_temp
    (fst (fst (ControlSlope.run_algo math_log tc c tf read_time temp)))
  = TemperatureFan.target_temp tf.
Proof.
  unfold ControlSlope.run_algo.
  destruct (ControlSlope.algo c).
  - unfold ControlSlope.linear. destruct (Py.div _ _); [| reflexivity].
    apply Slope_floor_target.
  - unfold ControlSlope.log.
    destruct (ControlSlope.log_of math_log _); [| reflexivity].
    destruct (ControlSlope.log_of math_log _); [| reflexivity].
    destruct (Py.div _ _); [| reflexivity].
    apply Slope_floor_target.
  - unfold ControlSlope.exponential. destruct (Py.div _ _); [| reflexivity].
    apply Slope_floor_target.
Qed.

Lemma TemperatureFan_get_status_target tc tf frequency eventtime :
  TemperatureFan.target
    (snd (TemperatureFan.get_status tc tf frequency eventtime))
  = TemperatureFan.target_temp tf.
Proof.
  unfold TemperatureFan.get_status.
  destruct (Fan.get_status _ _ _ _) as [[f evs] st]. reflexivity.
Qed.

(** [math.trunc] is the integer next to its argument on the side of 0. *)
Lemma Py_trunc_nonneg (a : Q) :
  0 <= a -> Py.trunc a = Qfloor a.
Proof.
  intros Ha. destruct a as [n d]. unfold Py.trunc, Qfloor. cbn [Qnum Qden].
  apply Z.quot_div_nonneg; [| lia].
  unfold Qle in Ha. cbn in Ha. lia.
Qed.

Lemma Py_trunc_opp (a : Q) : Py.trunc (- a) = (- Py.trunc a)%Z.
Proof.
  destruct a as [n d]. unfold Py.trunc. cbn [Qnum Qden Qopp].
  apply Z.quot_opp_l. lia.
Qed.

Lemma Py_trunc_spec (a : Q) :
  (0 <= a -> inject_Z (Py.trunc a) <= a < inject_Z (Py.trunc a) + 1)
  /\ (a <= 0 -> a <= inject_Z (Py.trunc a)
                /\ inject_Z (Py.trunc a) - 1 < a).
Proof.
  assert (Hpos : forall b, 0 <= b ->
                   inject_Z (Py.trunc b) <= b < inject_Z (Py.trunc b) + 1).
  { intros b Hb. rewrite (Py_trunc_nonneg b Hb).
    pose proof (Qfloor_le b) as Hlo. pose proof (Qlt_floor b) as Hhi.
    rewrite inject_Z_plus in Hhi. change (inject_Z 1) with 1 in Hhi.
    split; assumption. }
  split; [apply Hpos |].
  intros Ha. assert (Hb : 0 <= - a) by lra.
  specialize (Hpos (- a) Hb). rewrite Py_trunc_opp, inject_Z_opp in Hpos.
  lra.
Qed.

Lemma FloatSlope_callback_exact math_log tc c tf read_time temp :
  FloatSlope.temperature_callback Float.exact math_log tc c tf read_time temp
  = ControlSlope.temperature_callback math_log tc c tf read_time temp.
Proof. reflexivity. Qed.

(** C10.  Let the operations on floats be those of [o], rounding but
    keeping the order as [Float.ordered] says, and take a slope controller
    with the margin 0.5 and the upper bound [max_temp * 0.8], as the code
    computes it, that [__init__] gives it.  A sample strictly above the
    sum [min_temp_cutoff + 0.5], as the code computes it, stores in
    [target_temp] the quotient by 10 of the integer [n] that [math.trunc]
    makes of the product by 10 of [clamp(temp, min_temp, 0.8 * max_temp)],
    [min_temp] being the controller's resolved lower bound: [n] is the
    integer next to the product on the side of 0.  The mapping is then
    evaluated on the state so updated and leaves the field alone, so the
    stored value is what [get_status] reports as ['target'] afterwards. *)
Theorem C10_slope_tracks_temperature o math_log tc c tf read_time temp :
  Float.ordered o ->
  ControlSlope.hysteresis_margin c == 0.5 ->
  ControlSlope.max_temp c
  == Float.mul o (TemperatureFan.max_temp tc) TemperatureFan.MAX_TEMP_BUFFER ->
  Float.add o (TemperatureFan.min_temp_cutoff tc)
    (ControlSlope.hysteresis_margin c) < temp ->
  let clamped_temp := ControlSlope.clamped c temp in
  let product := Float.mul o clamped_temp 10 in
  let n := Py.trunc product in
  let target := Float.div o (inject_Z n) 10 in
  let r :=
    FloatSlope.temperature_callback o math_log tc c tf read_time temp in
  clamped_temp
  == clamp temp (ControlSlope.min_temp c)
       (Float.mul o (TemperatureFan.max_temp tc) 0.8)
  /\ (0 <= product -> inject_Z n <= product < inject_Z n + 1)
  /\ (product <= 0 -> product <= inject_Z n /\ inject_Z n - 1 < product)
  /\ r = ControlSlope.run_algo math_log tc c
           (TemperatureFan.set_target_temp target tf) read_time clamped_temp
  /\ TemperatureFan.target_temp (fst (fst r)) = target
  /\ forall frequency eventtime,
       TemperatureFan.target
         (snd (TemperatureFan.get_status tc (fst (fst r))
                 frequency eventtime))
       = target.
Proof.
  intros (_ & Hnn & Hsub) Hmargin Hmax Ht clamped_temp product n target r.
  assert (Hm : 0 <= ControlSlope.hysteresis_margin c) by lra.
  assert (Hr : r = ControlSlope.run_algo math_log tc c
                     (TemperatureFan.set_target_temp target tf)
                     read_time clamped_temp).
  { subst r. unfold FloatSlope.temperature_callback.
    pose proof (Hnn (TemperatureFan.min_temp_cutoff tc) _ Hm).
    pose proof (Hsub (TemperatureFan.min_temp_cutoff tc) _ Hm).
    assert (Py.lt temp
              (Float.sub o (TemperatureFan.min_temp_cutoff tc)
                 (ControlSlope.hysteresis_margin c)) = false)
      as -> by (apply Py_lt_false_iff; lra).
    assert (Py.gt temp
              (Float.add o (TemperatureFan.min_temp_cutoff tc)
                 (ControlSlope.hysteresis_margin c)) = true)
      as -> by (apply Py_gt_iff; lra).
    reflexivity. }
  assert (Htarget : TemperatureFan.target_temp (fst (fst r)) = target).
  { rewrite Hr, Slope_run_algo_target. reflexivity. }
  split; [| split; [apply Py_trunc_spec | split; [apply Py_trunc_spec |]]].
  - subst clamped_temp. unfold ControlSlope.clamped, clamp.
    change TemperatureFan.MAX_TEMP_BUFFER with 0.8 in Hmax.
    set (lo := ControlSlope.min_temp c). clearbody lo.
    set (top := ControlSlope.max_temp c) in *. clearbody top.
    set (hi := Float.mul o (TemperatureFan.max_temp tc) 0.8) in *.
    clearbody hi.
    pose proof (Q.min_spec hi temp) as Hmin.
    generalize dependent (Qmin hi temp). intros m Hmin.
    pose proof (Q.max_spec lo m) as HM.
    generalize dependent (Qmax lo m). intros M HM.
    unfold Py.min. py_case; unfold Py.max; py_case; lra.
  - split; [exact Hr | split; [exact Htarget |]].
    intros frequency eventtime.
    rewrite TemperatureFan_get_status_target. exact Htarget.
Qed.

Lemma C10_slope_tracks_temperature_witness :
  let o := Float.exact in
  let tc := {| TemperatureFan.min_temp := 0;
               TemperatureFan.max_temp := 100;
               TemperatureFan.min_temp_cutoff := 40;
               TemperatureFan.target_temp_conf := 40;
               TemperatureFan.speed_delay := 0.3;
               TemperatureFan.max_speed_conf := 1;
               TemperatureFan.min_speed_conf := 0.3;
               TemperatureFan.fan_config :=
                 Fan.configure 1 0.1 0 false None |} in
  let tf := TemperatureFan.init tc in
  let c := ControlSlope.configure tc tf ControlSlope.Linear in
  (Float.ordered o
   /\ ControlSlope.hysteresis_margin c == 0.5
   /\ ControlSlope.max_temp c
      == Float.mul o (TemperatureFan.max_temp tc)
           TemperatureFan.MAX_TEMP_BUFFER
   /\ Float.add o (TemperatureFan.min_temp_cutoff tc)
        (ControlSlope.hysteresis_margin c) < 50.67)
  /\ TemperatureFan.target_temp
       (fst (fst (FloatSlope.temperature_callback o (fun x => x) tc c tf
                    1 50.67)))
     = Float.div o
         (inject_Z (Py.trunc (Float.mul o (ControlSlope.clamped c 50.67) 10)))
         10.
Proof.
  intros o tc tf c.
  assert (H0 : Float.ordered o) by exact Float_exact_ordered.
  assert (H1 : ControlSlope.hysteresis_margin c == 0.5) by reflexivity.
  assert (H2 : ControlSlope.max_temp c
               == Float.mul o (TemperatureFan.max_temp tc)
                    TemperatureFan.MAX_TEMP_BUFFER) by reflexivity.
  assert (H3 : Float.add o (TemperatureFan.min_temp_cutoff tc)
                 (ControlSlope.hysteresis_margin c) < 50.67)
    by reflexivity.
  split; [split; [exact H0 | split; [exact H1 | split; [exact H2 | exact H3]]]
         |].
  exact (proj1 (proj2 (proj2 (proj2 (proj2
           (C10_slope_tracks_temperature o (fun x => x) tc c tf 1 50.67
              H0 H1 H2 H3)))))).
Defined.

(** * Further properties of the code *)

(** ** Fan.set_speed *)

Lemma Fan_fan_speed_le_max_power c v :
  0 <= Fan.max_power c -> Fan.fan_speed c v <= Fan.max_power c.
Proof.
  intros Hmp. unfold Fan.fan_speed.
  set (x := _ * Fan.max_power c). clearbody x.
  unfold Py.min. py_case; unfold Py.max; py_case; lra.
Qed.

Lemma Fan_set_speed_duty_in_range c s t v k :
  0 <= Fan.max_power c ->
  In k (snd (Fan.set_speed c s t v)) -> duty_in_range c k.
Proof.
  intros Hmp. unfold Fan.set_speed.
  destruct (Py.eq v (Fan.last_fan_value s)); [intros [] |].
  cbn [snd]. intros Hin. apply in_app_or in Hin as [Hin | Hin].
  - unfold Fan.enable_commands in Hin.
    destruct (Fan.enable_pin c); [| destruct Hin].
    destruct (_ && _); [destruct Hin as [<- | []]; exact I |].
    destruct (_ && _); [destruct Hin as [<- | []]; exact I | destruct Hin].
  - apply in_app_or in Hin as [Hin | Hin].
    + destruct (Fan.kick_start c s (Fan.fan_speed c v)); [| destruct Hin].
      destruct Hin as [<- | []]. cbn. lra.
    + destruct Hin as [<- | []]. cbn. split.
      * apply Fan_fan_speed_nonneg.
      * apply Fan_fan_speed_le_max_power, Hmp.
Qed.

(** X1.  With [max_power >= 0], every PWM command that any sequence of
    [set_speed] calls emits, the kick-start pulse included, carries a duty
    in [0, max_power]. *)
Theorem X1_run_duty_in_range c s calls k :
  0 <= Fan.max_power c ->
  In k (snd (Fan.run c s calls)) -> duty_in_range c k.
Proof.
  intros Hmp. revert s. induction calls as [| [t v] rest IH]; intros s.
  - intros [].
  - rewrite Fan_run_cons. cbn [snd]. intros Hin.
    apply in_app_or in Hin as [Hin | Hin].
    + apply (Fan_set_speed_duty_in_range c s t v k Hmp Hin).
    + apply (IH _ Hin).
Qed.

Lemma X1_run_duty_in_range_witness :
  let c := Fan.configure 0.8 0.1 0 true None in
  let ks := snd (Fan.run c Fan.init [(1, 0.3); (2, 1)]) in
  0 <= Fan.max_power c /\ duty_in_range c (last ks (Fan.SetPwm 0 0)).
Proof.
  intros c ks.
  assert (H : 0 <= Fan.max_power c) by (vm_compute; discriminate).
  split; [exact H |].
  apply (X1_run_duty_in_range c Fan.init [(1, 0.3); (2, 1)] _ H).
  vm_compute. do 3 right. left. reflexivity.
Defined.

Lemma raw_speed_monotone c v1 v2 :
  0 <= Fan.off_below c -> v1 <= v2 -> raw_speed c v1 <= raw_speed c v2.
Proof.
  intros Hoff Hv. unfold raw_speed.
  destruct (Fan.pwm_fan c); py_cases; lra.
Qed.

(** X2.  With [max_power >= 0] and [off_below >= 0], a larger request never
    yields a smaller hardware duty. *)
Theorem X2_fan_speed_monotone c v1 v2 :
  0 <= Fan.max_power c -> 0 <= Fan.off_below c -> v1 <= v2 ->
  Fan.fan_speed c v1 <= Fan.fan_speed c v2.
Proof.
  intros Hmp Hoff Hv.
  rewrite !Fan_fan_speed_clamp. unfold clamp.
  pose proof (raw_speed_monotone c v1 v2 Hoff Hv) as Hr.
  set (r1 := raw_speed c v1) in *. set (r2 := raw_speed c v2) in *.
  set (mp := Fan.max_power c) in *.
  assert (Hp : r1 * mp <= r2 * mp) by nra.
  set (p1 := r1 * mp) in *. set (p2 := r2 * mp) in *.
  clearbody p1 p2 r1 r2 mp.
  pose proof (Q.min_spec mp p1) as Hm1.
  generalize dependent (Qmin mp p1). intros m1 Hm1.
  pose proof (Q.min_spec mp p2) as Hm2.
  generalize dependent (Qmin mp p2). intros m2 Hm2.
  pose proof (Q.max_spec 0 m1) as HM1.
  generalize dependent (Qmax 0 m1). intros M1 HM1.
  pose proof (Q.max_spec 0 m2) as HM2.
  generalize dependent (Qmax 0 m2). intros M2 HM2.
  lra.
Qed.

Lemma X2_fan_speed_monotone_witness :
  let c := Fan.configure 0.8 0.1 0.25 false None in
  (0 <= Fan.max_power c /\ 0 <= Fan.off_below c /\ 0.2 <= 0.3)
  /\ Fan.fan_speed c 0.2 <= Fan.fan_speed c 0.3.
Proof.
  intros c.
  assert (H1 : 0 <= Fan.max_power c) by (vm_compute; discriminate).
  assert (H2 : 0 <= Fan.off_below c) by (vm_compute; discriminate).
  assert (H3 : 0.2 <= 0.3) by (vm_compute; discriminate).
  split; [repeat split; assumption |].
  exact (X2_fan_speed_monotone c 0.2 0.3 H1 H2 H3).
Defined.

(** X3.  On a 3-wire fan with [max_power > 0] the hardware duty is either 0
    or strictly above 20% of [max_power]: nothing is sent in between. *)
Theorem X3_three_wire_dead_band c v :
  Fan.pwm_fan c = false -> 0 < Fan.max_power c ->
  Fan.fan_speed c v == 0 \/ 0.2 * Fan.max_power c < Fan.fan_speed c v.
Proof.
  intros H3 Hmp.
  pose proof (Fan_fan_speed_clamp c v) as Hc. unfold clamp in Hc.
  assert (Hraw : raw_speed c v == 0 \/ 0.2 < raw_speed c v).
  { unfold raw_speed. rewrite H3. py_cases; lra. }
  set (r := raw_speed c v) in *. set (mp := Fan.max_power c) in *.
  assert (Hp : r * mp == 0 \/ 0.2 * mp < r * mp).
  { destruct Hraw as [Hr | Hr]; [left; rewrite Hr; ring | right; nra]. }
  set (p := r * mp) in *. clearbody p r mp.
  pose proof (Q.min_spec mp p) as Hm.
  generalize dependent (Qmin mp p). intros m Hc Hm.
  pose proof (Q.max_spec 0 m) as HM.
  generalize dependent (Qmax 0 m). intros M Hc HM.
  set (d := Fan.fan_speed c v) in *. clearbody d. lra.
Qed.

Lemma X3_three_wire_dead_band_witness :
  let c := Fan.configure 0.8 0.1 0 false None in
  (Fan.pwm_fan c = false /\ 0 < Fan.max_power c)
  /\ (Fan.fan_speed c 0.01 == 0
      \/ 0.2 * Fan.max_power c < Fan.fan_speed c 0.01).
Proof.
  intros c.
  assert (H1 : Fan.pwm_fan c = false) by reflexivity.
  assert (H2 : 0 < Fan.max_power c) by reflexivity.
  split; [split; assumption |].
  exact (X3_three_wire_dead_band c 0.01 H1 H2).
Defined.

Lemma Fan_fan_speed_zero c v :
  raw_speed c v == 0 -> Fan.fan_speed c v == 0.
Proof.
  intros Hr. rewrite Fan_fan_speed_clamp. unfold clamp.
  assert (Hp : raw_speed c v * Fan.max_power c == 0) by (rewrite Hr; ring).
  set (p := raw_speed c v * Fan.max_power c) in *. clearbody p.
  pose proof (Q.min_spec (Fan.max_power c) p) as Hm.
  generalize dependent (Qmin (Fan.max_power c) p). intros m Hm.
  pose proof (Q.max_spec 0 m) as HM.
  generalize dependent (Qmax 0 m). intros M HM. lra.
Qed.

Lemma Fan_kick_start_zero c s d :
  d == 0 -> Fan.kick_start c s d = false.
Proof.
  intros Hd. unfold Fan.kick_start.
  assert (Py.truthy d = false) as -> by (apply Py_truthy_false_iff; exact Hd).
  reflexivity.
Qed.

(** X4.  A request below [off_below] switches the fan off, whatever the
    wiring: the call, unless suppressed, sends one PWM command, of duty 0,
    and no kick-start pulse. *)
Theorem X4_off_below_cut c s t v :
  v < Fan.off_below c -> ~ v == Fan.last_fan_value s ->
  Fan.fan_speed c v == 0
  /\ Fan.pwm_commands (snd (Fan.set_speed c s t v)) =
     [Fan.SetPwm (Py.max (Fan.last_fan_time s + Fan.FAN_MIN_TIME) t)
        (Fan.fan_speed c v)].
Proof.
  intros Hv Hne.
  assert (Hd : Fan.fan_speed c v == 0).
  { apply Fan_fan_speed_zero. unfold raw_speed.
    assert (Py.lt v (Fan.off_below c) = true) as ->
        by (apply Py_lt_iff; exact Hv).
    reflexivity. }
  split; [exact Hd |].
  pose proof (Fan_pwm_commands_set_speed c s t v) as Hs. cbn zeta in Hs.
  rewrite Hs.
  apply Py_eq_false_iff in Hne. rewrite Hne.
  rewrite (Fan_kick_start_zero c s _ Hd). reflexivity.
Qed.

Lemma X4_off_below_cut_witness :
  let c := Fan.configure 1 0.1 0.25 true None in
  let s := fst (Fan.set_speed c Fan.init 1 0.5) in
  (0.2 < Fan.off_below c /\ ~ 0.2 == Fan.last_fan_value s)
  /\ Fan.fan_speed c 0.2 == 0.
Proof.
  intros c s.
  assert (H1 : 0.2 < Fan.off_below c) by reflexivity.
  assert (H2 : ~ 0.2 == Fan.last_fan_value s) by (vm_compute; discriminate).
  split; [split; assumption |].
  exact (proj1 (X4_off_below_cut c s 2 0.2 H1 H2)).
Defined.

Lemma pin_level_app level ks1 ks2 :
  pin_level level (ks1 ++ ks2) = pin_level (pin_level level ks1) ks2.
Proof.
  revert level. induction ks1 as [| [t b | t d] rest IH]; intros level;
    cbn [app pin_level]; [reflexivity | apply IH | apply IH].
Qed.

Lemma Fan_set_speed_pin_level c s t v :
  Fan.enable_pin c = true -> 0 <= Fan.last_fan_value s -> 0 <= v ->
  pin_level (Py.gt (Fan.last_fan_value s) 0) (snd (Fan.set_speed c s t v))
  = Py.gt (Fan.last_fan_value (fst (Fan.set_speed c s t v))) 0.
Proof.
  intros He Hl Hv. unfold Fan.set_speed.
  destruct (Py.eq v (Fan.last_fan_value s)) eqn:E; [reflexivity |].
  apply Py_eq_false_iff in E. cbn [fst snd Fan.last_fan_value].
  rewrite pin_level_app.
  replace (pin_level _ (_ ++ [Fan.SetPwm _ _]))
    with (pin_level (Py.gt (Fan.last_fan_value s) 0)
            (Fan.enable_commands c s
               (Py.max (Fan.last_fan_time s + Fan.FAN_MIN_TIME) t) v))
    by (destruct (Fan.kick_start c s (Fan.fan_speed c v)); reflexivity).
  unfold Fan.enable_commands. rewrite He.
  destruct (Py.gt v 0) eqn:Ev;
    [apply Py_gt_iff in Ev | apply Py_gt_false_iff in Ev];
    destruct (Py.eq (Fan.last_fan_value s) 0) eqn:El;
    [apply Py_eq_iff in El | apply Py_eq_false_iff in El
     | apply Py_eq_iff in El | apply Py_eq_false_iff in El];
    cbn [andb].
  - reflexivity.
  - assert (Py.eq v 0 = false) as -> by (apply Py_eq_false_iff; lra).
    cbn [andb pin_level]. apply Py_gt_iff. lra.
  - exfalso. apply E. lra.
  - assert (Py.eq v 0 = true) as -> by (apply Py_eq_iff; lra).
    assert (Py.gt (Fan.last_fan_value s) 0 = true) as ->
        by (apply Py_gt_iff; lra).
    reflexivity.
Qed.

(** X5.  With an enable pin and requests that are never negative, the pin
    follows the request through any sequence of [set_speed] calls: if its
    level said "on" exactly when the last requested duty was above 0 before
    the calls, it does so after them. *)
Theorem X5_enable_pin_follows_request c s calls :
  Fan.enable_pin c = true -> 0 <= Fan.last_fan_value s ->
  Forall (fun call => 0 <= snd call) calls ->
  pin_level (Py.gt (Fan.last_fan_value s) 0) (snd (Fan.run c s calls))
  = Py.gt (Fan.last_fan_value (fst (Fan.run c s calls))) 0.
Proof.
  intros He Hl Hall. revert s Hl.
  induction Hall as [| [t v] rest Hv _ IH]; intros s Hl.
  - reflexivity.
  - cbn [snd] in Hv. rewrite Fan_run_cons. cbn [fst snd].
    rewrite pin_level_app, (Fan_set_speed_pin_level c s t v He Hl Hv).
    apply IH.
    pose proof (Fan_set_speed_last_value c s t v) as Hlast.
    apply Py_eq_iff in Hlast. lra.
Qed.

Lemma X5_enable_pin_follows_request_witness :
  let c := Fan.configure 1 0.1 0 true None in
  let calls := [(1, 0.5); (2, 0.7); (3, 0)] in
  (Fan.enable_pin c = true /\ 0 <= Fan.last_fan_value Fan.init
   /\ Forall (fun call => 0 <= snd call) calls)
  /\ pin_level (Py.gt (Fan.last_fan_value Fan.init) 0)
       (snd (Fan.run c Fan.init calls)) = false.
Proof.
  intros c calls.
  assert (H1 : Fan.enable_pin c = true) by reflexivity.
  assert (H2 : 0 <= Fan.last_fan_value Fan.init)
    by (vm_compute; discriminate).
  assert (H3 : Forall (fun call => 0 <= snd call) calls)
    by (repeat constructor; vm_compute; discriminate).
  split; [repeat split; assumption |].
  exact (X5_enable_pin_follows_request c Fan.init calls H1 H2 H3).
Defined.

(** X6.  A restart request turns the fan off through [set_speed]: the last
    requested duty is 0 afterwards; a fan already off gets no command, and
    a running fan gets the enable-low command, if it has an enable pin and
    was on, and one PWM command of duty 0, with no kick-start pulse. *)
Theorem X6_restart_turns_off c s t :
  let r := Fan._handle_request_restart c s t in
  let tp := Py.max (Fan.last_fan_time s + Fan.FAN_MIN_TIME) t in
  Fan.last_fan_value (fst r) == 0
  /\ (Fan.last_fan_value s == 0 -> r = (s, []))
  /\ (~ Fan.last_fan_value s == 0 ->
      Fan.fan_speed c 0 == 0
      /\ snd r =
         (if Fan.enable_pin c && Py.gt (Fan.last_fan_value s) 0
          then [Fan.SetDigital tp false] else [])
         ++ [Fan.SetPwm tp (Fan.fan_speed c 0)]).
Proof.
  intros r tp. subst r. unfold Fan._handle_request_restart.
  assert (Hd : Fan.fan_speed c 0 == 0).
  { apply Fan_fan_speed_zero. unfold raw_speed.
    destruct (Py.lt 0 (Fan.off_below c)); [reflexivity |].
    destruct (Fan.pwm_fan c); reflexivity. }
  split; [| split].
  - pose proof (Fan_set_speed_last_value c s t 0) as H.
    apply Py_eq_iff in H. lra.
  - intros H0. unfold Fan.set_speed.
    assert (Py.eq 0 (Fan.last_fan_value s) = true) as ->
        by (apply Py_eq_iff; lra).
    reflexivity.
  - intros Hne. split; [exact Hd |]. unfold Fan.set_speed.
    assert (Py.eq 0 (Fan.last_fan_value s) = false) as ->
        by (apply Py_eq_false_iff; lra).
    cbn [snd]. fold tp. rewrite (Fan_kick_start_zero c s _ Hd).
    cbn [app]. f_equal. unfold Fan.enable_commands.
    destruct (Fan.enable_pin c); [| reflexivity]. cbn [andb].
    assert (Py.gt 0 0 = false) as -> by reflexivity.
    assert (Py.eq 0 0 = true) as -> by reflexivity.
    cbn [andb]. destruct (Py.gt (Fan.last_fan_value s) 0); reflexivity.
Qed.

Lemma X6_restart_turns_off_witness :
  let c := Fan.configure 1 0.1 0 true None in
  let s := fst (Fan.set_speed c Fan.init 1 0.5) in
  ~ Fan.last_fan_value s == 0
  /\ Fan.fan_speed c 0 == 0.
Proof.
  intros c s.
  assert (H : ~ Fan.last_fan_value s == 0) by (vm_compute; discriminate).
  split; [exact H |].
  exact (proj1 (proj2 (proj2 (X6_restart_turns_off c s 2)) H)).
Defined.

(** X7.  The status reports the request, not the hardware duty: after any
    sequence of [set_speed] calls, ['speed'] equals the duty of the last
    call, and [get_status] itself changes neither the recorded duty nor the
    recorded time. *)
Theorem X7_status_reports_last_request c s calls t v frequency eventtime :
  let s' := fst (Fan.run c s (calls ++ [(t, v)])) in
  let r := Fan.get_status c s' frequency eventtime in
  Fan.speed (snd r) == v
  /\ Fan.last_fan_value (fst (fst r)) = Fan.last_fan_value s'
  /\ Fan.last_fan_time (fst (fst r)) = Fan.last_fan_time s'.
Proof.
  intros s' r.
  assert (Hs : Fan.last_fan_value s' == v).
  { subst s'. rewrite Fan_run_app. cbn [fst]. rewrite Fan_run_cons.
    cbn [fst Fan.run].
    pose proof (Fan_set_speed_last_value c (fst (Fan.run c s calls)) t v)
      as H. apply Py_eq_iff in H. lra. }
  subst r. unfold Fan.get_status.
  destruct (FanTachometer.get_status _ _ _ _ _) as [[tach evs] rpm].
  cbn [fst snd Fan.speed Fan.last_fan_value Fan.last_fan_time].
  repeat split. exact Hs.
Qed.

(** X8.  No kick-start pulse is sent when [kick_start_time] is 0 or when
    the effective duty is already [max_power]: the call sends at most one
    PWM command. *)
Theorem X8_no_kick_start c s t v :
  Fan.kick_start_time c == 0 \/ Fan.fan_speed c v == Fan.max_power c ->
  (length (Fan.pwm_commands (snd (Fan.set_speed c s t v))) <= 1)%nat.
Proof.
  intros H.
  pose proof (Fan_pwm_commands_set_speed c s t v) as Hs. cbn zeta in Hs.
  rewrite Hs. destruct (Py.eq v (Fan.last_fan_value s)); [cbn; lia |].
  assert (Fan.kick_start c s (Fan.fan_speed c v) = false) as ->.
  { unfold Fan.kick_start. destruct H as [H | H].
    - assert (Py.truthy (Fan.kick_start_time c) = false) as ->
          by (apply Py_truthy_false_iff; exact H).
      rewrite andb_false_r. reflexivity.
    - assert (Py.lt (Fan.fan_speed c v) (Fan.max_power c) = false) as ->
          by (apply Py_lt_false_iff; lra).
      rewrite andb_false_r. reflexivity. }
  cbn. lia.
Qed.

Lemma X8_no_kick_start_witness :
  let c := Fan.configure 1 0 0 false None in
  Fan.kick_start_time c == 0
  /\ (length (Fan.pwm_commands (snd (Fan.set_speed c Fan.init 1 0.3)))
      <= 1)%nat.
Proof.
  intros c.
  assert (H : Fan.kick_start_time c == 0) by reflexivity.
  split; [exact H |].
  exact (X8_no_kick_start c Fan.init 1 0.3 (or_introl H)).
Defined.

(** ** FanTachometer *)

Lemma Tach_run_cons c s f d t rest :
  FanTachometer.run c s ((f, d, t) :: rest) =
  (fst (FanTachometer.run c
          (fst (fst (FanTachometer.get_status c s f d t))) rest),
   snd (fst (FanTachometer.get_status c s f d t))
   ++ snd (FanTachometer.run c
             (fst (fst (FanTachometer.get_status c s f d t))) rest)).
Proof.
  cbn [FanTachometer.run].
  destruct (FanTachometer.get_status c s f d t) as [[s1 evs1] rpm].
  cbn [fst snd]. destruct (FanTachometer.run c s1 rest). reflexivity.
Qed.

Lemma Tach_call_action_no_call c s t e :
  In e (snd (FanTachometer.call_action c s t)) ->
  FanTachometer.is_action_call e = false.
Proof.
  intros Hin. pose proof (Tach_call_action_events c s t) as Hf.
  destruct (FanTachometer.is_action_call e) eqn:E; [| reflexivity].
  assert (In e (filter FanTachometer.is_action_call
                  (snd (FanTachometer.call_action c s t))))
    by (apply filter_In; split; assumption).
  rewrite Hf in H. destruct H.
Qed.

(** X9.  One sample calls the fault action exactly when the RPM reads 0,
    the fan is commanded on, a loss time [t0] is on record (and is not the
    timestamp 0) and more than [tach_loss_interval] has passed since. *)
Theorem X9_action_called_iff c s f d t :
  In (FanTachometer.ActionCall t)
     (snd (fst (FanTachometer.get_status (Some c) s f d t)))
  <-> f * 30 / inject_Z (Zpos (FanTachometer.ppr c)) == 0 /\ 0 < d
      /\ exists t0,
           FanTachometer.tach_loss_time s = Some t0 /\ ~ t0 == 0
           /\ FanTachometer.tach_loss_interval c < t - t0.
Proof.
  unfold FanTachometer.get_status.
  set (rpm := f * 30 / inject_Z (Zpos (FanTachometer.ppr c))).
  destruct (Py.eq rpm 0) eqn:Er;
    [apply Py_eq_iff in Er | apply Py_eq_false_iff in Er].
  - assert (Py.gt rpm 0 = false) as -> by (apply Py_gt_false_iff; lra).
    cbn [andb].
    destruct (Py.gt d 0) eqn:Ed;
      [apply Py_gt_iff in Ed | apply Py_gt_false_iff in Ed].
    + destruct (FanTachometer.tach_loss_time s) as [t0 |] eqn:El.
      * destruct (Py.truthy t0) eqn:Et;
          [apply Py_truthy_iff in Et | apply Py_truthy_false_iff in Et];
          cbn [negb].
        -- destruct (Py.gt (t - t0) (FanTachometer.tach_loss_interval c))
             eqn:Eg;
             [apply Py_gt_iff in Eg | apply Py_gt_false_iff in Eg].
           ++ destruct (FanTachometer.call_action c s t) as [s' evs].
              cbn [fst snd]. split; [intros _ | intros _; left; reflexivity].
              repeat split; try assumption. exists t0. repeat split;
                assumption.
           ++ cbn [fst snd]. split; [intros [] |].
              intros (_ & _ & t1 & H1 & _ & H3). injection H1 as <-. lra.
        -- cbn [fst snd]. split; [intros [] |].
           intros (_ & _ & t1 & H1 & H2 & _). injection H1 as <-.
           contradiction.
      * cbn [fst snd]. split; [intros [] |].
        intros (_ & _ & t1 & H1 & _). discriminate.
    + cbn [fst snd]. split; [intros [] | intros (_ & H & _); lra].
  - cbn [andb].
    destruct (Py.gt rpm 0 && _); cbn [fst snd];
      (split; [intros [] | intros (H & _); contradiction]).
Qed.

(** X10.  While the fan is commanded off or the tachometer reports
    pulses, polling the tachometer has no effect on the host: no action is
    called, no warning is sent, no shutdown is requested. *)
Theorem X10_quiet_when_off_or_turning c s samples :
  Forall (fun sample => 0 < fst (fst sample) \/ snd (fst sample) <= 0)
    samples ->
  snd (FanTachometer.run (Some c) s samples) = [].
Proof.
  intros Hall. revert s.
  induction Hall as [| [[f d] t] rest Hq _ IH]; intros s.
  - reflexivity.
  - cbn [fst snd] in Hq. rewrite Tach_run_cons. cbn [snd].
    rewrite IH, app_nil_r. unfold FanTachometer.get_status.
    set (rpm := f * 30 / inject_Z (Zpos (FanTachometer.ppr c))).
    assert (Py.eq rpm 0 && Py.gt d 0 = false) as ->.
    { destruct Hq as [Hf | Hd].
      - pose proof (Tach_rpm_pos f (FanTachometer.ppr c) Hf) as Hr.
        fold rpm in Hr.
        assert (Py.eq rpm 0 = false) as -> by (apply Py_eq_false_iff; lra).
        reflexivity.
      - assert (Py.gt d 0 = false) as -> by (apply Py_gt_false_iff; lra).
        apply andb_false_r. }
    reflexivity.
Qed.

Lemma X10_quiet_when_off_or_turning_witness :
  let c := {| FanTachometer.ppr := 2;
              FanTachometer.tach_loss_interval := 3;
              FanTachometer.warning_repeat_interval := 3;
              FanTachometer.tach_loss_action := FanTachometer.Shutdown |} in
  let samples := [(0, 0, 1); (10, 0.5, 5); (0, 0, 9)] in
  Forall (fun sample => 0 < fst (fst sample) \/ snd (fst sample) <= 0)
    samples
  /\ snd (FanTachometer.run (Some c) FanTachometer.init samples) = [].
Proof.
  intros c samples.
  assert (H : Forall (fun sample => 0 < fst (fst sample)
                                    \/ snd (fst sample) <= 0) samples).
  { apply Forall_cons; [right; vm_compute; discriminate |].
    apply Forall_cons; [left; reflexivity |].
    apply Forall_cons; [right; vm_compute; discriminate |].
    apply Forall_nil. }
  split; [exact H |].
  exact (X10_quiet_when_off_or_turning c FanTachometer.init samples H).
Defined.

Lemma Tach_warning_step c s t :
  FanTachometer.warning c s t = (s, [])
  \/ (FanTachometer.warning c s t =
      (FanTachometer.set_last_warning_time t s, [FanTachometer.RespondRaw t])
      /\ (FanTachometer.last_warning_time s == 0
          \/ t - FanTachometer.last_warning_time s
             >= FanTachometer.warning_repeat_interval c)).
Proof.
  unfold FanTachometer.warning.
  destruct (_ && FanTachometer.warning_issued s); [left; reflexivity |].
  destruct (Py.truthy (FanTachometer.last_warning_time s)) eqn:El;
    [apply Py_truthy_iff in El | apply Py_truthy_false_iff in El];
    cbn [negb orb].
  - destruct (Py.ge _ _) eqn:Eg; [| left; reflexivity].
    apply Py_ge_iff in Eg. right. split; [reflexivity | right; lra].
  - right. split; [reflexivity | left; exact El].
Qed.

Lemma Tach_call_action_effects c s t e :
  In e (snd (FanTachometer.call_action c s t)) ->
  host_effects_of (FanTachometer.tach_loss_action c) e.
Proof.
  unfold FanTachometer.call_action.
  destruct (FanTachometer.tach_loss_action c).
  - intros [<- | []]. reflexivity.
  - destruct (Tach_warning_step c s t) as [-> | [-> _]].
    + intros [].
    + intros [<- | []]. reflexivity.
  - intros [].
Qed.

Lemma Tach_get_status_effects c s f d t e :
  In e (snd (fst (FanTachometer.get_status (Some c) s f d t))) ->
  host_effects_of (FanTachometer.tach_loss_action c) e.
Proof.
  unfold FanTachometer.get_status.
  set (s0 := if _ && _ then _ else s). clearbody s0.
  destruct (_ && _); [| intros []].
  destruct (FanTachometer.tach_loss_time s0) as [t0 |]; [| intros []].
  destruct (negb (Py.truthy t0)); [intros [] |].
  destruct (Py.gt _ _); [| intros []].
  pose proof (Tach_call_action_effects c s0 t e) as H.
  destruct (FanTachometer.call_action c s0 t) as [s' evs].
  cbn [fst snd] in *. intros [<- | Hin]; [exact I | exact (H Hin)].
Qed.

(** X11.  Whatever the samples, a tachometer only ever requests a shutdown
    under the policy [shutdown] and only ever sends a warning under the
    policy [warning]; under the policy [none] a stall has no effect on the
    host. *)
Theorem X11_effects_follow_policy c s samples e :
  In e (snd (FanTachometer.run (Some c) s samples)) ->
  match e with
  | FanTachometer.ActionCall _ => True
  | FanTachometer.RespondRaw _ =>
      FanTachometer.tach_loss_action c = FanTachometer.Warning
  | FanTachometer.InvokeShutdown _ =>
      FanTachometer.tach_loss_action c = FanTachometer.Shutdown
  end.
Proof.
  revert s. induction samples as [| [[f d] t] rest IH]; intros s.
  - intros [].
  - rewrite Tach_run_cons. cbn [snd]. intros Hin.
    apply in_app_or in Hin as [Hin | Hin].
    + exact (Tach_get_status_effects c s f d t e Hin).
    + exact (IH _ Hin).
Qed.

Lemma X11_effects_follow_policy_witness :
  let c := {| FanTachometer.ppr := 2;
              FanTachometer.tach_loss_interval := 3;
              FanTachometer.warning_repeat_interval := 3;
              FanTachometer.tach_loss_action := FanTachometer.Warning |} in
  let samples := [(0, 0.5, 1); (0, 0.5, 5)] in
  In (FanTachometer.RespondRaw 5)
     (snd (FanTachometer.run (Some c) FanTachometer.init samples))
  /\ FanTachometer.tach_loss_action c = FanTachometer.Warning.
Proof.
  intros c samples.
  assert (H : In (FanTachometer.RespondRaw 5)
                (snd (FanTachometer.run (Some c) FanTachometer.init samples)))
    by (vm_compute; right; left; reflexivity).
  split; [exact H |].
  exact (X11_effects_follow_policy c FanTachometer.init samples _ H).
Defined.

Lemma Tach_get_status_warning c s f d t :
  let r := fst (FanTachometer.get_status (Some c) s f d t) in
  (respond_times (snd r) = []
   /\ FanTachometer.last_warning_time (fst r)
      = FanTachometer.last_warning_time s)
  \/ (respond_times (snd r) = [t]
      /\ FanTachometer.last_warning_time (fst r) = t
      /\ (FanTachometer.last_warning_time s == 0
          \/ t - FanTachometer.last_warning_time s
             >= FanTachometer.warning_repeat_interval c)).
Proof.
  unfold FanTachometer.get_status.
  set (s0 := if _ && _ then _ else s).
  assert (H0 : FanTachometer.last_warning_time s0
               = FanTachometer.last_warning_time s)
    by (subst s0; destruct (_ && _); reflexivity).
  clearbody s0. rewrite <- H0.
  destruct (_ && _); [| left; split; reflexivity].
  destruct (FanTachometer.tach_loss_time s0) as [t0 |];
    [| left; split; reflexivity].
  destruct (negb (Py.truthy t0)); [left; split; reflexivity |].
  destruct (Py.gt _ _); [| left; split; reflexivity].
  unfold FanTachometer.call_action.
  destruct (FanTachometer.tach_loss_action c).
  - left. split; reflexivity.
  - destruct (Tach_warning_step c s0 t) as [-> | [-> Hw]].
    + left. split; reflexivity.
    + right. repeat split. exact Hw.
  - left. split; reflexivity.
Qed.

Lemma respond_times_app evs1 evs2 :
  respond_times (evs1 ++ evs2) = respond_times evs1 ++ respond_times evs2.
Proof.
  induction evs1 as [| [t | t | t] rest IH]; cbn [app respond_times];
    [reflexivity | exact IH | rewrite IH; reflexivity | exact IH].
Qed.

Lemma Tach_run_warnings_spaced c samples :
  Forall (fun sample => ~ sample_time sample == 0) samples ->
  forall s,
    let w := FanTachometer.warning_repeat_interval c in
    let l := FanTachometer.last_warning_time s in
    let ts := respond_times (snd (FanTachometer.run (Some c) s samples)) in
    (l == 0 -> spaced_by w ts) /\ (~ l == 0 -> spaced_by w (l :: ts)).
Proof.
  intros Hall. induction Hall as [| [[f d] t] rest Ht _ IH]; intros s w l ts.
  - subst ts. cbn. split; intros; exact I.
  - unfold sample_time in Ht. cbn [snd] in Ht.
    subst ts. rewrite Tach_run_cons. cbn [snd]. rewrite respond_times_app.
    specialize (IH (fst (fst (FanTachometer.get_status (Some c) s f d t)))).
    cbn zeta in IH. fold w in IH.
    destruct (Tach_get_status_warning c s f d t) as [[He Hl] | (He & Hl & Hw)];
      cbn zeta in He, Hl; rewrite He; rewrite Hl in IH; cbn [app].
    + exact IH.
    + destruct IH as [_ IH]. specialize (IH Ht). fold l w in Hw. split.
      * intros _. exact IH.
      * intros Hnz. cbn [spaced_by]. split; [| exact IH].
        destruct Hw as [Hw | Hw]; [contradiction | exact Hw].
Qed.

(** X12.  When no sample is taken at time 0, the warnings a tachometer
    sends, from its initial state on, are at least
    [warning_repeat_interval] apart. *)
Theorem X12_warnings_spaced c samples :
  Forall (fun sample => ~ sample_time sample == 0) samples ->
  spaced_by (FanTachometer.warning_repeat_interval c)
    (respond_times
       (snd (FanTachometer.run (Some c) FanTachometer.init samples))).
Proof.
  intros Hall.
  apply (Tach_run_warnings_spaced c samples Hall FanTachometer.init).
  reflexivity.
Qed.

Lemma X12_warnings_spaced_witness :
  let c := {| FanTachometer.ppr := 2;
              FanTachometer.tach_loss_interval := 3;
              FanTachometer.warning_repeat_interval := 2;
              FanTachometer.tach_loss_action := FanTachometer.Warning |} in
  let samples := map (fun t => (0, 0.5, t)) [1; 5; 6; 7; 8] in
  Forall (fun sample => ~ sample_time sample == 0) samples
  /\ spaced_by (FanTachometer.warning_repeat_interval c)
       (respond_times
          (snd (FanTachometer.run (Some c) FanTachometer.init samples))).
Proof.
  intros c samples.
  assert (H : Forall (fun sample => ~ sample_time sample == 0) samples)
    by (repeat constructor; vm_compute; discriminate).
  split; [exact H |].
  exact (X12_warnings_spaced c samples H).
Defined.

(** ** TemperatureFan *)

(** X13.  A [SET_TEMPERATURE_FAN_TARGET] command is accepted exactly when
    the target is 0 or within [min_temp, max_temp] and the speed bounds
    satisfy 0 <= min <= max <= 1 (a parameter left out counts with its
    default); an accepted command stores the target and both bounds. *)
Theorem X13_command_accepted_iff c s g :
  let temp :=
    TemperatureFan.get_float (TemperatureFan.TARGET g)
      (TemperatureFan.target_temp_conf c) in
  let lo :=
    TemperatureFan.get_float (TemperatureFan.MIN_SPEED g)
      (TemperatureFan.min_speed s) in
  let hi :=
    TemperatureFan.get_float (TemperatureFan.MAX_SPEED g)
      (TemperatureFan.max_speed s) in
  let r := TemperatureFan.cmd_SET_TEMPERATURE_FAN_TARGET c s g in
  (snd r = None <-> acceptable c temp lo hi)
  /\ (snd r = None ->
      fst r = TemperatureFan.set_field_max_speed hi
                (TemperatureFan.set_field_min_speed lo
                   (TemperatureFan.set_target_temp temp s))).
Proof.
  intros temp lo hi r. subst r.
  unfold TemperatureFan.cmd_SET_TEMPERATURE_FAN_TARGET, acceptable.
  fold temp. unfold TemperatureFan.set_temp.
  destruct (Py.truthy temp) eqn:Et;
    [apply Py_truthy_iff in Et | apply Py_truthy_false_iff in Et];
    (destruct (Py.lt temp (TemperatureFan.min_temp c)) eqn:E1;
     [apply Py_lt_iff in E1 | apply Py_lt_false_iff in E1]);
    (destruct (Py.gt temp (TemperatureFan.max_temp c)) eqn:E2;
     [apply Py_gt_iff in E2 | apply Py_gt_false_iff in E2]);
    cbn [andb orb TemperatureFan.and_then snd fst];
    try (split; [split; [discriminate | intros [[H | H] _]; lra]
                | discriminate]).
  all: cbn [TemperatureFan.set_target_temp TemperatureFan.min_speed
              TemperatureFan.max_speed]; fold lo hi.
  all: destruct (Py.gt lo hi) eqn:Eg;
    [apply Py_gt_iff in Eg | apply Py_gt_false_iff in Eg];
    cbn [snd fst];
    try (split; [split; [discriminate | intros (_ & _ & H & _); lra]
                | discriminate]).
  all: unfold TemperatureFan.set_min_speed, TemperatureFan.set_max_speed.
  all: destruct (Py.truthy lo) eqn:Tl;
    [apply Py_truthy_iff in Tl | apply Py_truthy_false_iff in Tl];
    (destruct (Py.lt lo 0) eqn:L1;
     [apply Py_lt_iff in L1 | apply Py_lt_false_iff in L1]);
    (destruct (Py.gt lo 1) eqn:L2;
     [apply Py_gt_iff in L2 | apply Py_gt_false_iff in L2]);
    cbn [andb orb TemperatureFan.and_then snd fst];
    try (split; [split; [discriminate | intros (_ & H1 & H2 & H3); lra]
                | discriminate]).
  all: destruct (Py.truthy hi) eqn:Th;
    [apply Py_truthy_iff in Th | apply Py_truthy_false_iff in Th];
    (destruct (Py.lt hi 0) eqn:M1;
     [apply Py_lt_iff in M1 | apply Py_lt_false_iff in M1]);
    (destruct (Py.gt hi 1) eqn:M2;
     [apply Py_gt_iff in M2 | apply Py_gt_false_iff in M2]);
    cbn [andb orb TemperatureFan.and_then snd fst];
    try (split; [split; [discriminate | intros (_ & H1 & H2 & H3); lra]
                | discriminate]).
  all: split; [split; [intros _ | reflexivity] | reflexivity].
  all: repeat split; try lra.
  all: try (left; lra); try (right; lra).
Qed.

Lemma X13_command_accepted_iff_witness :
  let c := {| TemperatureFan.min_temp := 10;
              TemperatureFan.max_temp := 100;
              TemperatureFan.min_temp_cutoff := 0;
              TemperatureFan.target_temp_conf := 40;
              TemperatureFan.speed_delay := 0.3;
              TemperatureFan.max_speed_conf := 1;
              TemperatureFan.min_speed_conf := 0.3;
              TemperatureFan.fan_config :=
                Fan.configure 1 0.1 0 false None |} in
  let g := {| TemperatureFan.TARGET := Some 0;
              TemperatureFan.MIN_SPEED := None;
              TemperatureFan.MAX_SPEED := Some 0.5 |} in
  let s := TemperatureFan.init c in
  let r := TemperatureFan.cmd_SET_TEMPERATURE_FAN_TARGET c s g in
  snd r = None
  /\ fst r = TemperatureFan.set_field_max_speed 0.5
               (TemperatureFan.set_field_min_speed 0.3
                  (TemperatureFan.set_target_temp 0 s)).
Proof.
  intros c g s r.
  assert (H : snd r = None) by reflexivity.
  split; [exact H |].
  exact (proj2 (X13_command_accepted_iff c s g) H).
Defined.

(** [TemperatureFan.set_speed] either suppresses the update or forwards one
    value to the fan. *)
Lemma TF_set_speed_cases tc tf read_time value :
  let v :=
    if Py.le (TemperatureFan.target_temp tf) 0 then 0
    else if Py.le value 0 then 0
    else if Py.lt value (TemperatureFan.min_speed tf)
         then TemperatureFan.min_speed tf
         else value in
  let speed_time := read_time + TemperatureFan.speed_delay tc in
  let r := TemperatureFan.set_speed tc tf read_time value in
  r = (tf, [])
  \/ (snd r = snd (Fan.set_speed (TemperatureFan.fan_config tc)
                     (TemperatureFan.fan tf) speed_time v)
      /\ TemperatureFan.fan (fst r)
         = fst (Fan.set_speed (TemperatureFan.fan_config tc)
                  (TemperatureFan.fan tf) speed_time v)
      /\ TemperatureFan.last_speed_value (fst r) = v
      /\ TemperatureFan.next_speed_time (fst r)
         = speed_time + 0.75 * TemperatureFan.MAX_FAN_TIME
      /\ TemperatureFan.target_temp (fst r) = TemperatureFan.target_temp tf
      /\ TemperatureFan.last_temp (fst r) = TemperatureFan.last_temp tf
      /\ TemperatureFan.min_speed (fst r) = TemperatureFan.min_speed tf
      /\ TemperatureFan.max_speed (fst r) = TemperatureFan.max_speed tf).
Proof.
  intros v speed_time r. subst r. unfold TemperatureFan.set_speed.
  set (w := if Py.le (TemperatureFan.target_temp tf) 0 then 0 else _).
  assert (Hw : w = v).
  { subst w v. destruct (Py.le (TemperatureFan.target_temp tf) 0);
      reflexivity. }
  clearbody w. subst w.
  destruct (_ && _); [left; reflexivity | right].
  fold speed_time.
  destruct (Fan.set_speed _ _ _ _) as [f ks].
  repeat split.
Qed.

(** X14.  Unless it suppresses the update, [TemperatureFan.set_speed]
    forwards 0 when the target temperature or the value is at most 0, and
    otherwise the value raised to [min_speed]; the fan then records what
    the temperature fan records. *)
Theorem X14_speed_forwarded tc tf read_time value :
  let r := TemperatureFan.set_speed tc tf read_time value in
  r = (tf, [])
  \/ ((TemperatureFan.target_temp tf <= 0 \/ value <= 0 ->
       TemperatureFan.last_speed_value (fst r) = 0)
      /\ (0 < TemperatureFan.target_temp tf -> 0 < value ->
          TemperatureFan.last_speed_value (fst r)
          == Qmax value (TemperatureFan.min_speed tf))
      /\ speed_records_agree (fst r)).
Proof.
  intros r.
  destruct (TF_set_speed_cases tc tf read_time value)
    as [H | (_ & Hf & Hv & _)]; [left; exact H | right].
  cbn zeta in Hf, Hv. fold r in Hf, Hv. split; [| split].
  - intros Hz. rewrite Hv.
    destruct (Py.le (TemperatureFan.target_temp tf) 0) eqn:E1;
      [reflexivity | apply Py_le_false_iff in E1].
    destruct (Py.le value 0) eqn:E2;
      [reflexivity | apply Py_le_false_iff in E2].
    destruct Hz; lra.
  - intros Ht Hp. rewrite Hv.
    assert (Py.le (TemperatureFan.target_temp tf) 0 = false) as ->
        by (apply Py_le_false_iff; lra).
    assert (Py.le value 0 = false) as -> by (apply Py_le_false_iff; lra).
    py_case.
    + rewrite Q.max_r; [reflexivity | lra].
    + rewrite Q.max_l; [reflexivity | lra].
  - unfold speed_records_agree. rewrite Hf, Hv.
    pose proof (Fan_set_speed_last_value (TemperatureFan.fan_config tc)
                  (TemperatureFan.fan tf)
                  (read_time + TemperatureFan.speed_delay tc)
                  (if Py.le (TemperatureFan.target_temp tf) 0 then 0
                   else if Py.le value 0 then 0
                        else if Py.lt value (TemperatureFan.min_speed tf)
                             then TemperatureFan.min_speed tf else value))
      as H. apply Py_eq_iff in H. lra.
Qed.

Lemma X14_speed_forwarded_witness :
  let tc := {| TemperatureFan.min_temp := 10;
               TemperatureFan.max_temp := 100;
               TemperatureFan.min_temp_cutoff := 0;
               TemperatureFan.target_temp_conf := 40;
               TemperatureFan.speed_delay := 0.3;
               TemperatureFan.max_speed_conf := 1;
               TemperatureFan.min_speed_conf := 0.3;
               TemperatureFan.fan_config :=
                 Fan.configure 1 0.1 0 false None |} in
  let tf := TemperatureFan.init tc in
  (0 < TemperatureFan.target_temp tf /\ 0 < 0.1
   /\ TemperatureFan.set_speed tc tf 1 0.1 <> (tf, []))
  /\ TemperatureFan.last_speed_value
       (fst (TemperatureFan.set_speed tc tf 1 0.1))
     == Qmax 0.1 (TemperatureFan.min_speed tf).
Proof.
  intros tc tf.
  assert (H1 : 0 < TemperatureFan.target_temp tf) by reflexivity.
  assert (H2 : 0 < 0.1) by reflexivity.
  assert (H3 : TemperatureFan.set_speed tc tf 1 0.1 <> (tf, []))
    by (vm_compute; discriminate).
  split; [repeat split; assumption |].
  destruct (X14_speed_forwarded tc tf 1 0.1) as [H | H].
  - exfalso. exact (H3 H).
  - exact (proj1 (proj2 H) H1 H2).
Defined.

(** ** The controllers, through the sensor callback *)

Section SensorInvariant.

Variable math_log : Q -> Q.
Variable tc : TemperatureFan.config.

(** An invariant of the temperature fan and a property of the commands it
    emits that [TemperatureFan.set_speed] and the two field writes keep. *)
Variable I : TemperatureFan.state -> Prop.
Variable P : Fan.command -> Prop.

Hypothesis set_speed_keeps :
  forall tf read_time value,
    I tf ->
    I (fst (TemperatureFan.set_speed tc tf read_time value))
    /\ Forall P (snd (TemperatureFan.set_speed tc tf read_time value)).

Hypothesis set_last_temp_keeps :
  forall tf v, I tf -> I (TemperatureFan.set_last_temp v tf).

Hypothesis set_target_temp_keeps :
  forall tf v, I tf -> I (TemperatureFan.set_target_temp v tf).

Lemma BangBang_callback_keeps c tf s read_time temp :
  I tf ->
  let r := ControlBangBang.temperature_callback tc c tf s read_time temp in
  I (fst (fst r)) /\ Forall P (snd r).
Proof.
  intros Hi r. subst r. unfold ControlBangBang.temperature_callback.
  destruct (Py.lt temp _).
  - pose proof (set_speed_keeps tf read_time 0 Hi) as H.
    destruct (TemperatureFan.set_speed tc tf read_time 0). exact H.
  - cbn [TemperatureFan.get_temp].
    set (s1 := if _ && _ then _ else _). clearbody s1.
    destruct (ControlBangBang.heating s1).
    + pose proof (set_speed_keeps tf read_time 0 Hi) as H.
      destruct (TemperatureFan.set_speed tc tf read_time 0). exact H.
    + pose proof (set_speed_keeps tf read_time
                    (TemperatureFan.get_max_speed tf) Hi) as H.
      destruct (TemperatureFan.set_speed tc tf read_time _). exact H.
Qed.

Lemma PID_callback_keeps c tf s read_time temp :
  I tf ->
  let r := ControlPID.temperature_callback tc c tf s read_time temp in
  I (fst (fst (fst r))) /\ Forall P (snd (fst r)).
Proof.
  intros Hi r. subst r. unfold ControlPID.temperature_callback.
  destruct (Py.lt temp _).
  - pose proof (set_speed_keeps tf read_time 0 Hi) as H.
    destruct (TemperatureFan.set_speed tc tf read_time 0). exact H.
  - destruct (ControlPID.temp_deriv c s read_time temp) as [d | e].
    + match goal with
      | |- context [TemperatureFan.set_speed tc tf read_time ?v] =>
          pose proof (set_speed_keeps tf read_time v Hi) as H;
          destruct (TemperatureFan.set_speed tc tf read_time v)
      end. exact H.
    + split; [exact Hi | constructor].
Qed.

Lemma Slope_floor_keeps c tf read_time speed :
  I tf ->
  let r := ControlSlope.floor_at_min_speed tc c tf read_time speed in
  I (fst (fst r)) /\ Forall P (snd (fst r)).
Proof.
  intros Hi r. subst r. unfold ControlSlope.floor_at_min_speed.
  destruct (Py.gt speed _); apply set_speed_keeps, Hi.
Qed.

Lemma Slope_run_algo_keeps c tf read_time temp :
  I tf ->
  let r := ControlSlope.run_algo math_log tc c tf read_time temp in
  I (fst (fst r)) /\ Forall P (snd (fst r)).
Proof.
  intros Hi r. subst r. unfold ControlSlope.run_algo.
  destruct (ControlSlope.algo c).
  - unfold ControlSlope.linear.
    destruct (Py.div _ _); [apply Slope_floor_keeps, Hi |].
    split; [exact Hi | constructor].
  - unfold ControlSlope.log.
    destruct (ControlSlope.log_of math_log _);
      [| split; [exact Hi | constructor]].
    destruct (ControlSlope.log_of math_log _);
      [| split; [exact Hi | constructor]].
    destruct (Py.div _ _); [apply Slope_floor_keeps, Hi |].
    split; [exact Hi | constructor].
  - unfold ControlSlope.exponential.
    destruct (Py.div _ _); [apply Slope_floor_keeps, Hi |].
    split; [exact Hi | constructor].
Qed.

Lemma Slope_callback_keeps c tf read_time temp :
  I tf ->
  let r := ControlSlope.temperature_callback math_log tc c tf read_time temp in
  I (fst (fst r)) /\ Forall P (snd (fst r)).
Proof.
  intros Hi r. subst r. unfold ControlSlope.temperature_callback.
  destruct (Py.lt temp _); [apply set_speed_keeps, Hi |].
  destruct (Py.gt temp _).
  - apply Slope_run_algo_keeps, set_target_temp_keeps, Hi.
  - split; [exact Hi | constructor].
Qed.

Lemma Sensor_callback_keeps tf k read_time temp :
  I tf ->
  let r := Sensor.temperature_callback math_log tc tf k read_time temp in
  I (fst (fst (fst r))) /\ Forall P (snd (fst r)).
Proof.
  intros Hi r. subst r. unfold Sensor.temperature_callback.
  pose proof (set_last_temp_keeps tf temp Hi) as Hi'.
  destruct k as [c s | c s | c].
  - pose proof (BangBang_callback_keeps c _ s read_time temp Hi') as H.
    cbn zeta in H.
    destruct (ControlBangBang.temperature_callback _ _ _ _ _ _)
      as [[tf' s'] ks]. exact H.
  - pose proof (PID_callback_keeps c _ s read_time temp Hi') as H.
    cbn zeta in H.
    destruct (ControlPID.temperature_callback _ _ _ _ _ _)
      as [[[tf' s'] ks] e]. exact H.
  - pose proof (Slope_callback_keeps c _ read_time temp Hi') as H.
    cbn zeta in H.
    destruct (ControlSlope.temperature_callback _ _ _ _ _ _)
      as [[tf' ks] e]. exact H.
Qed.

Lemma sensor_run_keeps samples :
  forall tf k,
    I tf ->
    let r := sensor_run math_log tc tf k samples in
    I (fst (fst (fst r))) /\ Forall P (snd (fst r)).
Proof.
  induction samples as [| [read_time temp] rest IH]; intros tf k Hi.
  - split; [exact Hi | constructor].
  - cbn [sensor_run].
    pose proof (Sensor_callback_keeps tf k read_time temp Hi) as H.
    cbn zeta in H.
    destruct (Sensor.temperature_callback _ _ _ _ _ _)
      as [[[tf1 k1] ks1] [e |]]; cbn [fst snd] in H.
    + exact H.
    + destruct H as [H1 H2]. specialize (IH tf1 k1 H1). cbn zeta in IH.
      destruct (sensor_run math_log tc tf1 k1 rest) as [[[tf2 k2] ks2] e].
      cbn [fst snd] in *. split; [apply IH |].
      apply Forall_app. split; [exact H2 | apply IH].
Qed.

End SensorInvariant.

Lemma TF_set_speed_keeps_agreement tc tf read_time value :
  speed_records_agree tf ->
  speed_records_agree (fst (TemperatureFan.set_speed tc tf read_time value)).
Proof.
  intros Hi.
  destruct (TF_set_speed_cases tc tf read_time value)
    as [-> | (_ & Hf & Hv & _)]; [exact Hi |].
  cbn zeta in Hf, Hv. unfold speed_records_agree. rewrite Hf, Hv.
  match goal with
  | |- Fan.last_fan_value (fst (Fan.set_speed ?c ?s ?t ?v)) == _ =>
      pose proof (Fan_set_speed_last_value c s t v) as H
  end.
  apply Py_eq_iff in H. lra.
Qed.

(** X15.  Whatever the controller and the samples, the temperature fan's
    record of the last speed and its fan's record of the last requested
    duty stay equal, also when a callback raises. *)
Theorem X15_speed_records_agree math_log tc tf k samples :
  speed_records_agree tf ->
  speed_records_agree
    (fst (fst (fst (sensor_run math_log tc tf k samples)))).
Proof.
  intros Hi.
  apply (sensor_run_keeps math_log tc speed_records_agree (fun _ => True)).
  - intros tf0 rt v H0. split.
    + apply TF_set_speed_keeps_agreement, H0.
    + apply Forall_forall. intros; exact I.
  - intros tf0 v H0. exact H0.
  - intros tf0 v H0. exact H0.
  - exact Hi.
Qed.

Lemma X15_speed_records_agree_witness :
  let tc := {| TemperatureFan.min_temp := 10;
               TemperatureFan.max_temp := 100;
               TemperatureFan.min_temp_cutoff := 0;
               TemperatureFan.target_temp_conf := 40;
               TemperatureFan.speed_delay := 0.3;
               TemperatureFan.max_speed_conf := 1;
               TemperatureFan.min_speed_conf := 0.3;
               TemperatureFan.fan_config :=
                 Fan.configure 1 0.1 0 false None |} in
  let tf := TemperatureFan.init tc in
  let k := Sensor.BangBang {| ControlBangBang.max_delta := 2 |}
             ControlBangBang.init in
  speed_records_agree tf
  /\ speed_records_agree
       (fst (fst (fst (sensor_run (fun x => x) tc tf k
                         [(1, 45); (2, 30)])))).
Proof.
  intros tc tf k.
  assert (H : speed_records_agree tf) by reflexivity.
  split; [exact H |].
  exact (X15_speed_records_agree (fun x => x) tc tf k [(1, 45); (2, 30)] H).
Defined.

(** X16.  Whatever the controller and the samples, with [max_power >= 0]
    every PWM command a temperature fan emits carries a duty in
    [0, max_power]. *)
Theorem X16_controller_duty_in_range math_log tc tf k samples :
  0 <= Fan.max_power (TemperatureFan.fan_config tc) ->
  Forall (duty_in_range (TemperatureFan.fan_config tc))
    (snd (fst (sensor_run math_log tc tf k samples))).
Proof.
  intros Hmp.
  apply (sensor_run_keeps math_log tc (fun _ => True)
           (duty_in_range (TemperatureFan.fan_config tc))).
  - intros tf0 rt v _. split; [exact I |].
    apply Forall_forall. intros x Hin.
    destruct (TF_set_speed_cases tc tf0 rt v) as [H | (Hs & _)].
    + rewrite H in Hin. destruct Hin.
    + cbn zeta in Hs. rewrite Hs in Hin.
      exact (Fan_set_speed_duty_in_range _ _ _ _ x Hmp Hin).
  - intros; exact I.
  - intros; exact I.
  - exact I.
Qed.

Lemma X16_controller_duty_in_range_witness :
  let tc := {| TemperatureFan.min_temp := 10;
               TemperatureFan.max_temp := 100;
               TemperatureFan.min_temp_cutoff := 0;
               TemperatureFan.target_temp_conf := 40;
               TemperatureFan.speed_delay := 0.3;
               TemperatureFan.max_speed_conf := 1;
               TemperatureFan.min_speed_conf := 0.3;
               TemperatureFan.fan_config :=
                 Fan.configure 0.8 0.1 0 false None |} in
  let tf := TemperatureFan.init tc in
  let k := Sensor.BangBang {| ControlBangBang.max_delta := 2 |}
             ControlBangBang.init in
  0 <= Fan.max_power (TemperatureFan.fan_config tc)
  /\ Forall (duty_in_range (TemperatureFan.fan_config tc))
       (snd (fst (sensor_run (fun x => x) tc tf k [(1, 45); (2, 30)]))).
Proof.
  intros tc tf k.
  assert (H : 0 <= Fan.max_power (TemperatureFan.fan_config tc))
    by (vm_compute; discriminate).
  split; [exact H |].
  exact (X16_controller_duty_in_range (fun x => x) tc tf k
           [(1, 45); (2, 30)] H).
Defined.

(** ** ControlBangBang *)

(** X17.  With [max_delta > 0] and a sample at or above the cutoff, the
    bang-bang state afterwards is "not heating" at or above
    [target + max_delta], "heating" at or below [target - max_delta], and
    unchanged strictly inside the band; the speed requested is
    [max_speed] when not heating and 0 when heating.  A sample below the
    cutoff leaves the state alone. *)
Theorem X17_bang_bang_hysteresis tc c tf s read_time temp :
  0 < ControlBangBang.max_delta c ->
  let r := ControlBangBang.temperature_callback tc c tf s read_time temp in
  let s' := snd (fst r) in
  let target := TemperatureFan.target_temp tf in
  (temp < TemperatureFan.min_temp_cutoff tc -> s' = s)
  /\ (TemperatureFan.min_temp_cutoff tc <= temp ->
      (target + ControlBangBang.max_delta c <= temp ->
       ControlBangBang.heating s' = false)
      /\ (temp <= target - ControlBangBang.max_delta c ->
          ControlBangBang.heating s' = true)
      /\ (target - ControlBangBang.max_delta c < temp ->
          temp < target + ControlBangBang.max_delta c ->
          ControlBangBang.heating s' = ControlBangBang.heating s)
      /\ (fst (fst r), snd r) =
         TemperatureFan.set_speed tc tf read_time
           (if ControlBangBang.heating s' then 0
            else TemperatureFan.max_speed tf)).
Proof.
  intros Hd r s' target. subst s' r.
  unfold ControlBangBang.temperature_callback.
  cbn [TemperatureFan.get_temp]. fold target. split.
  - intros Hc.
    assert (Py.lt temp (TemperatureFan.min_temp_cutoff tc) = true) as ->
        by (apply Py_lt_iff; exact Hc).
    destruct (TemperatureFan.set_speed tc tf read_time 0). reflexivity.
  - intros Hc.
    assert (Py.lt temp (TemperatureFan.min_temp_cutoff tc) = false) as ->
        by (apply Py_lt_false_iff; exact Hc).
    set (s1 := if ControlBangBang.heating s && _ then _ else _).
    assert (H1 : (target + ControlBangBang.max_delta c <= temp ->
                  ControlBangBang.heating s1 = false)
                 /\ (temp <= target - ControlBangBang.max_delta c ->
                     ControlBangBang.heating s1 = true)
                 /\ (target - ControlBangBang.max_delta c < temp ->
                     temp < target + ControlBangBang.max_delta c ->
                     ControlBangBang.heating s1 = ControlBangBang.heating s)).
    { subst s1. destruct (ControlBangBang.heating s) eqn:Eh;
        cbn [andb negb]; py_cases; cbn [ControlBangBang.heating];
        repeat split; intros; try reflexivity; try assumption; lra. }
    clearbody s1. destruct H1 as (Ha & Hb & Hm).
    unfold TemperatureFan.get_max_speed.
    destruct (ControlBangBang.heating s1) eqn:E1;
      destruct (TemperatureFan.set_speed tc tf read_time _) as [tf' ks]
        eqn:Es;
      cbn [fst snd]; rewrite E1;
      (split; [exact Ha | split; [exact Hb | split; [exact Hm |]]]);
      symmetry; exact Es.
Qed.

Lemma X17_bang_bang_hysteresis_witness :
  let tc := {| TemperatureFan.min_temp := 10;
               TemperatureFan.max_temp := 100;
               TemperatureFan.min_temp_cutoff := 0;
               TemperatureFan.target_temp_conf := 60;
               TemperatureFan.speed_delay := 0.3;
               TemperatureFan.max_speed_conf := 1;
               TemperatureFan.min_speed_conf := 0.3;
               TemperatureFan.fan_config :=
                 Fan.configure 1 0.1 0 false None |} in
  let c := {| ControlBangBang.max_delta := 5 |} in
  let tf := TemperatureFan.init tc in
  let s := {| ControlBangBang.heating := true |} in
  (0 < ControlBangBang.max_delta c
   /\ TemperatureFan.min_temp_cutoff tc <= 65
   /\ TemperatureFan.target_temp tf + ControlBangBang.max_delta c <= 65)
  /\ ControlBangBang.heating
       (snd (fst (ControlBangBang.temperature_callback tc c tf s 1 65)))
     = false.
Proof.
  intros tc c tf s.
  assert (H1 : 0 < ControlBangBang.max_delta c) by reflexivity.
  assert (H2 : TemperatureFan.min_temp_cutoff tc <= 65)
    by (vm_compute; discriminate).
  assert (H3 : TemperatureFan.target_temp tf + ControlBangBang.max_delta c
               <= 65) by (vm_compute; discriminate).
  split; [repeat split; assumption |].
  exact (proj1 (proj2 (X17_bang_bang_hysteresis tc c tf s 1 65 H1) H2) H3).
Defined.

(** ** ControlPID *)

Lemma PID_temp_integ_bounded c tf s read_time temp :
  0 <= ControlPID.temp_integ_max c ->
  0 <= ControlPID.temp_integ c tf s read_time temp
  <= ControlPID.temp_integ_max c.
Proof.
  intros Hm. unfold ControlPID.temp_integ.
  set (x := ControlPID.prev_temp_integ s + _). clearbody x.
  unfold Py.min. py_case; unfold Py.max; py_case; lra.
Qed.

Lemma Sensor_callback_integral math_log tc tf k read_time temp :
  integral_bounded k ->
  integral_bounded
    (snd (fst (fst (Sensor.temperature_callback math_log tc tf k
                      read_time temp)))).
Proof.
  intros Hk. unfold Sensor.temperature_callback.
  destruct k as [c s | c s | c].
  - destruct (ControlBangBang.temperature_callback _ _ _ _ _ _)
      as [[tf' s'] ks]. exact I.
  - unfold ControlPID.temperature_callback.
    destruct (Py.lt temp _).
    + destruct (TemperatureFan.set_speed _ _ _ _). exact Hk.
    + destruct (ControlPID.temp_deriv c s read_time temp) as [d | e];
        [| exact Hk].
      destruct (TemperatureFan.set_speed _ _ _ _) as [tf' ks].
      cbn [fst snd integral_bounded ControlPID.prev_temp_integ] in *.
      destruct (Py.eq _ _); [| exact Hk].
      apply PID_temp_integ_bounded. lra.
  - destruct (ControlSlope.temperature_callback _ _ _ _ _ _)
      as [[tf' ks] e]. exact I.
Qed.

(** X18.  The integral a PID controller stores never leaves
    [0, temp_integ_max]: if it lies there before a run of samples, it lies
    there after it. *)
Theorem X18_pid_integral_bounded math_log tc tf k samples :
  integral_bounded k ->
  integral_bounded
    (snd (fst (fst (sensor_run math_log tc tf k samples)))).
Proof.
  revert tf k. induction samples as [| [read_time temp] rest IH];
    intros tf k Hk.
  - exact Hk.
  - cbn [sensor_run].
    pose proof (Sensor_callback_integral math_log tc tf k read_time temp Hk)
      as H.
    destruct (Sensor.temperature_callback _ _ _ _ _ _)
      as [[[tf1 k1] ks1] [e |]]; cbn [fst snd] in H.
    + exact H.
    + specialize (IH tf1 k1 H).
      destruct (sensor_run math_log tc tf1 k1 rest) as [[[tf2 k2] ks2] e].
      exact IH.
Qed.

Lemma X18_pid_integral_bounded_witness :
  let tc := {| TemperatureFan.min_temp := 10;
               TemperatureFan.max_temp := 100;
               TemperatureFan.min_temp_cutoff := 0;
               TemperatureFan.target_temp_conf := 40;
               TemperatureFan.speed_delay := 0.3;
               TemperatureFan.max_speed_conf := 1;
               TemperatureFan.min_speed_conf := 0.3;
               TemperatureFan.fan_config :=
                 Fan.configure 1 0.1 0 false None |} in
  let k := Sensor.PID (ControlPID.configure 10 255 0 2 1) ControlPID.init in
  integral_bounded k
  /\ integral_bounded
       (snd (fst (fst (sensor_run (fun x => x) tc (TemperatureFan.init tc) k
                         [(1, 39.9); (2, 39.8)])))).
Proof.
  intros tc k.
  assert (H : integral_bounded k)
    by (split; vm_compute; discriminate).
  split; [exact H |].
  exact (X18_pid_integral_bounded (fun x => x) tc (TemperatureFan.init tc) k
           [(1, 39.9); (2, 39.8)] H).
Defined.

(** ** No exception under configured ranges *)

Lemma PID_temp_deriv_value c s read_time temp :
  0 < ControlPID.min_deriv_time c ->
  exists d, ControlPID.temp_deriv c s read_time temp = Py.Val d.
Proof.
  intros Hm. unfold ControlPID.temp_deriv, Py.div.
  destruct (Py.ge _ _) eqn:E;
    [apply Py_ge_iff in E | apply Py_ge_false_iff in E].
  - assert (Py.eq (read_time - ControlPID.prev_temp_time s) 0 = false) as ->
        by (apply Py_eq_false_iff; lra).
    eexists. reflexivity.
  - assert (Py.eq (ControlPID.min_deriv_time c) 0 = false) as ->
        by (apply Py_eq_false_iff; lra).
    eexists. reflexivity.
Qed.

Lemma Slope_clamped_bounds c temp :
  ControlSlope.min_temp c < ControlSlope.max_temp c ->
  ControlSlope.min_temp c <= ControlSlope.clamped c temp
  <= ControlSlope.max_temp c.
Proof.
  intros H. unfold ControlSlope.clamped.
  unfold Py.min. py_case; unfold Py.max; py_case; lra.
Qed.

Lemma Slope_floor_returns tc c tf read_time speed :
  snd (ControlSlope.floor_at_min_speed tc c tf read_time speed) = None.
Proof.
  unfold ControlSlope.floor_at_min_speed. destruct (Py.gt _ _); reflexivity.
Qed.

Lemma Slope_run_algo_returns math_log tc c tf read_time temp :
  cannot_raise math_log (Sensor.Slope c) ->
  ControlSlope.min_temp c <= temp ->
  snd (ControlSlope.run_algo math_log tc c tf read_time temp) = None.
Proof.
  intros [Hlt Hlog] Ht. unfold ControlSlope.run_algo.
  assert (Hdiv : forall a,
             exists q, Py.div a (ControlSlope.max_temp c
                                 - ControlSlope.min_temp c) = Py.Val q).
  { intros a. unfold Py.div.
    assert (Py.eq (ControlSlope.max_temp c - ControlSlope.min_temp c) 0
            = false) as -> by (apply Py_eq_false_iff; lra).
    eexists. reflexivity. }
  destruct (ControlSlope.algo c) eqn:Ea.
  - unfold ControlSlope.linear.
    destruct (Hdiv (temp - ControlSlope.min_temp c)) as [q ->].
    apply Slope_floor_returns.
  - unfold ControlSlope.log, ControlSlope.log_of.
    assert (Py.le (temp - ControlSlope.min_temp c + 1) 0 = false) as ->
        by (apply Py_le_false_iff; lra).
    assert (Py.le (ControlSlope.max_temp c - ControlSlope.min_temp c + 1) 0
            = false) as -> by (apply Py_le_false_iff; lra).
    unfold Py.div.
    assert (Py.eq (math_log (ControlSlope.max_temp c
                             - ControlSlope.min_temp c + 1)) 0 = false) as ->
        by (apply Py_eq_false_iff, Hlog; reflexivity).
    apply Slope_floor_returns.
  - unfold ControlSlope.exponential.
    destruct (Hdiv (temp - ControlSlope.min_temp c)) as [q ->].
    apply Slope_floor_returns.
Qed.

Lemma Sensor_callback_returns math_log tc tf k read_time temp :
  cannot_raise math_log k ->
  let r := Sensor.temperature_callback math_log tc tf k read_time temp in
  snd r = None /\ cannot_raise math_log (snd (fst (fst r))).
Proof.
  intros Hk r. subst r. unfold Sensor.temperature_callback.
  destruct k as [c s | c s | c].
  - destruct (ControlBangBang.temperature_callback _ _ _ _ _ _)
      as [[tf' s'] ks]. split; [reflexivity | exact I].
  - unfold ControlPID.temperature_callback.
    destruct (Py.lt temp _).
    + destruct (TemperatureFan.set_speed _ _ _ _).
      split; [reflexivity | exact Hk].
    + destruct (PID_temp_deriv_value c s read_time temp Hk) as [d ->].
      destruct (TemperatureFan.set_speed _ _ _ _).
      split; [reflexivity | exact Hk].
  - pose proof (Slope_run_algo_returns math_log tc c) as Hr.
    unfold ControlSlope.temperature_callback.
    destruct (Py.lt temp _); [split; [reflexivity | exact Hk] |].
    destruct (Py.gt temp _); [| split; [reflexivity | exact Hk]].
    specialize (Hr (TemperatureFan.set_target_temp
                      (ControlSlope.tracked_target
                         (ControlSlope.clamped c temp))
                      (TemperatureFan.set_last_temp temp tf))
                  read_time (ControlSlope.clamped c temp) Hk
                  (proj1 (Slope_clamped_bounds c temp (proj1 Hk)))).
    destruct (ControlSlope.run_algo _ _ _ _ _ _) as [[tf' ks] e].
    cbn [snd] in Hr. subst e. split; [reflexivity | exact Hk].
Qed.

(** X19.  A run of samples never raises when the controller is bang-bang,
    or PID with a positive derivative time, or a slope whose lower bound is
    below its upper bound (and, for the logarithmic mapping, whose range
    has a logarithm other than 0). *)
Theorem X19_no_exception math_log tc tf k samples :
  cannot_raise math_log k ->
  snd (sensor_run math_log tc tf k samples) = None.
Proof.
  revert tf k. induction samples as [| [read_time temp] rest IH];
    intros tf k Hk.
  - reflexivity.
  - cbn [sensor_run].
    pose proof (Sensor_callback_returns math_log tc tf k read_time temp Hk)
      as [H1 H2].
    destruct (Sensor.temperature_callback _ _ _ _ _ _)
      as [[[tf1 k1] ks1] e]. cbn [fst snd] in H1, H2. subst e.
    specialize (IH tf1 k1 H2).
    destruct (sensor_run math_log tc tf1 k1 rest) as [[[tf2 k2] ks2] e].
    exact IH.
Qed.

Lemma X19_no_exception_witness :
  let tc := {| TemperatureFan.min_temp := 10;
               TemperatureFan.max_temp := 100;
               TemperatureFan.min_temp_cutoff := 0;
               TemperatureFan.target_temp_conf := 40;
               TemperatureFan.speed_delay := 0.3;
               TemperatureFan.max_speed_conf := 1;
               TemperatureFan.min_speed_conf := 0.3;
               TemperatureFan.fan_config :=
                 Fan.configure 1 0.1 0 false None |} in
  let tf := TemperatureFan.init tc in
  let k := Sensor.Slope
             (ControlSlope.configure tc tf ControlSlope.Exponential) in
  cannot_raise (fun x => x) k
  /\ snd (sensor_run (fun x => x) tc tf k [(1, 30); (2, 90)]) = None.
Proof.
  intros tc tf k.
  assert (H : cannot_raise (fun x => x) k)
    by (split; [reflexivity | discriminate]).
  split; [exact H |].
  exact (X19_no_exception (fun x => x) tc tf k [(1, 30); (2, 90)] H).
Defined.

(** ** ControlSlope *)






(** ** PrinterFan: the registry of fans and M106/M107 *)

Module PrinterFanFacts.

Import stdpp.gmap.
Local Open Scope Q_scope.

Lemma add_fan_keeps p fan_number f n g :
  PrinterFan.fan_list p !! n = Some g ->
  match PrinterFan.add_fan p fan_number f with
  | inl p' =>
      PrinterFan.fan_list p' !! n = Some g
      /\ PrinterFan.fan p' = PrinterFan.fan p
  | inr _ => True
  end.
Proof.
  intros Hn. unfold PrinterFan.add_fan.
  destruct (PrinterFan.fan_list p !! fan_number) as [g0 |] eqn:E.
  - destruct (Z.eqb fan_number 0); exact I.
  - cbn [PrinterFan.fan_list PrinterFan.fan]. split; [| reflexivity].
    rewrite lookup_insert_ne; [exact Hn |]. intros ->. congruence.
Qed.

Lemma add_fans_keeps p adds n g :
  PrinterFan.fan_list p !! n = Some g ->
  PrinterFan.fan_list (PrinterFan.add_fans p adds) !! n = Some g.
Proof.
  revert p. induction adds as [| [fan_number f] rest IH]; intros p Hn.
  - exact Hn.
  - cbn [PrinterFan.add_fans].
    pose proof (add_fan_keeps p fan_number f n g Hn) as H.
    destruct (PrinterFan.add_fan p fan_number f) as [p' | e].
    + exact (IH p' (proj1 H)).
    + exact (IH p Hn).
Qed.

(** X23.  A fan number, once registered, keeps its fan through any further
    [add_fan] calls, accepted or rejected; in particular number 0 stays
    the primary fan. *)
Theorem X23_registered_fans_stay p adds n g :
  PrinterFan.fan_list p !! n = Some g ->
  PrinterFan.fan_list (PrinterFan.add_fans p adds) !! n = Some g
  /\ PrinterFan.fan (PrinterFan.add_fans p adds) = PrinterFan.fan p.
Proof.
  revert p. induction adds as [| [fan_number f] rest IH]; intros p Hn.
  - split; [exact Hn | reflexivity].
  - cbn [PrinterFan.add_fans].
    pose proof (add_fan_keeps p fan_number f n g Hn) as H.
    destruct (PrinterFan.add_fan p fan_number f) as [p' | e].
    + destruct H as [H1 H2]. rewrite <- H2. exact (IH p' H1).
    + exact (IH p Hn).
Qed.

Lemma X23_registered_fans_stay_witness :
  let p := PrinterFan.init 7%nat in
  let adds := [(0%Z, 9%nat); (1%Z, 8%nat); (1%Z, 9%nat)] in
  PrinterFan.fan_list p !! 0%Z = Some 7%nat
  /\ PrinterFan.fan_list (PrinterFan.add_fans p adds) !! 0%Z = Some 7%nat.
Proof.
  intros p adds.
  assert (H : PrinterFan.fan_list p !! 0%Z = Some 7%nat) by reflexivity.
  split; [exact H |].
  exact (proj1 (X23_registered_fans_stay p adds 0%Z 7%nat H)).
Defined.

Lemma add_fans_offered p adds n f :
  In (n, f) adds ->
  is_Some (PrinterFan.fan_list (PrinterFan.add_fans p adds) !! n).
Proof.
  revert p. induction adds as [| [m g] rest IH]; intros p; [intros [] |].
  intros [Heq | Hin]; [| cbn [PrinterFan.add_fans];
                         destruct (PrinterFan.add_fan p m g); apply IH, Hin].
  injection Heq as -> ->. cbn [PrinterFan.add_fans].
  unfold PrinterFan.add_fan.
  destruct (PrinterFan.fan_list p !! n) as [g0 |] eqn:E.
  - assert (Hk : PrinterFan.fan_list
                   (PrinterFan.add_fans p rest) !! n = Some g0)
      by (apply add_fans_keeps; exact E).
    destruct (Z.eqb n 0); rewrite Hk; eexists; reflexivity.
  - pose proof (add_fans_keeps
                  {| PrinterFan.fan := PrinterFan.fan p;
                     PrinterFan.fan_list := <[n:=f]> (PrinterFan.fan_list p) |}
                  rest n f) as Hk.
    rewrite Hk; [eexists; reflexivity |].
    apply lookup_insert_eq.
Qed.

(** X24.  Number 0 and every number offered to [add_fan] before are
    taken: registering one of them again raises the configuration error
    (the one for number 0, or "already defined") and changes nothing. *)
Theorem X24_taken_numbers_rejected r0 adds n g f :
  n = 0%Z \/ In (n, g) adds ->
  PrinterFan.add_fan (PrinterFan.add_fans (PrinterFan.init r0) adds) n f
  = inr (if Z.eqb n 0 then PrinterFan.SlicerFanNumberZero
         else PrinterFan.SlicerFanNumberDefined n).
Proof.
  intros H.
  assert (Hs : is_Some (PrinterFan.fan_list
                          (PrinterFan.add_fans (PrinterFan.init r0) adds)
                        !! n)).
  { destruct H as [-> | Hin].
    - exists r0. apply add_fans_keeps. reflexivity.
    - exact (add_fans_offered _ adds n g Hin). }
  destruct Hs as [g0 Hg]. unfold PrinterFan.add_fan. rewrite Hg.
  destruct (Z.eqb n 0); reflexivity.
Qed.

Lemma X24_taken_numbers_rejected_witness :
  let adds := [(2%Z, 8%nat); (3%Z, 9%nat)] in
  (0%Z = 0%Z \/ In (0%Z, 5%nat) adds)
  /\ PrinterFan.add_fan (PrinterFan.add_fans (PrinterFan.init 7%nat) adds)
       0%Z 5%nat
     = inr PrinterFan.SlicerFanNumberZero.
Proof.
  intros adds.
  assert (H : 0%Z = 0%Z \/ In (0%Z, 5%nat) adds) by (left; reflexivity).
  split; [exact H |].
  exact (X24_taken_numbers_rejected 7%nat adds 0%Z 5%nat 5%nat H).
Defined.

Lemma run_callback_lookup h f value pt o :
  h !! f = Some o ->
  let r := PrinterFan.run_callback h (f, value) pt in
  let fs := Fan.set_speed (PrinterFan.fan_config o) (PrinterFan.fan_state o)
              pt value in
  snd r = snd fs
  /\ fst r !! f = Some {| PrinterFan.fan_config := PrinterFan.fan_config o;
                          PrinterFan.fan_state := fst fs |}
  /\ forall f', f' <> f -> fst r !! f' = h !! f'.
Proof.
  intros Ho. cbn zeta. unfold PrinterFan.run_callback. rewrite Ho.
  destruct (Fan.set_speed _ _ _ _) as [s ks]. cbn [fst snd].
  split; [reflexivity |]. split.
  - apply lookup_insert_eq.
  - intros f' Hne. apply lookup_insert_ne. congruence.
Qed.

(** X25.  [M107] on a registered fan number queues one request for duty
    0: once the toolhead has run it, that fan's last requested duty is 0,
    the commands sent are those of [set_speed] with duty 0, and every
    other fan in the store is untouched.  On an unknown number the command
    only answers with the error and queues nothing. *)
Theorem X25_M107_turns_fan_off p h param_T pt :
  let r := PrinterFan.cmd_M107 p param_T in
  (PrinterFan.fan_list p !! param_T = None ->
   r = ([PrinterFan.InvalidFanNumber param_T], []))
  /\ (forall f o,
         PrinterFan.fan_list p !! param_T = Some f -> h !! f = Some o ->
         fst r = []
         /\ let out := PrinterFan.run_callbacks h (combine (snd r) [pt]) in
            (exists o',
                fst out !! f = Some o'
                /\ PrinterFan.fan_config o' = PrinterFan.fan_config o
                /\ Fan.last_fan_value (PrinterFan.fan_state o') == 0)
            /\ snd out
               = snd (Fan.set_speed (PrinterFan.fan_config o)
                        (PrinterFan.fan_state o) pt 0)
            /\ forall f', f' <> f -> fst out !! f' = h !! f').
Proof.
  intros r. subst r. unfold PrinterFan.cmd_M107. split.
  - intros ->. reflexivity.
  - intros f o Hf Ho. rewrite Hf. cbn [fst snd combine].
    split; [reflexivity |].
    cbn [PrinterFan.run_callbacks].
    pose proof (run_callback_lookup h f 0 pt o Ho) as (H1 & H2 & H3).
    destruct (PrinterFan.run_callback h (f, 0) pt) as [h1 ks1].
    cbn [fst snd] in *. rewrite app_nil_r. split; [| split].
    + eexists. split; [exact H2 |]. cbn. split; [reflexivity |].
      pose proof (Fan_set_speed_last_value (PrinterFan.fan_config o)
                    (PrinterFan.fan_state o) pt 0) as Hl.
      apply Py_eq_iff in Hl. lra.
    + exact H1.
    + exact H3.
Qed.

Lemma X25_M107_turns_fan_off_witness :
  let o := {| PrinterFan.fan_config := Fan.configure 1 0.1 0 true None;
              PrinterFan.fan_state :=
                fst (Fan.set_speed (Fan.configure 1 0.1 0 true None)
                       Fan.init 1 0.5) |} in
  let p := PrinterFan.init 7%nat in
  let h : PrinterFan.store := {[ 7%nat := o ]} in
  (PrinterFan.fan_list p !! 0%Z = Some 7%nat /\ h !! 7%nat = Some o)
  /\ snd (PrinterFan.run_callbacks h
            (combine (snd (PrinterFan.cmd_M107 p 0%Z)) [3]))
     = snd (Fan.set_speed (PrinterFan.fan_config o)
              (PrinterFan.fan_state o) 3 0).
Proof.
  intros o p h.
  assert (H1 : PrinterFan.fan_list p !! 0%Z = Some 7%nat) by reflexivity.
  assert (H2 : h !! 7%nat = Some o) by reflexivity.
  split; [split; assumption |].
  exact (proj1 (proj2 (proj2 (proj2 (X25_M107_turns_fan_off p h 0%Z 3)
                                 7%nat o H1 H2)))).
Defined.

(** X26.  [M106] on a registered fan number requests [S] itself when
    0 < S < 1 and [S / 255] otherwise (so [S = 1] is 1/255).  In the first
    case the request is queued twice; the second copy is suppressed, so in
    both cases the commands sent are those of one [set_speed] call, the
    fan's last requested duty becomes the value, and every other fan in
    the store is untouched. *)
Theorem X26_M106_sets_speed p h param_S param_T pt1 pt2 f o :
  PrinterFan.fan_list p !! param_T = Some f -> h !! f = Some o ->
  let value :=
    if Py.lt 0 param_S && Py.lt param_S 1 then param_S
    else param_S / 255 in
  let r := PrinterFan.cmd_M106 p param_S param_T in
  let out := PrinterFan.run_callbacks h (combine (snd r) [pt1; pt2]) in
  fst r = []
  /\ (exists o',
         fst out !! f = Some o'
         /\ PrinterFan.fan_config o' = PrinterFan.fan_config o
         /\ Fan.last_fan_value (PrinterFan.fan_state o') == value)
  /\ snd out
     = snd (Fan.set_speed (PrinterFan.fan_config o) (PrinterFan.fan_state o)
              pt1 value)
  /\ forall f', f' <> f -> fst out !! f' = h !! f'.
Proof.
  intros Hf Ho value r out. subst out r value.
  unfold PrinterFan.cmd_M106. rewrite Hf.
  destruct (Py.lt 0 param_S && Py.lt param_S 1);
    cbn [fst snd combine PrinterFan.run_callbacks].
  - pose proof (run_callback_lookup h f param_S pt1 o Ho) as (H1 & H2 & H3).
    destruct (PrinterFan.run_callback h (f, param_S) pt1) as [h1 ks1].
    cbn [fst snd] in *.
    pose proof (run_callback_lookup h1 f param_S pt2 _ H2) as (K1 & K2 & K3).
    destruct (PrinterFan.run_callback h1 (f, param_S) pt2) as [h2 ks2].
    cbn [fst snd PrinterFan.fan_config PrinterFan.fan_state] in *.
    pose proof (Fan_set_speed_last_value (PrinterFan.fan_config o)
                  (PrinterFan.fan_state o) pt1 param_S) as Hl.
    assert (Hnoop : Fan.set_speed (PrinterFan.fan_config o)
                      (fst (Fan.set_speed (PrinterFan.fan_config o)
                              (PrinterFan.fan_state o) pt1 param_S))
                      pt2 param_S
                    = (fst (Fan.set_speed (PrinterFan.fan_config o)
                              (PrinterFan.fan_state o) pt1 param_S), [])).
    { unfold Fan.set_speed at 1. rewrite Hl. reflexivity. }
    rewrite Hnoop in K1, K2. cbn [fst snd] in K1, K2.
    split; [reflexivity |]. split; [| split].
    + eexists. split; [exact K2 |]. cbn. split; [reflexivity |].
      apply Py_eq_iff in Hl. lra.
    + rewrite K1, H1, !app_nil_r. reflexivity.
    + intros f' Hne. rewrite (K3 f' Hne). exact (H3 f' Hne).
  - pose proof (run_callback_lookup h f (param_S / 255) pt1 o Ho)
      as (H1 & H2 & H3).
    destruct (PrinterFan.run_callback h (f, param_S / 255) pt1) as [h1 ks1].
    cbn [fst snd] in *. rewrite app_nil_r.
    split; [reflexivity |]. split; [| split].
    + eexists. split; [exact H2 |]. cbn. split; [reflexivity |].
      pose proof (Fan_set_speed_last_value (PrinterFan.fan_config o)
                    (PrinterFan.fan_state o) pt1 (param_S / 255)) as Hl.
      apply Py_eq_iff in Hl. lra.
    + exact H1.
    + exact H3.
Qed.

Lemma X26_M106_sets_speed_witness :
  let o := {| PrinterFan.fan_config := Fan.configure 1 0.1 0 true None;
              PrinterFan.fan_state := Fan.init |} in
  let p := PrinterFan.init 7%nat in
  let h : PrinterFan.store := {[ 7%nat := o ]} in
  (PrinterFan.fan_list p !! 0%Z = Some 7%nat /\ h !! 7%nat = Some o)
  /\ snd (PrinterFan.run_callbacks h
            (combine (snd (PrinterFan.cmd_M106 p 0.5 0%Z)) [3; 4]))
     = snd (Fan.set_speed (PrinterFan.fan_config o)
              (PrinterFan.fan_state o) 3 0.5).
Proof.
  intros o p h.
  assert (H1 : PrinterFan.fan_list p !! 0%Z = Some 7%nat) by reflexivity.
  assert (H2 : h !! 7%nat = Some o) by reflexivity.
  split; [split; assumption |].
  exact (proj1 (proj2 (proj2 (X26_M106_sets_speed p h 0.5 0%Z 3 4 7%nat o
                                 H1 H2)))).
Defined.

End PrinterFanFacts.
